(** * Token lifecycle, access control and read-through cache of the students API

    A shallow embedding of the authentication layer
    ([hw11_13t9/security.py], [hw11t9/routers/auth.py]), of the students
    repository ([hw11_13t9/repositories.py]) and of the cached students
    router ([hw11-13t9/routers/students.py], [hw11-13t9/cache.py]),
    followed by the properties of the specification that concern them,
    and by further properties of the same code: how the endpoints
    compose, what the repository and the background tasks do to the
    table, and that the cache does not change what the router without a
    cache ([hw11t9/routers/students.py]) answers.

    Conventions of the model.
    - A Python [str] is a [string]: a sequence of code points below 256
      (the range in which Starlette decodes header values).
    - A [datetime] is an integer number of microseconds, a Redis time an
      integer number of milliseconds.
    - Every call of [now_utc()] and of [generate_token_pair()] is an
      argument of the operation that performs it, in call order;
      [generate_token_pair] itself is a function of the bytes the
      random source delivers.
    - A SQLAlchemy session is a pair of stores: the committed one and the
      working copy of the open transaction.
    - The database is SQLite, as [database.py] names it, behind the
      driver of the standard library: a key is a 64-bit integer and the
      driver refuses to bind any other [int] ([OverflowError]); a NaN is
      stored as NULL, which a NOT NULL column refuses
      ([IntegrityError]); a zero is stored without its sign.
    - The schema module that the cached router imports is not among the
      sources: [StudentOut] is the one of [hw11t9/schemas.py], applied
      to the attributes of a row.
    - Redis is a collaborator of the repository: [Redis] models the four
      commands that [cache.py] and the router issue.
    - Requests run one at a time; the database and the cache server are
      always reachable. *)

From Stdlib Require Import ZArith List String Ascii Bool Lia Floats.
From Stdlib Require Import DecimalString DecimalZ.
From stdpp Require Import gmap strings.
Import ListNotations.

Local Open Scope string_scope.
Local Open Scope Z_scope.

(** ** Python string helpers *)

Module Str.

Definition code (c : ascii) : Z := Z.of_N (N_of_ascii c).

(** [str.isspace] on one code point below 256. *)
Definition isspace (c : ascii) : bool :=
  let n := code c in
  ((9 <=? n) && (n <=? 13)) || ((28 <=? n) && (n <=? 32))
  || (n =? 133) || (n =? 160).

Fixpoint lstrip (s : string) : string :=
  match s with
  | String c s' => if isspace c then lstrip s' else s
  | EmptyString => EmptyString
  end.

Fixpoint rstrip (s : string) : string :=
  match s with
  | String c s' =>
      match rstrip s' with
      | EmptyString => if isspace c then EmptyString else String c EmptyString
      | r => String c r
      end
  | EmptyString => EmptyString
  end.

(** [s.strip()] *)
Definition strip (s : string) : string := rstrip (lstrip s).

(** [s.startswith(p)] *)
Definition startswith (s p : string) : bool := String.prefix p s.

(** [s.split(" ", 1)]: the pieces before and after the first space;
    a single piece when [s] has no space. *)
Fixpoint split_space_once (s : string) : list string :=
  match s with
  | EmptyString => [EmptyString]
  | String c s' =>
      if Ascii.eqb c " "%char then [EmptyString; s']
      else match split_space_once s' with
           | hd :: tl => String c hd :: tl
           | [] => []
           end
  end.

(** Truth value of a [str]: the empty string is falsy. *)
Definition truthy (s : string) : bool :=
  match s with EmptyString => false | _ => true end.

(** Truth value of an [Optional[str]]. *)
Definition truthy_opt (o : option string) : bool :=
  match o with Some s => truthy s | None => false end.

End Str.

(** ** SHA-256 (FIPS 180-4), as computed by [hashlib.sha256] *)

Module Sha256.

Definition w32 (x : Z) : Z := x mod 2 ^ 32.
Definition add32 (x y : Z) : Z := w32 (x + y).
Definition rotr (n x : Z) : Z :=
  Z.lor (Z.shiftr x n) (w32 (Z.shiftl x (32 - n))).
Definition not32 (x : Z) : Z := Z.lxor x 0xffffffff.

Definition Ch (x y z : Z) : Z := Z.lxor (Z.land x y) (Z.land (not32 x) z).
Definition Maj (x y z : Z) : Z :=
  Z.lxor (Z.lxor (Z.land x y) (Z.land x z)) (Z.land y z).
Definition Sigma0 (x : Z) : Z := Z.lxor (Z.lxor (rotr 2 x) (rotr 13 x)) (rotr 22 x).
Definition Sigma1 (x : Z) : Z := Z.lxor (Z.lxor (rotr 6 x) (rotr 11 x)) (rotr 25 x).
Definition sigma0 (x : Z) : Z := Z.lxor (Z.lxor (rotr 7 x) (rotr 18 x)) (Z.shiftr x 3).
Definition sigma1 (x : Z) : Z := Z.lxor (Z.lxor (rotr 17 x) (rotr 19 x)) (Z.shiftr x 10).

(** The first 64 primes, 2 to 311. *)
Definition is_prime (n : nat) : bool :=
  List.forallb (fun d => negb (Nat.eqb (Nat.modulo n d) 0)) (List.seq 2 (n - 2)).
Definition primes : list Z :=
  List.map Z.of_nat (List.filter is_prime (List.seq 2 310)).

(** The integer cube root, one bit at a time from bit [k - 1] down. *)
Fixpoint cbrt_bits (k : nat) (r n : Z) : Z :=
  match k with
  | O => r
  | S k' =>
      let c := r + 2 ^ Z.of_nat k' in
      if c * c * c <=? n then cbrt_bits k' c n else cbrt_bits k' r n
  end.

(** The round constants: the first 32 bits of the fractional parts of
    the cube roots of the primes. *)
Definition K : list Z :=
  List.map (fun p => w32 (cbrt_bits 36 0 (p * 2 ^ 96))) primes.

(** The initial hash value: the same for the square roots of the first
    eight primes. *)
Definition H0 : list Z :=
  List.map (fun p => w32 (Z.sqrt (p * 2 ^ 64))) (List.firstn 8 primes).

(** Big-endian bytes of an integer, [n] of them. *)
Fixpoint be_bytes (n : nat) (x : Z) : list Z :=
  match n with
  | O => []
  | S n' => (Z.shiftr x (8 * Z.of_nat n')) mod 256 :: be_bytes n' x
  end.

(** The message followed by 0x80, zero bytes up to 56 modulo 64, and
    the bit length on eight bytes. *)
Definition pad (msg : list Z) : list Z :=
  let len := Z.of_nat (List.length msg) in
  let zeros := Z.to_nat ((55 - len) mod 64) in
  msg ++ [0x80] ++ List.repeat 0 zeros ++ be_bytes 8 (8 * len).

Fixpoint be_words (n : nat) (bs : list Z) : list Z :=
  match n, bs with
  | S n', b0 :: b1 :: b2 :: b3 :: rest =>
      (b0 * 2 ^ 24 + b1 * 2 ^ 16 + b2 * 2 ^ 8 + b3) :: be_words n' rest
  | _, _ => []
  end.

(** The message schedule, last word first. *)
Fixpoint schedule (n : nat) (ws : list Z) : list Z :=
  match n with
  | O => ws
  | S n' =>
      let w := add32 (add32 (sigma1 (nth 1 ws 0)) (nth 6 ws 0))
                     (add32 (sigma0 (nth 14 ws 0)) (nth 15 ws 0)) in
      schedule n' (w :: ws)
  end.

Record regs : Type := Regs { ra : Z; rb : Z; rc : Z; rd : Z; re : Z; rf : Z; rg : Z; rh : Z }.

Definition round (r : regs) (kw : Z * Z) : regs :=
  let t1 := add32 (add32 (add32 (rh r) (Sigma1 (re r))) (Ch (re r) (rf r) (rg r)))
                  (add32 (fst kw) (snd kw)) in
  let t2 := add32 (Sigma0 (ra r)) (Maj (ra r) (rb r) (rc r)) in
  Regs (add32 t1 t2) (ra r) (rb r) (rc r) (add32 (rd r) t1) (re r) (rf r) (rg r).

Definition of_list (h : list Z) : regs :=
  Regs (nth 0 h 0) (nth 1 h 0) (nth 2 h 0) (nth 3 h 0)
       (nth 4 h 0) (nth 5 h 0) (nth 6 h 0) (nth 7 h 0).

Definition compress (h : list Z) (block : list Z) : list Z :=
  let ws := List.rev (schedule 48 (List.rev (be_words 16 block))) in
  let r := List.fold_left round (List.combine K ws) (of_list h) in
  [ add32 (nth 0 h 0) (ra r); add32 (nth 1 h 0) (rb r);
    add32 (nth 2 h 0) (rc r); add32 (nth 3 h 0) (rd r);
    add32 (nth 4 h 0) (re r); add32 (nth 5 h 0) (rf r);
    add32 (nth 6 h 0) (rg r); add32 (nth 7 h 0) (rh r) ].

Fixpoint blocks (n : nat) (h : list Z) (bs : list Z) : list Z :=
  match n with
  | O => h
  | S n' => blocks n' (compress h (List.firstn 64 bs)) (List.skipn 64 bs)
  end.

(** The 32 bytes of the digest. *)
Definition digest (msg : list Z) : list Z :=
  let p := pad msg in
  List.flat_map (be_bytes 4) (blocks (Nat.div (List.length p) 64) H0 p).

Definition hex_digit (d : Z) : ascii :=
  ascii_of_N (Z.to_N (if d <? 10 then 48 + d else 87 + d)).

(** [.hexdigest()]: two lower-case digits per byte. *)
Fixpoint hex (bs : list Z) : string :=
  match bs with
  | [] => EmptyString
  | b :: rest => String (hex_digit (b / 16)) (String (hex_digit (b mod 16)) (hex rest))
  end.

Definition hexdigest (msg : list Z) : string := hex (digest msg).

End Sha256.

(** [s.encode("utf-8")] for code points below 256. *)
Fixpoint encode_utf8 (s : string) : list Z :=
  match s with
  | EmptyString => []
  | String c s' =>
      let n := Str.code c in
      if n <? 128 then n :: encode_utf8 s'
      else (192 + n / 64) :: (128 + n mod 64) :: encode_utf8 s'
  end.

(** ** [security.py]: passwords and token lifetimes *)

Definition PASSWORD_SALT : string := "very-secret-salt-for-homework".

Definition ACCESS_TOKEN_LIFETIME_MINUTES : Z := 15.
Definition REFRESH_TOKEN_LIFETIME_DAYS : Z := 7.

(** [timedelta(minutes=m)] and [timedelta(days=d)] in microseconds. *)
Definition timedelta_minutes (m : Z) : Z := m * 60 * 1000000.
Definition timedelta_days (d : Z) : Z := d * 86400 * 1000000.

Definition hash_password (raw : string) : string :=
  let data := encode_utf8 (PASSWORD_SALT ++ raw) in
  Sha256.hexdigest data.

Definition verify_password (raw hashed : string) : bool :=
  String.eqb (hash_password raw) hashed.

(** *** [generate_token_pair] *)

(** The alphabet of [base64.urlsafe_b64encode]. *)
Definition urlsafe_alphabet : string :=
  "ABCDEFGHIJKLMNOPQRSTUVWXYZabcdefghijklmnopqrstuvwxyz0123456789-_".

(** The character of a six-bit group. *)
Definition urlsafe_char (n : Z) : ascii :=
  match String.get (Z.to_nat (n mod 64)) urlsafe_alphabet with
  | Some c => c
  | None => "A"%char
  end.

(** [base64.urlsafe_b64encode(bs).rstrip(b"=")]: four characters for
    three bytes, three for a remainder of two, two for a remainder of
    one. *)
Fixpoint urlsafe_b64encode_nopad (bs : list Z) : string :=
  match bs with
  | b0 :: b1 :: b2 :: rest =>
      let n := (b0 mod 256) * 65536 + (b1 mod 256) * 256 + b2 mod 256 in
      String (urlsafe_char (n / 262144))
        (String (urlsafe_char (n / 4096))
           (String (urlsafe_char (n / 64))
              (String (urlsafe_char n) (urlsafe_b64encode_nopad rest))))
  | [b0; b1] =>
      let n := (b0 mod 256) * 65536 + (b1 mod 256) * 256 in
      String (urlsafe_char (n / 262144))
        (String (urlsafe_char (n / 4096))
           (String (urlsafe_char (n / 64)) EmptyString))
  | [b0] =>
      let n := (b0 mod 256) * 65536 in
      String (urlsafe_char (n / 262144))
        (String (urlsafe_char (n / 4096)) EmptyString)
  | [] => EmptyString
  end.




(** ** Redis: the key space of the cache server *)

Module Redis.

(** A key holds a string and the server time (ms) at which it expires. *)
Record entry : Type := Entry { value : string; expire_at : Z }.

Abbreviation t := (gmap string entry).

(** Glob matching of [SCAN ... MATCH pattern] for a pattern of literal
    characters, [*] (any run of characters), [?] (one character) and
    [\c] (the character [c]). Bracket classes are outside the model:
    the one pattern the code uses is the "students:*" of [cache.py],
    and the properties below are about that pattern. *)
Fixpoint glob (p : string) : string -> bool :=
  match p with
  | EmptyString => fun s => negb (Str.truthy s)
  | String c p' =>
      if Ascii.eqb c "*"%char then
        fix star (s : string) : bool :=
          glob p' s || match s with
                       | EmptyString => false
                       | String _ s' => star s'
                       end
      else if Ascii.eqb c "?"%char then
        fun s => match s with
                 | EmptyString => false
                 | String _ s' => glob p' s'
                 end
      else if Ascii.eqb c "\"%char then
        match p' with
        | String e p'' =>
            fun s => match s with
                     | EmptyString => false
                     | String d s' => Ascii.eqb e d && glob p'' s'
                     end
        | EmptyString =>
            fun s => match s with
                     | String d EmptyString => Ascii.eqb c d
                     | _ => false
                     end
        end
      else
        fun s => match s with
                 | EmptyString => false
                 | String d s' => Ascii.eqb c d && glob p' s'
                 end
  end.

(** The entries that have not expired at server time [now]. *)
Definition live (now : Z) (r : t) : t :=
  filter (fun kv => now < expire_at kv.2) r.

(** [GET key] *)
Definition get (key : string) (now : Z) (r : t) : option string :=
  value <$> live now r !! key.

(** [SETEX key seconds value]; the server refuses a TTL that is not
    positive. *)
Definition setex (key : string) (seconds : Z) (v : string) (now : Z) (r : t)
  : option t :=
  if 0 <? seconds
  then Some (<[key := Entry v (now + seconds * 1000)]> r)
  else None.

(** [scan_iter(pattern)]: the live keys that match. *)
Definition scan_iter (pattern : string) (now : Z) (r : t) : list string :=
  List.filter (glob pattern) (List.map fst (map_to_list (live now r))).

(** [DEL key] *)
Definition delete (key : string) (r : t) : t := base.delete key r.

End Redis.

(** ** [models.py]: the three tables *)

Module Student.
Record t : Type := mk {
  id : Z;
  last_name : string;
  first_name : string;
  faculty : string;
  course : string;
  grade : float
}.
End Student.

Module User.
Record t : Type := mk {
  id : Z;
  username : string;
  password_hash : string;
  is_readonly : bool;
  is_active : bool
}.
End User.

Module Token.
Record t : Type := mk {
  id : Z;
  user_id : option Z;
  access_token : string;
  refresh_token : string;
  access_expires_at : Z;
  refresh_expires_at : Z;
  is_active : bool
}.

Definition set_is_active (b : bool) (tk : t) : t :=
  mk (id tk) (user_id tk) (access_token tk) (refresh_token tk)
     (access_expires_at tk) (refresh_expires_at tk) b.
Definition set_access_token (s : string) (tk : t) : t :=
  mk (id tk) (user_id tk) s (refresh_token tk)
     (access_expires_at tk) (refresh_expires_at tk) (is_active tk).
Definition set_refresh_token (s : string) (tk : t) : t :=
  mk (id tk) (user_id tk) (access_token tk) s
     (access_expires_at tk) (refresh_expires_at tk) (is_active tk).
Definition set_access_expires_at (z : Z) (tk : t) : t :=
  mk (id tk) (user_id tk) (access_token tk) (refresh_token tk)
     z (refresh_expires_at tk) (is_active tk).
Definition set_refresh_expires_at (z : Z) (tk : t) : t :=
  mk (id tk) (user_id tk) (access_token tk) (refresh_token tk)
     (access_expires_at tk) z (is_active tk).
End Token.

(** The rows of the database, each table in row order. *)
Record Store : Type := mkStore {
  users : list User.t;
  tokens : list Token.t;
  students : list Student.t
}.

Definition set_users (us : list User.t) (s : Store) : Store :=
  mkStore us (tokens s) (students s).
Definition set_tokens (ts : list Token.t) (s : Store) : Store :=
  mkStore (users s) ts (students s).
Definition set_students (ss : list Student.t) (s : Store) : Store :=
  mkStore (users s) (tokens s) ss.

(** The key SQLite gives to an inserted row: one more than the largest
    key of the table, 1 in an empty table. *)
Definition next_id (ids : list Z) : Z :=
  match ids with
  | [] => 1
  | i :: rest => 1 + List.fold_right Z.max i rest
  end.

(** A Python [int] that fits the 64-bit INTEGER of SQLite; the driver
    refuses to bind any other with [OverflowError]. *)
Definition sqlite_int (n : Z) : bool := (- 2 ^ 63 <=? n) && (n <? 2 ^ 63).

(** The REAL that SQLite keeps for a Python [float] and gives back: NaN
    is stored as NULL ([None]), and a zero is stored without its sign. *)
Definition sqlite_real (x : float) : option float :=
  if PrimFloat.is_nan x then None
  else if PrimFloat.eqb x 0 then Some 0%float
  else Some x.

(** ** The process state and the monad of request handlers *)

(** What [background_tasks.add_task] records. *)
Inductive Task : Type :=
| import_students_from_csv_task_of (csv_path : string)
| bulk_delete_students_task_of (ids : list Z).

Record World : Type := mkWorld {
  db : Store;              (* committed rows *)
  txn : Store;             (* rows as the open transaction sees them *)
  redis : Redis.t;         (* key space of [redis_client] *)
  background : list Task   (* tasks scheduled by the running request *)
}.

Definition set_db (s : Store) (w : World) : World :=
  mkWorld s (txn w) (redis w) (background w).
Definition set_txn (s : Store) (w : World) : World :=
  mkWorld (db w) s (redis w) (background w).
Definition set_redis (r : Redis.t) (w : World) : World :=
  mkWorld (db w) (txn w) r (background w).
Definition set_background (b : list Task) (w : World) : World :=
  mkWorld (db w) (txn w) (redis w) b.

Inductive exn : Type :=
| HTTPException (status_code : Z) (detail : string)
| IntegrityError
| AttributeError
| IndexError
| FileNotFoundError
| ResponseError
| JSONDecodeError
| OverflowError
| ValidationError.

Inductive outcome (A : Type) : Type :=
| Return (a : A)
| Raise (e : exn).
Arguments Return {A} a.
Arguments Raise {A} e.

Definition M (A : Type) : Type := World -> outcome A * World.

Definition ret {A} (a : A) : M A := fun w => (Return a, w).
Definition raise {A} (e : exn) : M A := fun w => (Raise e, w).
Definition bind {A B} (c : M A) (k : A -> M B) : M B :=
  fun w => match c w with
           | (Return a, w') => k a w'
           | (Raise e, w') => (Raise e, w')
           end.

Declare Scope py_scope.
Delimit Scope py_scope with py.
Notation "x <- c ;; k" := (bind c (fun x => k))
  (at level 100, c at next level, right associativity) : py_scope.
Notation "c ;; k" := (bind c (fun _ => k))
  (at level 100, right associativity) : py_scope.
Local Open Scope py_scope.

Definition gets {A} (f : World -> A) : M A := fun w => (Return (f w), w).
Definition modify (f : World -> World) : M unit := fun w => (Return tt, f w).

Definition HTTP_400_BAD_REQUEST : Z := 400.
Definition HTTP_401_UNAUTHORIZED : Z := 401.
Definition HTTP_403_FORBIDDEN : Z := 403.
Definition HTTP_404_NOT_FOUND : Z := 404.

(** ** [database.py]: sessions *)

(** [SessionLocal()]: a transaction that starts from the committed rows. *)
Definition SessionLocal : M unit := modify (fun w => set_txn (db w) w).

(** [db.close()]: what was not committed is rolled back. *)
Definition close : World -> World := fun w => set_txn (db w) w.

(** [try: ... finally: db.close()] around a computation. *)
Definition finally_close {A} (h : M A) : M A :=
  fun w => let (r, w') := h w in (r, close w').

(** [get_db]: the session a request depends on, closed when the request
    is over. *)
Definition get_db {A} (h : M A) : M A := finally_close (SessionLocal ;; h).

(** [db.commit()] *)
Definition commit : M unit := modify (fun w => set_db (txn w) w).

(** [db.query(T).filter(p).first()] *)
Definition query_first {A} (table : Store -> list A) (p : A -> bool) : M (option A) :=
  gets (fun w => List.find p (table (txn w))).

(** [db.query(Token).filter(p).update({...})]: one UPDATE statement. *)
Definition query_update_tokens (p : Token.t -> bool) (f : Token.t -> Token.t) : M unit :=
  modify (fun w =>
    set_txn (set_tokens (List.map (fun tk => if p tk then f tk else tk)
                                  (tokens (txn w))) (txn w)) w).

(** [db.add(user)], with the INSERT that the flush of the following
    [db.commit()] executes: [username] is unique. *)
Definition add_user (username password_hash : string) (is_readonly is_active : bool)
  : M User.t :=
  us <- gets (fun w => users (txn w)) ;;
  if List.existsb (fun u => String.eqb (User.username u) username) us
  then raise IntegrityError
  else
    let user := User.mk (next_id (List.map User.id us))
                        username password_hash is_readonly is_active in
    modify (fun w => set_txn (set_users (us ++ [user]) (txn w)) w) ;;
    ret user.

(** [db.add(token_obj)], with its INSERT: [access_token] and
    [refresh_token] are unique. *)
Definition add_token (user_id : option Z) (access_token refresh_token : string)
    (access_expires_at refresh_expires_at : Z) (is_active : bool) : M Token.t :=
  ts <- gets (fun w => tokens (txn w)) ;;
  if List.existsb (fun tk => String.eqb (Token.access_token tk) access_token
                             || String.eqb (Token.refresh_token tk) refresh_token) ts
  then raise IntegrityError
  else
    let token_obj := Token.mk (next_id (List.map Token.id ts)) user_id
                              access_token refresh_token
                              access_expires_at refresh_expires_at is_active in
    modify (fun w => set_txn (set_tokens (ts ++ [token_obj]) (txn w)) w) ;;
    ret token_obj.

(** The UPDATE that the flush of [db.commit()] writes after
    [token_obj.access_token], [.refresh_token] and the two expiry
    attributes were assigned: the row with the key of [token_obj] takes
    its columns, and the two token columns stay unique among the other
    rows. *)
Definition flush_token_pair (token_obj : Token.t) : M unit :=
  ts <- gets (fun w => tokens (txn w)) ;;
  if List.existsb
       (fun tk => negb (Token.id tk =? Token.id token_obj)
                  && (String.eqb (Token.access_token tk) (Token.access_token token_obj)
                      || String.eqb (Token.refresh_token tk) (Token.refresh_token token_obj)))
       ts
  then raise IntegrityError
  else
    modify (fun w =>
      set_txn (set_tokens
                 (List.map (fun tk => if Token.id tk =? Token.id token_obj
                                      then token_obj else tk) ts)
                 (txn w)) w).

(** The UPDATE written after [token_obj.is_active] was assigned. *)
Definition flush_is_active (token_obj : Token.t) : M unit :=
  modify (fun w =>
    set_txn (set_tokens
               (List.map (fun tk => if Token.id tk =? Token.id token_obj
                                    then Token.set_is_active (Token.is_active token_obj) tk
                                    else tk) (tokens (txn w)))
               (txn w)) w).

(** [token_obj.user]: the row of [users] the foreign key points to. *)
Definition Token_user (token_obj : Token.t) : M (option User.t) :=
  match Token.user_id token_obj with
  | None => ret None
  | Some uid => query_first users (fun u => User.id u =? uid)
  end.

(** Attribute access on an [Optional[User]]. *)
Definition getattr {A} (o : option User.t) (attr : User.t -> A) : M A :=
  match o with
  | Some u => ret (attr u)
  | None => raise AttributeError
  end.

(** ** [security.py]: access control *)

Record Request : Type := mkRequest {
  (* [request.headers.get("Authorization")] *)
  Authorization : option string
}.

(** The token string a request presents: the stripped remainder of a
    [Bearer] header, else the stripped query parameter. [None] when the
    source finds none ([not token_str]). *)
Definition presented_token (request : Request) (access_token_q : option string)
  : outcome (option string) :=
  let auth_header := Authorization request in
  let token_str : outcome (option string) :=
    match auth_header with
    | Some h =>
        if Str.truthy h && Str.startswith h "Bearer "
        then match List.nth_error (Str.split_space_once h) 1 with
             | Some piece => Return (Some (Str.strip piece))
             | None => Raise IndexError
             end
        else Return None
    | None => Return None
    end in
  match token_str with
  | Raise e => Raise e
  | Return token_str =>
      let token_str :=
        if negb (Str.truthy_opt token_str) && Str.truthy_opt access_token_q
        then Str.strip <$> access_token_q
        else token_str in
      if negb (Str.truthy_opt token_str) then Return None else Return token_str
  end.

Definition get_current_token (request : Request) (access_token_q : option string)
    (now_utc : Z) : M Token.t :=
  match presented_token request access_token_q with
  | Raise e => raise e
  | Return None =>
      raise (HTTPException HTTP_401_UNAUTHORIZED
        "Missing access token (use Authorization: Bearer <token> or ?access_token=)")
  | Return (Some token_str) =>
      token_obj <- query_first tokens
                     (fun tk => String.eqb (Token.access_token tk) token_str
                                && Token.is_active tk) ;;
      match token_obj with
      | None =>
          raise (HTTPException HTTP_401_UNAUTHORIZED "Token expired or invalid")
      | Some token_obj =>
          if Token.access_expires_at token_obj <? now_utc
          then raise (HTTPException HTTP_401_UNAUTHORIZED "Token expired or invalid")
          else
            user <- Token_user token_obj ;;
            active <- getattr user User.is_active ;;
            if negb active
            then raise (HTTPException HTTP_401_UNAUTHORIZED "User is inactive")
            else ret token_obj
      end
  end.

(** [get_current_user(token = Depends(get_current_token))] *)
Definition get_current_user (token : M Token.t) : M (option User.t) :=
  tk <- token ;; Token_user tk.

(** [require_write_user(user = Depends(get_current_user))] *)
Definition require_write_user (user : M (option User.t)) : M User.t :=
  user <- user ;;
  readonly <- getattr user User.is_readonly ;;
  if readonly
  then raise (HTTPException HTTP_403_FORBIDDEN "Read-only user cannot modify data")
  else match user with
       | Some u => ret u
       | None => raise AttributeError
       end.

(** ** [schemas.py]: request and response bodies *)

Module UserRegister.
Record t : Type := mk { username : string; password : string; is_readonly : bool }.
End UserRegister.

Module UserLogin.
Record t : Type := mk { username : string; password : string }.
End UserLogin.

Module TokenPairOut.
Record t : Type := mk {
  access_token : string;
  refresh_token : string;
  token_type : string
}.
(** [TokenPairOut(access_token=..., refresh_token=...)] *)
Definition make (access_token refresh_token : string) : t :=
  mk access_token refresh_token "bearer".
End TokenPairOut.

Module RefreshIn.
Record t : Type := mk { refresh_token : string }.
End RefreshIn.

Module MessageOut.
Record t : Type := mk { detail : string }.
End MessageOut.

Module StudentCreate.
Record t : Type := mk {
  last_name : string;
  first_name : string;
  faculty : string;
  course : string;
  grade : float
}.
End StudentCreate.

(** [StudentOut]: the columns of a row with its key; [grade] is a
    float between 0 and 100, as [StudentBase] declares it. *)
Module StudentOut.

(** [StudentOut.model_validate(s).model_dump(mode="json")] for a row
    [s] of the table: the columns of the row as a JSON-ready value, or
    [None] when the validation raises [ValidationError] (a NaN fails
    both comparisons). *)
Definition model_validate (s : Student.t) : option Student.t :=
  if PrimFloat.leb 0 (Student.grade s) && PrimFloat.leb (Student.grade s) 100
  then Some s
  else None.

End StudentOut.

(** A field of [StudentUpdate] is unset ([None]), set to [null]
    ([Some None]) or set to a value. *)
Module StudentUpdate.
Record t : Type := mk {
  last_name : option (option string);
  first_name : option (option string);
  faculty : option (option string);
  course : option (option string);
  grade : option (option float)
}.
End StudentUpdate.

Module CSVImportRequest.
Record t : Type := mk { path : string }.
End CSVImportRequest.

Module BulkDeleteRequest.
Record t : Type := mk { ids : list Z }.
End BulkDeleteRequest.

(** ** [routers/auth.py] *)

Definition register_user (payload : UserRegister.t) : M MessageOut.t :=
  existing <- query_first users
                (fun u => String.eqb (User.username u) (UserRegister.username payload)) ;;
  match existing with
  | Some _ =>
      raise (HTTPException HTTP_400_BAD_REQUEST "Username already exists")
  | None =>
      add_user (UserRegister.username payload) (hash_password (UserRegister.password payload))
               (UserRegister.is_readonly payload) true ;;
      commit ;;
      ret (MessageOut.mk "User registered successfully")
  end.

(** [pair] is what [generate_token_pair()] returns; [now1] and [now2]
    are the two readings of [now_utc()]. *)
Definition login_user (payload : UserLogin.t) (pair : string * string) (now1 now2 : Z)
  : M TokenPairOut.t :=
  user <- query_first users
            (fun u => String.eqb (User.username u) (UserLogin.username payload)) ;;
  match user with
  | None =>
      raise (HTTPException HTTP_401_UNAUTHORIZED "Invalid username or password")
  | Some user =>
      if negb (verify_password (UserLogin.password payload) (User.password_hash user))
      then raise (HTTPException HTTP_401_UNAUTHORIZED "Invalid username or password")
      else
        query_update_tokens
          (fun tk => match Token.user_id tk with
                     | Some uid => uid =? User.id user
                     | None => false
                     end)
          (Token.set_is_active false) ;;
        let '(access_token, refresh_token) := pair in
        add_token (Some (User.id user)) access_token refresh_token
          (now1 + timedelta_minutes ACCESS_TOKEN_LIFETIME_MINUTES)
          (now2 + timedelta_days REFRESH_TOKEN_LIFETIME_DAYS)
          true ;;
        commit ;;
        ret (TokenPairOut.make access_token refresh_token)
  end.

(** [now0] is the reading compared with the refresh expiry, [now1] and
    [now2] the readings the new expiries are computed from. *)
Definition refresh_tokens (payload : RefreshIn.t) (pair : string * string)
    (now0 now1 now2 : Z) : M TokenPairOut.t :=
  token_obj <- query_first tokens
                 (fun tk => String.eqb (Token.refresh_token tk) (RefreshIn.refresh_token payload)
                            && Token.is_active tk) ;;
  match token_obj with
  | None =>
      raise (HTTPException HTTP_401_UNAUTHORIZED "Invalid or expired refresh token")
  | Some token_obj =>
      if Token.refresh_expires_at token_obj <? now0
      then raise (HTTPException HTTP_401_UNAUTHORIZED "Invalid or expired refresh token")
      else
        user <- Token_user token_obj ;;
        active <- getattr user User.is_active ;;
        if negb active
        then raise (HTTPException HTTP_401_UNAUTHORIZED "Invalid or expired refresh token")
        else
          let '(access_token, refresh_token) := pair in
          let token_obj := Token.set_access_token access_token token_obj in
          let token_obj := Token.set_refresh_token refresh_token token_obj in
          let token_obj := Token.set_access_expires_at
                             (now1 + timedelta_minutes ACCESS_TOKEN_LIFETIME_MINUTES)
                             token_obj in
          let token_obj := Token.set_refresh_expires_at
                             (now2 + timedelta_days REFRESH_TOKEN_LIFETIME_DAYS)
                             token_obj in
          flush_token_pair token_obj ;;
          commit ;;
          ret (TokenPairOut.make access_token refresh_token)
  end.

(** [logout(token_obj = Depends(get_current_token))] *)
Definition logout (token_obj : M Token.t) : M MessageOut.t :=
  token_obj <- token_obj ;;
  let token_obj := Token.set_is_active false token_obj in
  flush_is_active token_obj ;;
  commit ;;
  ret (MessageOut.mk "Logged out successfully").

(** The endpoints of the authentication router as [main.py] mounts them:
    FastAPI resolves [Depends(get_db)] once per request. *)
Definition post_auth_register (payload : UserRegister.t) : M MessageOut.t :=
  get_db (register_user payload).

Definition post_auth_login (payload : UserLogin.t) (pair : string * string)
    (now1 now2 : Z) : M TokenPairOut.t :=
  get_db (login_user payload pair now1 now2).

Definition post_auth_refresh (payload : RefreshIn.t) (pair : string * string)
    (now0 now1 now2 : Z) : M TokenPairOut.t :=
  get_db (refresh_tokens payload pair now0 now1 now2).

Definition post_auth_logout (request : Request) (access_token_q : option string)
    (now_utc : Z) : M MessageOut.t :=
  get_db (logout (get_current_token request access_token_q now_utc)).

(** The dependency chains [Depends(get_current_user)] and
    [Depends(require_write_user)] of a request. *)
Definition current_user (request : Request) (access_token_q : option string)
    (now_utc : Z) : M (option User.t) :=
  get_current_user (get_current_token request access_token_q now_utc).

Definition write_user (request : Request) (access_token_q : option string)
    (now_utc : Z) : M User.t :=
  require_write_user (current_user request access_token_q now_utc).

(** ** [repositories.py]: [StudentsRepository] *)

Module StudentsRepository.

(** [db.add(student); db.commit(); db.refresh(student)]: the INSERT of
    the flush (every column is NOT NULL, so a NaN grade, which SQLite
    takes for NULL, violates the constraint), the commit, and the row
    as it is read back. *)
Definition create (data : StudentCreate.t) : M Student.t :=
  ss <- gets (fun w => students (txn w)) ;;
  match sqlite_real (StudentCreate.grade data) with
  | None => raise IntegrityError
  | Some grade =>
      let student := Student.mk (next_id (List.map Student.id ss))
                       (StudentCreate.last_name data) (StudentCreate.first_name data)
                       (StudentCreate.faculty data) (StudentCreate.course data)
                       grade in
      modify (fun w => set_txn (set_students (ss ++ [student]) (txn w)) w) ;;
      commit ;;
      ret student
  end.

(** [db.get(Student, student_id)]: a SELECT by primary key. *)
Definition db_get (student_id : Z) : M (option Student.t) :=
  if sqlite_int student_id
  then query_first students (fun s => Student.id s =? student_id)
  else raise OverflowError.

Definition get (student_id : Z) : M (option Student.t) := db_get student_id.

Definition list : M (list Student.t) := gets (fun w => students (txn w)).

(** The value a column takes from a field of the update: the old one
    when the field is unset, [None] (a NOT NULL violation) when it is
    set to [null]. *)
Definition setattr {A} (old : A) (field : option (option A)) : option A :=
  match field with
  | None => Some old
  | Some v => v
  end.

(** The same for [grade], whose new value is the REAL that SQLite keeps
    for it. *)
Definition setattr_real (old : float) (field : option (option float)) : option float :=
  match field with
  | None => Some old
  | Some v => v ≫= sqlite_real
  end.

Definition update (student_id : Z) (data : StudentUpdate.t) : M (option Student.t) :=
  student <- db_get student_id ;;
  match student with
  | None => ret None
  | Some student =>
      match setattr (Student.last_name student) (StudentUpdate.last_name data),
            setattr (Student.first_name student) (StudentUpdate.first_name data),
            setattr (Student.faculty student) (StudentUpdate.faculty data),
            setattr (Student.course student) (StudentUpdate.course data),
            setattr_real (Student.grade student) (StudentUpdate.grade data) with
      | Some ln, Some fn, Some fa, Some co, Some gr =>
          let student := Student.mk (Student.id student) ln fn fa co gr in
          modify (fun w =>
            set_txn (set_students
                       (List.map (fun s => if Student.id s =? student_id
                                           then student else s)
                                 (students (txn w)))
                       (txn w)) w) ;;
          commit ;;
          ret (Some student)
      | _, _, _, _, _ => raise IntegrityError
      end
  end.

Definition delete (student_id : Z) : M bool :=
  student <- db_get student_id ;;
  match student with
  | None => ret false
  | Some _ =>
      modify (fun w =>
        set_txn (set_students
                   (List.filter (fun s => negb (Student.id s =? student_id))
                                (students (txn w)))
                   (txn w)) w) ;;
      commit ;;
      ret true
  end.

End StudentsRepository.

(** ** [cache.py]: the shared Redis client *)

Definition redis_get (key : string) (rnow : Z) : M (option string) :=
  gets (fun w => Redis.get key rnow (redis w)).

Definition redis_setex (key : string) (seconds : Z) (v : string) (rnow : Z) : M unit :=
  fun w => match Redis.setex key seconds v rnow (redis w) with
           | Some r => (Return tt, set_redis r w)
           | None => (Raise ResponseError, w)
           end.

Definition redis_scan_iter (pattern : string) (rnow : Z) : M (list string) :=
  gets (fun w => Redis.scan_iter pattern rnow (redis w)).

Definition redis_delete (key : string) : M unit :=
  modify (fun w => set_redis (Redis.delete key (redis w)) w).

(** [for x in xs: body(x)] *)
Fixpoint for_each {A} (xs : list A) (body : A -> M unit) : M unit :=
  match xs with
  | [] => ret tt
  | x :: rest => body x ;; for_each rest body
  end.

Definition invalidate_students_cache (rnow : Z) : M unit :=
  let pattern := "students:*" in
  keys <- redis_scan_iter pattern rnow ;;
  for_each keys redis_delete.

(** [str(n)] for an [int]. *)
Definition str_of_int (n : Z) : string := NilZero.string_of_int (Z.to_int n).

(** [str(ids)] for a list of [int]. *)
Definition str_of_ints (ids : list Z) : string :=
  "[" ++ String.concat ", " (List.map str_of_int ids) ++ "]".

(** ** [routers/students.py]: the cached students router *)

(** One row of [csv.DictReader]: what [row.get] returns for the five
    columns the import reads (family name, given name, faculty, course
    and grade). *)
Record CsvRow : Type := mkCsvRow {
  Familiya : option string;
  Imya : option string;
  Fakultet : option string;
  Kurs : option string;
  Otsenka : option string
}.

(** [x or ""] *)
Definition or_empty (x : option string) : string :=
  match x with
  | Some s => if Str.truthy s then s else ""
  | None => ""
  end.

Section StudentsRouter.

(** The collaborators the router calls and the model leaves open:
    [json.dumps] and [json.loads] on the two payloads, [float] on a
    string ([None] for a [ValueError]), and the rows read from a path
    ([None] when the file cannot be opened). *)
Variable json_dumps : list Student.t -> string.
Variable json_loads : string -> option (list Student.t).
Variable json_dumps_student : Student.t -> string.
Variable json_loads_student : string -> option Student.t.
Variable float_of_str : string -> option float.
Variable read_csv : string -> option (list CsvRow).

(** [db.add(student)], with the INSERT that the flush of the
    [db.commit()] after the loop executes for it. A NaN grade violates
    NOT NULL there: nothing but further [db.add] calls lies between,
    so that the task ends the same way, with [IntegrityError] and
    nothing committed. *)
Definition add_student (last_name first_name faculty course : string) (grade : float)
  : M unit :=
  match sqlite_real grade with
  | None => raise IntegrityError
  | Some grade =>
      modify (fun w =>
        let ss := students (txn w) in
        set_txn (set_students
                   (ss ++ [Student.mk (next_id (List.map Student.id ss))
                                      last_name first_name faculty course grade])
                   (txn w)) w)
  end.

Definition import_row (row : CsvRow) : M unit :=
  if negb (Str.truthy_opt (Familiya row)) || negb (Str.truthy_opt (Imya row))
  then ret tt
  else
    let course_name := Str.strip (or_empty (Kurs row)) in
    if negb (Str.truthy course_name)
    then ret tt
    else
      match Otsenka row ≫= float_of_str with
      | None => ret tt
      | Some grade =>
          add_student (Str.strip (or_empty (Familiya row)))
                      (Str.strip (or_empty (Imya row)))
                      (Str.strip (or_empty (Fakultet row)))
                      course_name grade
      end.

Definition import_students_from_csv_task (csv_path : string) (rnow : Z) : M unit :=
  SessionLocal ;;
  finally_close
    (match read_csv csv_path with
     | None => raise FileNotFoundError
     | Some reader =>
         for_each reader import_row ;;
         commit ;;
         invalidate_students_cache rnow
     end).

Definition bulk_delete_students_task (ids : list Z) (rnow : Z) : M unit :=
  match ids with
  | [] => ret tt
  | _ =>
      SessionLocal ;;
      finally_close
        ((if List.forallb sqlite_int ids
          then modify (fun w =>
                 set_txn (set_students
                            (List.filter
                               (fun s => negb (List.existsb (Z.eqb (Student.id s)) ids))
                               (students (txn w)))
                            (txn w)) w)
          else raise OverflowError) ;;
         commit ;;
         invalidate_students_cache rnow)
  end.

Definition add_task (task : Task) : M unit :=
  modify (fun w => set_background (background w ++ [task]) w).

Definition import_students_from_csv (payload : CSVImportRequest.t) (user : M User.t)
  : M MessageOut.t :=
  _ <- user ;;
  add_task (import_students_from_csv_task_of (CSVImportRequest.path payload)) ;;
  ret (MessageOut.mk ("CSV import scheduled for path: " ++ CSVImportRequest.path payload)).

Definition bulk_delete_students (payload : BulkDeleteRequest.t) (user : M User.t)
  : M MessageOut.t :=
  _ <- user ;;
  match BulkDeleteRequest.ids payload with
  | [] => ret (MessageOut.mk "No IDs provided, nothing to delete")
  | ids =>
      add_task (bulk_delete_students_task_of ids) ;;
      ret (MessageOut.mk ("Bulk delete scheduled for ids: " ++ str_of_ints ids))
  end.

Definition create_student (payload : StudentCreate.t) (user : M User.t) (rnow : Z)
  : M Student.t :=
  _ <- user ;;
  student <- StudentsRepository.create payload ;;
  invalidate_students_cache rnow ;;
  ret student.

(** [rnow1] is the server time of the GET, [rnow2] that of the SETEX. *)
Definition list_students (user : M (option User.t)) (rnow1 rnow2 : Z)
  : M (list Student.t) :=
  _ <- user ;;
  let cache_key := "students:list" in
  cached <- redis_get cache_key rnow1 ;;
  if Str.truthy_opt cached
  then match json_loads (or_empty cached) with
       | Some data => ret data
       | None => raise JSONDecodeError
       end
  else
    students <- StudentsRepository.list ;;
    match mapM StudentOut.model_validate students with
    | None => raise ValidationError
    | Some data =>
        redis_setex cache_key 60 (json_dumps data) rnow2 ;;
        ret data
    end.

Definition get_student (student_id : Z) (user : M (option User.t)) (rnow1 rnow2 : Z)
  : M Student.t :=
  _ <- user ;;
  let cache_key := "students:" ++ str_of_int student_id in
  cached <- redis_get cache_key rnow1 ;;
  if Str.truthy_opt cached
  then match json_loads_student (or_empty cached) with
       | Some data => ret data
       | None => raise JSONDecodeError
       end
  else
    student <- StudentsRepository.get student_id ;;
    match student with
    | None => raise (HTTPException HTTP_404_NOT_FOUND "Student not found")
    | Some student =>
        match StudentOut.model_validate student with
        | None => raise ValidationError
        | Some data =>
            redis_setex cache_key 60 (json_dumps_student data) rnow2 ;;
            ret data
        end
    end.

Definition update_student (student_id : Z) (payload : StudentUpdate.t)
    (user : M User.t) (rnow : Z) : M Student.t :=
  _ <- user ;;
  student <- StudentsRepository.update student_id payload ;;
  match student with
  | None => raise (HTTPException HTTP_404_NOT_FOUND "Student not found")
  | Some student =>
      invalidate_students_cache rnow ;;
      ret student
  end.

Definition delete_student (student_id : Z) (user : M User.t) (rnow : Z) : M unit :=
  _ <- user ;;
  ok <- StudentsRepository.delete student_id ;;
  if negb ok
  then raise (HTTPException HTTP_404_NOT_FOUND "Student not found")
  else
    invalidate_students_cache rnow ;;
    ret tt.

(** *** The application: dependencies and background tasks *)

Definition run_task (rnow : Z) (task : Task) : M unit :=
  match task with
  | import_students_from_csv_task_of csv_path =>
      import_students_from_csv_task csv_path rnow
  | bulk_delete_students_task_of ids =>
      bulk_delete_students_task ids rnow
  end.

(** One request: the handler runs with the session of [get_db]; when it
    returns, the tasks it scheduled run in order (at Redis time
    [rnow_bg]), and an exception in one of them stops the others. *)
Definition serve {A} (handler : M A) (rnow_bg : Z) : M A :=
  fun w =>
    match get_db handler (set_background [] w) with
    | (Return a, w1) =>
        let (_, w2) := for_each (background w1) (run_task rnow_bg)
                                (set_background [] w1) in
        (Return a, set_background [] w2)
    | (Raise e, w1) => (Raise e, set_background [] w1)
    end.

(** The five write operations of the router. *)
Inductive WriteOp : Type :=
| OpCreate (payload : StudentCreate.t)
| OpUpdate (student_id : Z) (payload : StudentUpdate.t)
| OpDelete (student_id : Z)
| OpImportCsv (payload : CSVImportRequest.t)
| OpBulkDelete (payload : BulkDeleteRequest.t).

(** The handler of a write operation, its result forgotten. *)
Definition write_handler (op : WriteOp) (user : M User.t) (rnow : Z) : M unit :=
  match op with
  | OpCreate payload => create_student payload user rnow ;; ret tt
  | OpUpdate student_id payload => update_student student_id payload user rnow ;; ret tt
  | OpDelete student_id => delete_student student_id user rnow
  | OpImportCsv payload => import_students_from_csv payload user ;; ret tt
  | OpBulkDelete payload => bulk_delete_students payload user ;; ret tt
  end.

(** A write request as the application serves it. *)
Definition write_request (op : WriteOp) (request : Request)
    (access_token_q : option string) (now_utc rnow rnow_bg : Z) : M unit :=
  serve (write_handler op (write_user request access_token_q now_utc) rnow) rnow_bg.

End StudentsRouter.

(** ** [hw11t9/routers/students.py]: the students router without a cache *)

Module Hw11t9.

Definition create_student (payload : StudentCreate.t) (user : M User.t) : M Student.t :=
  _ <- user ;;
  student <- StudentsRepository.create payload ;;
  ret student.

Definition list_students (user : M (option User.t)) : M (list Student.t) :=
  _ <- user ;;
  StudentsRepository.list.

Definition get_student (student_id : Z) (user : M (option User.t)) : M Student.t :=
  _ <- user ;;
  student <- StudentsRepository.get student_id ;;
  match student with
  | None => raise (HTTPException HTTP_404_NOT_FOUND "Student not found")
  | Some student => ret student
  end.

Definition update_student (student_id : Z) (payload : StudentUpdate.t)
    (user : M User.t) : M Student.t :=
  _ <- user ;;
  student <- StudentsRepository.update student_id payload ;;
  match student with
  | None => raise (HTTPException HTTP_404_NOT_FOUND "Student not found")
  | Some student => ret student
  end.

Definition delete_student (student_id : Z) (user : M User.t) : M unit :=
  _ <- user ;;
  ok <- StudentsRepository.delete student_id ;;
  if negb ok
  then raise (HTTPException HTTP_404_NOT_FOUND "Student not found")
  else ret tt.

End Hw11t9.

(** * Vocabulary of the properties *)

(** The token a string designates in a store: the first active row that
    carries it as access token. *)
Definition active_by_access (st : Store) (s : string) : option Token.t :=
  List.find (fun tk => String.eqb (Token.access_token tk) s && Token.is_active tk)
            (tokens st).

(** The row [token_obj.user] loads from a store. *)
Definition owner (st : Store) (tk : Token.t) : option User.t :=
  match Token.user_id tk with
  | None => None
  | Some uid => List.find (fun u => User.id u =? uid) (users st)
  end.

(** What [get_current_token] answers, as a function of the rows it reads. *)
Definition access_check (st : Store) (request : Request) (q : option string) (now_utc : Z)
  : outcome Token.t :=
  match presented_token request q with
  | Raise e => Raise e
  | Return None =>
      Raise (HTTPException 401
        "Missing access token (use Authorization: Bearer <token> or ?access_token=)")
  | Return (Some s) =>
      match active_by_access st s with
      | None => Raise (HTTPException 401 "Token expired or invalid")
      | Some tk =>
          if Token.access_expires_at tk <? now_utc
          then Raise (HTTPException 401 "Token expired or invalid")
          else match owner st tk with
               | None => Raise AttributeError
               | Some u =>
                   if User.is_active u then Return tk
                   else Raise (HTTPException 401 "User is inactive")
               end
      end
  end.

(** [Token.user_id == uid] as the UPDATE of [login_user] filters it. *)
Definition owned_by (uid : Z) (tk : Token.t) : bool :=
  match Token.user_id tk with
  | Some u => u =? uid
  | None => false
  end.

(** The active token pairs of a user. *)
Definition active_pairs (uid : Z) (st : Store) : list Token.t :=
  List.filter (fun tk => owned_by uid tk && Token.is_active tk) (tokens st).

(** The row the username filter of [register_user] and [login_user]
    finds. *)
Definition user_by_username (st : Store) (name : string) : option User.t :=
  List.find (fun u => String.eqb (User.username u) name) (users st).

(** The rows of [tokens] once the pairs of [uid] are deactivated. *)
Definition deactivate_all (uid : Z) (ts : list Token.t) : list Token.t :=
  List.map (fun tk => if owned_by uid tk then Token.set_is_active false tk else tk) ts.

(** Whether the INSERT of a pair violates a uniqueness constraint. *)
Definition token_taken (access_token refresh_token : string) (ts : list Token.t) : bool :=
  List.existsb (fun tk => String.eqb (Token.access_token tk) access_token
                          || String.eqb (Token.refresh_token tk) refresh_token) ts.

(** The row [login_user] inserts after the rows [ts]. *)
Definition issued (uid : Z) (pair : string * string) (now1 now2 : Z) (ts : list Token.t)
  : Token.t :=
  Token.mk (next_id (List.map Token.id ts)) (Some uid) (fst pair) (snd pair)
           (now1 + timedelta_minutes ACCESS_TOKEN_LIFETIME_MINUTES)
           (now2 + timedelta_days REFRESH_TOKEN_LIFETIME_DAYS) true.

(** The first active row that carries a string as refresh token. *)
Definition active_by_refresh (st : Store) (s : string) : option Token.t :=
  List.find (fun tk => String.eqb (Token.refresh_token tk) s && Token.is_active tk)
            (tokens st).

(** The token object of [refresh_tokens] after its four assignments. *)
Definition rotated (tk : Token.t) (pair : string * string) (now1 now2 : Z) : Token.t :=
  Token.mk (Token.id tk) (Token.user_id tk) (fst pair) (snd pair)
           (now1 + timedelta_minutes ACCESS_TOKEN_LIFETIME_MINUTES)
           (now2 + timedelta_days REFRESH_TOKEN_LIFETIME_DAYS)
           (Token.is_active tk).

(** The rows of [tokens] once the row with the key of [tk'] is [tk']. *)
Definition replace_row (tk' : Token.t) (ts : list Token.t) : list Token.t :=
  List.map (fun x => if Token.id x =? Token.id tk' then tk' else x) ts.

(** Whether the UPDATE of a rotated pair violates a uniqueness
    constraint. *)
Definition pair_clash (tk' : Token.t) (ts : list Token.t) : bool :=
  List.existsb
    (fun x => negb (Token.id x =? Token.id tk')
              && (String.eqb (Token.access_token x) (Token.access_token tk')
                  || String.eqb (Token.refresh_token x) (Token.refresh_token tk')))
    ts.

(** The rows of [tokens] once the row with the key of [tk] is revoked. *)
Definition revoke_row (tk : Token.t) (ts : list Token.t) : list Token.t :=
  List.map (fun x => if Token.id x =? Token.id tk then Token.set_is_active false x else x)
           ts.

(** The row [register_user] inserts after the rows [us]. *)
Definition registered (payload : UserRegister.t) (us : list User.t) : User.t :=
  User.mk (next_id (List.map User.id us)) (UserRegister.username payload)
          (hash_password (UserRegister.password payload))
          (UserRegister.is_readonly payload) true.

(** The constraints [models.py] puts on the two tables: primary keys,
    unique usernames, unique access and refresh tokens, and a stored
    owner for every token. *)
Definition store_ok (st : Store) : Prop :=
  List.NoDup (List.map User.id (users st)) /\
  List.NoDup (List.map User.username (users st)) /\
  List.NoDup (List.map Token.id (tokens st)) /\
  List.NoDup (List.map Token.access_token (tokens st)) /\
  List.NoDup (List.map Token.refresh_token (tokens st)) /\
  (forall tk, In tk (tokens st) -> owner st tk <> None).

(** The key space once the keys of a list are deleted, in order. *)
Definition delete_all (keys : list string) (r : Redis.t) : Redis.t :=
  List.fold_left (fun r k => Redis.delete k r) keys r.

(** What [scan_iter(pattern)] followed by the deletions leaves. *)
Definition purge (pattern : string) (now : Z) (r : Redis.t) : Redis.t :=
  delete_all (Redis.scan_iter pattern now r) r.

(** No live key of the students cache at server time [now] or later. *)
Definition students_cache_purged (now : Z) (r : Redis.t) : Prop :=
  forall k t, now <= t -> Redis.glob "students:*" k = true -> Redis.get k t r = None.

(** What a handler that writes directly leaves: either it raised before
    committing, or it committed and purged the cache. *)
Definition direct_write_outcome (rnow : Z) (w : World) (r : outcome unit) (w1 : World)
  : Prop :=
  background w1 = background w /\
  ((exists e, r = Raise e /\ db w1 = db w /\ redis w1 = redis w) \/
   (r = Return tt /\ txn w1 = db w1 /\
    redis w1 = purge "students:*" rnow (redis w))).

(** Whether the handler of a write operation writes itself, or
    schedules a task that does. *)
Definition writes_directly (op : WriteOp) : bool :=
  match op with
  | OpCreate _ | OpUpdate _ _ | OpDelete _ => true
  | OpImportCsv _ | OpBulkDelete _ => false
  end.

(** The tasks a write operation schedules. *)
Definition scheduled (op : WriteOp) : list Task :=
  match op with
  | OpImportCsv payload =>
      [import_students_from_csv_task_of (CSVImportRequest.path payload)]
  | OpBulkDelete payload =>
      match BulkDeleteRequest.ids payload with
      | [] => []
      | ids => [bulk_delete_students_task_of ids]
      end
  | _ => []
  end.

(** A string that is empty or starts with a character that is no
    whitespace; one without any whitespace. *)
Definition head_not_space (s : string) : bool :=
  match s with
  | EmptyString => true
  | String c _ => negb (Str.isspace c)
  end.


(** The characters of a lower-case hexadecimal numeral. *)
Definition is_lower_hex (c : ascii) : bool :=
  let n := Str.code c in
  ((48 <=? n) && (n <=? 57)) || ((97 <=? n) && (n <=? 102)).

Fixpoint all_chars (p : ascii -> bool) (s : string) : bool :=
  match s with
  | EmptyString => true
  | String c s' => p c && all_chars p s'
  end.

(** The value a column has after an update that writes no [null]. *)
Definition new_value {A} (old : A) (field : option (option A)) : A :=
  match field with
  | Some (Some v) => v
  | _ => old
  end.

(** An update one of whose fields is set to [null]. *)
Definition has_null (data : StudentUpdate.t) : bool :=
  let null {A} (field : option (option A)) : bool :=
    match field with Some None => true | _ => false end in
  null (StudentUpdate.last_name data) || null (StudentUpdate.first_name data)
  || null (StudentUpdate.faculty data) || null (StudentUpdate.course data)
  || null (StudentUpdate.grade data).

(** The grade of a row after an update: the REAL that SQLite keeps for
    a value that is set, the old grade otherwise; [None] when the
    UPDATE violates NOT NULL. *)
Definition stored_grade (old : float) (field : option (option float)) : option float :=
  match field with
  | Some (Some v) => sqlite_real v
  | _ => Some old
  end.

(** Keys that SQLite holds and that leave it room for one more row:
    64-bit integers below the largest one. *)
Definition has_room (ss : list Student.t) : Prop :=
  List.Forall (fun s => - 2 ^ 63 <= Student.id s < 2 ^ 63 - 1) ss.

(** Keys that SQLite holds and that leave it room for [n] more rows. *)
Definition has_room_for (n : nat) (ss : list Student.t) : Prop :=
  Z.of_nat n < 2 ^ 63 /\
  List.Forall (fun s => - 2 ^ 63 <= Student.id s < 2 ^ 63 - Z.of_nat n) ss.

(** The row of a key, as the session sees it. *)
Definition student_by_id (st : Store) (student_id : Z) : option Student.t :=
  List.find (fun s => Student.id s =? student_id) (students st).

(** The columns of a student row, without its key. *)
Definition columns (s : Student.t) : string * string * string * string * float :=
  (Student.last_name s, Student.first_name s, Student.faculty s,
   Student.course s, Student.grade s).

(** The columns a CSV row is imported with: the row needs a family name
    and a given name that are not empty, a course that is not blank and
    a grade that [float] accepts. *)
Definition row_columns (float_of_str : string -> option float) (row : CsvRow)
  : option (string * string * string * string * float) :=
  match Familiya row, Imya row, Otsenka row ≫= float_of_str with
  | Some ln, Some fn, Some gr =>
      if Str.truthy ln && Str.truthy fn && Str.truthy (Str.strip (or_empty (Kurs row)))
      then Some (Str.strip ln, Str.strip fn, Str.strip (or_empty (Fakultet row)),
                 Str.strip (or_empty (Kurs row)), gr)
      else None
  | _, _, _ => None
  end.

(** A row that [StudentOut] accepts. *)
Definition schema_accepts (s : Student.t) : bool :=
  match StudentOut.model_validate s with
  | Some _ => true
  | None => false
  end.


(** The columns as the table keeps them: the grade as SQLite stores
    it, [None] when the INSERT violates NOT NULL. *)
Definition stored_columns (c : string * string * string * string * float)
  : option (string * string * string * string * float) :=
  let '(ln, fn, fa, co, gr) := c in
  match sqlite_real gr with
  | Some g => Some (ln, fn, fa, co, g)
  | None => None
  end.

(** The rows that a bulk delete of [ids] keeps. *)
Definition without_ids (ids : list Z) (ss : list Student.t) : list Student.t :=
  List.filter (fun s => negb (List.existsb (Z.eqb (Student.id s)) ids)) ss.

(** The cache agrees with the committed table from server time [t] on:
    a listing that can be read decodes to the rows of the table, and an
    item that can be read under the key of an id decodes to the row of
    that id. Empty values count as misses, as in the handlers. *)
Definition cache_coherent (json_loads : string -> option (list Student.t))
    (json_loads_student : string -> option Student.t) (t : Z) (w : World) : Prop :=
  (forall t' v, t <= t' ->
     Redis.get "students:list" t' (redis w) = Some v -> Str.truthy v = true ->
     json_loads v = Some (students (db w))) /\
  (forall i t' v, t <= t' ->
     Redis.get ("students:" ++ str_of_int i) t' (redis w) = Some v ->
     Str.truthy v = true ->
     exists s, json_loads_student v = Some s /\ student_by_id (db w) i = Some s).

(** A handler of the plain router followed, when it returned, by the
    invalidation of the students cache at server time [rnow]. *)
Definition then_purge {A} (rnow : Z) (x : outcome A * World) : outcome A * World :=
  match x with
  | (Return a, w1) => (Return a, set_redis (purge "students:*" rnow (redis w1)) w1)
  | (Raise e, w1) => (Raise e, w1)
  end.

(** ** A scenario: two users, their tokens and a cache *)

(** A store with one registered user, "bob" with the hash of the
    password "secret123", and the worlds two logins lead to. *)
Definition bob : User.t :=
  User.mk 1 "bob" "149cfdbba0614bd83effa8875244457d1c1bf83594091132f9d1a468fc397c49"
          false true.
Definition store_bob : Store := mkStore [bob] [] [].
Definition world_bob : World := mkWorld store_bob store_bob ∅ [].
Definition world_bob_1 : World :=
  snd (post_auth_login (UserLogin.mk "bob" "secret123") ("A1", "R1") 1000 1001 world_bob).
Definition world_bob_2 : World :=
  snd (post_auth_login (UserLogin.mk "bob" "secret123") ("A2", "R2") 2000 2001 world_bob_1).

(** The pair the first login of "bob" issues. *)
Definition token_A1 : Token.t :=
  Token.mk 1 (Some 1) "A1" "R1" 900001000 604800001001 true.

(** The world after a logout request that presents the token "A1". *)
Definition world_bob_out : World :=
  snd (post_auth_logout (mkRequest (Some "Bearer A1")) None 2000 world_bob_1).

(** Two registrations with the password "secret123". *)
Definition world_empty : World := mkWorld (mkStore [] [] []) (mkStore [] [] []) ∅ [].
Definition world_one : World :=
  snd (post_auth_register (UserRegister.mk "bob" "secret123" false) world_empty).
Definition world_two : World :=
  snd (post_auth_register (UserRegister.mk "carol" "secret123" true) world_one).

(** The read-only user "carol" and the world where she holds the token
    "A9". *)
Definition carol : User.t :=
  User.mk 2 "carol" "149cfdbba0614bd83effa8875244457d1c1bf83594091132f9d1a468fc397c49"
          true true.

Definition world_carol : World :=
  snd (post_auth_login (UserLogin.mk "carol" "secret123") ("A9", "R9") 1000 1001 world_two).

(** A cache that holds a listing and a key of another application, in
    front of the store where "bob" holds the token "A1", and the world
    after "bob" created a student. *)
Definition world_cached : World :=
  set_redis (<["students:list" := Redis.Entry "[]" 100000]>
               (<["sessions:1" := Redis.Entry "x" 100000]> ∅)) world_bob_1.

(** The world after the cache was invalidated at server time 5000. *)
Definition world_purged : World :=
  snd (invalidate_students_cache 5000 world_cached).

(** The body of a create request. *)
Definition petrov : StudentCreate.t :=
  StudentCreate.mk "Petrov" "Pyotr" "FIVT" "2" 4.5%float.

(** Collaborators for the scenario: no string is a float, no path can
    be opened. *)
Definition no_float : string -> option float := fun _ => None.
Definition no_file : string -> option (list CsvRow) := fun _ => None.

Definition world_created : World :=
  snd (write_request no_float no_file (OpCreate petrov)
         (mkRequest (Some "Bearer A1")) None 2000 5000 5000 world_cached).

(** The world where both "carol" and "bob" hold a token. *)
Definition world_both : World :=
  snd (post_auth_login (UserLogin.mk "bob" "secret123") ("A1", "R1") 1000 1001 world_carol).

(** A CSV file of three rows, of which the second has a blank course
    and the third a grade that is no number; a second file whose last
    row has the grade NaN; a third file whose row has a grade above
    100; and a [float] that knows three numerals. *)
Definition float_demo : string -> option float :=
  fun s => if String.eqb s "4.5" then Some 4.5%float
           else if String.eqb s "150" then Some 150%float
           else if String.eqb s "nan" then Some PrimFloat.nan
           else None.
Definition csv_demo : string -> option (list CsvRow) :=
  fun path =>
    if String.eqb path "students.csv"
    then Some [ mkCsvRow (Some " Petrov") (Some "Pyotr ") (Some "FIVT") (Some "2") (Some "4.5");
                mkCsvRow (Some "Sidorov") (Some "Ivan") (Some "FIVT") (Some "  ") (Some "4.5");
                mkCsvRow (Some "Ivanov") (Some "Oleg") None (Some "3") (Some "five") ]
    else if String.eqb path "nan.csv"
    then Some [ mkCsvRow (Some "Petrov") (Some "Pyotr") (Some "FIVT") (Some "2") (Some "4.5");
                mkCsvRow (Some "Ivanov") (Some "Oleg") (Some "FIVT") (Some "3") (Some "nan") ]
    else if String.eqb path "high.csv"
    then Some [ mkCsvRow (Some "Sidorov") (Some "Ivan") (Some "FIVT") (Some "3") (Some "150") ]
    else None.

(** The row of "Petrov", and the world where it is stored and "bob"
    holds the token "A1". *)
Definition petrov_row : Student.t := Student.mk 1 "Petrov" "Pyotr" "FIVT" "2" 4.5%float.
Definition world_petrov : World :=
  snd (get_db (create_student petrov
                 (write_user (mkRequest (Some "Bearer A1")) None 2000) 5000) world_bob_1).



(** * Properties *)

(** ** The digest *)

Example sha256_constants :
  List.length Sha256.K = 64%nat /\
  List.nth 0 Sha256.K 0 = 0x428a2f98 /\ List.nth 63 Sha256.K 0 = 0xc67178f2 /\
  List.nth 0 Sha256.H0 0 = 0x6a09e667 /\ List.nth 7 Sha256.H0 0 = 0x5be0cd19.
Proof. vm_compute. repeat split. Qed.

Example sha256_abc :
  Sha256.hexdigest (encode_utf8 "abc")
  = "ba7816bf8f01cfea414140de5dae2223b00361a396177a9cb410ff61f20015ad".
Proof. vm_compute. reflexivity. Qed.

Example sha256_two_blocks :
  hash_password "abcdefghijklmnopqrstuvwxyz0123456789"
  = "3422085bc633136fb101b6e6e7476ca8e9ddf6eff09e24420938b2d2705761c3".
Proof. vm_compute. reflexivity. Qed.

Example sha256_latin1 :
  hash_password (String "p" (String (ascii_of_N 233) EmptyString))
  = "6a4f931c6f96fd76fe81d24ea3c050d218adef92414a75d3f89f4a9a9fc2ace2".
Proof. vm_compute. reflexivity. Qed.

Example hash_password_secret123 :
  hash_password "secret123"
  = "149cfdbba0614bd83effa8875244457d1c1bf83594091132f9d1a468fc397c49".
Proof. vm_compute. reflexivity. Qed.

Example sha256_empty :
  Sha256.hexdigest []
  = "e3b0c44298fc1c149afbf4c8996fb92427ae41e4649b934ca495991b7852b855".
Proof. vm_compute. reflexivity. Qed.

(** ** Running handlers *)

Ltac unfold_py :=
  unfold bind, ret, raise, gets, modify, query_first, getattr in *.

Ltac case_scrutinee :=
  match goal with
  | |- context [match ?x with _ => _ end] =>
      match type of x with
      | prod _ _ => destruct x eqn:?
      | _ => destruct x eqn:?
      end
  end.

Lemma get_db_run {A} (h : M A) (w : World) :
  get_db h w = (fst (h (close w)), close (snd (h (close w)))).
Proof.
  unfold get_db, finally_close, SessionLocal. unfold_py. simpl.
  fold (close w). destruct (h (close w)) as [[a|e] w']; reflexivity.
Qed.

(** ** Access control reads and never writes *)

Lemma Token_user_run (tk : Token.t) (w : World) :
  Token_user tk w = (Return (owner (txn w) tk), w).
Proof. unfold Token_user, owner. destruct (Token.user_id tk); reflexivity. Qed.

Lemma prefix_append (p s : string) :
  String.prefix p s = true <-> exists r, s = String.append p r.
Proof.
  revert s. induction p as [|c p IH]; intros s.
  - split; [exists s; reflexivity | destruct s; reflexivity].
  - destruct s as [|d s]; simpl.
    + split; [discriminate|]. intros [r Hr]. discriminate.
    + destruct (ascii_dec c d) as [->|Hne].
      * specialize (IH s). split.
        -- intros H. apply IH in H as [r ->]. exists r. reflexivity.
        -- intros [r [= ->]]. apply IH. eauto.
      * split; [discriminate|]. intros [r [= Hr _]]. congruence.
Qed.

Lemma presented_token_total (request : Request) (q : option string) :
  exists o, presented_token request q = Return o.
Proof.
  unfold presented_token. destruct (Authorization request) as [h|]; simpl.
  - destruct (Str.truthy h && Str.startswith h "Bearer ") eqn:E.
    + apply andb_true_iff in E as [_ E]. unfold Str.startswith in E.
      apply prefix_append in E as [r ->]. simpl.
      repeat case_scrutinee; eauto.
    + repeat case_scrutinee; eauto.
  - repeat case_scrutinee; eauto.
Qed.

Lemma presented_token_nonempty (request : Request) (q : option string) (s : string) :
  presented_token request q = Return (Some s) -> Str.truthy s = true.
Proof.
  unfold presented_token.
  destruct (match Authorization request with Some _ => _ | None => _ end)
    as [o|e]; [|discriminate].
  destruct (negb (Str.truthy_opt o) && Str.truthy_opt q).
  - destruct q as [x|]; simpl.
    + destruct (Str.truthy (Str.strip x)) eqn:E; simpl; [|discriminate].
      intros [= <-]. exact E.
    + discriminate.
  - destruct o as [x|]; simpl; [|discriminate].
    destruct (Str.truthy x) eqn:E; simpl; [|discriminate].
    intros [= <-]. exact E.
Qed.

Lemma get_current_token_run (request : Request) (q : option string) (now_utc : Z)
    (w : World) :
  get_current_token request q now_utc w = (access_check (txn w) request q now_utc, w).
Proof.
  unfold get_current_token, access_check, active_by_access.
  destruct (presented_token request q) as [[s|]|e]; try reflexivity.
  unfold_py. simpl.
  destruct (List.find _ (tokens (txn w))) as [tk|]; [|reflexivity].
  destruct (Token.access_expires_at tk <? now_utc); [reflexivity|].
  rewrite Token_user_run. destruct (owner (txn w) tk) as [u|]; [|reflexivity].
  destruct (User.is_active u); reflexivity.
Qed.

Lemma current_user_run (request : Request) (q : option string) (now_utc : Z)
    (w : World) :
  current_user request q now_utc w
  = (match access_check (txn w) request q now_utc with
     | Return tk => Return (owner (txn w) tk)
     | Raise e => Raise e
     end, w).
Proof.
  unfold current_user, get_current_user, bind.
  rewrite get_current_token_run.
  destruct (access_check (txn w) request q now_utc); [apply Token_user_run|reflexivity].
Qed.

Lemma write_user_run (request : Request) (q : option string) (now_utc : Z)
    (w : World) :
  write_user request q now_utc w
  = (match access_check (txn w) request q now_utc with
     | Return tk =>
         match owner (txn w) tk with
         | Some u =>
             if User.is_readonly u
             then Raise (HTTPException 403 "Read-only user cannot modify data")
             else Return u
         | None => Raise AttributeError
         end
     | Raise e => Raise e
     end, w).
Proof.
  unfold write_user, require_write_user, bind. rewrite current_user_run.
  destruct (access_check (txn w) request q now_utc) as [tk|e]; [|reflexivity].
  destruct (owner (txn w) tk) as [u|]; [|reflexivity]. simpl.
  destruct (User.is_readonly u); reflexivity.
Qed.
(** ** Login *)

Lemma login_user_run (payload : UserLogin.t) (pair : string * string) (now1 now2 : Z)
    (w : World) :
  login_user payload pair now1 now2 w =
  match user_by_username (txn w) (UserLogin.username payload) with
  | None => (Raise (HTTPException 401 "Invalid username or password"), w)
  | Some user =>
      if verify_password (UserLogin.password payload) (User.password_hash user)
      then
        let ts := deactivate_all (User.id user) (tokens (txn w)) in
        if token_taken (fst pair) (snd pair) ts
        then (Raise IntegrityError, set_txn (set_tokens ts (txn w)) w)
        else
          let st := set_tokens (ts ++ [issued (User.id user) pair now1 now2 ts]) (txn w) in
          (Return (TokenPairOut.make (fst pair) (snd pair)),
           mkWorld st st (redis w) (background w))
      else (Raise (HTTPException 401 "Invalid username or password"), w)
  end.
Proof.
  unfold login_user, user_by_username. destruct pair as [a r]. unfold_py. simpl.
  destruct (List.find _ (users (txn w))) as [user|]; [|reflexivity].
  destruct (verify_password _ _); [|reflexivity]. simpl.
  unfold query_update_tokens, add_token, commit. unfold_py. simpl.
  unfold deactivate_all, token_taken, issued, owned_by. simpl.
  destruct (List.existsb _ _); reflexivity.
Qed.

Lemma owned_by_set_is_active (uid : Z) (b : bool) (tk : Token.t) :
  owned_by uid (Token.set_is_active b tk) = owned_by uid tk.
Proof. reflexivity. Qed.

Lemma active_after_deactivate_all (uid : Z) (ts : list Token.t) :
  List.filter (fun tk => owned_by uid tk && Token.is_active tk) (deactivate_all uid ts) = [].
Proof.
  induction ts as [|tk ts IH]; [reflexivity|]. simpl.
  destruct (owned_by uid tk) eqn:E; simpl.
  - rewrite andb_false_r. exact IH.
  - rewrite E. exact IH.
Qed.

Lemma deactivate_all_length (uid : Z) (ts : list Token.t) :
  List.length (deactivate_all uid ts) = List.length ts.
Proof. apply List.length_map. Qed.

Lemma deactivate_all_nth (uid : Z) (ts : list Token.t) (i : nat) (tk : Token.t) :
  List.nth_error ts i = Some tk ->
  List.nth_error (deactivate_all uid ts) i
  = Some (if owned_by uid tk then Token.set_is_active false tk else tk).
Proof. intros H. unfold deactivate_all. rewrite List.nth_error_map, H. reflexivity. Qed.

Lemma token_taken_false (a r : string) (ts : list Token.t) :
  token_taken a r ts = false ->
  forall tk, In tk ts -> Token.access_token tk <> a /\ Token.refresh_token tk <> r.
Proof.
  unfold token_taken. intros H tk Hin.
  assert (E : String.eqb (Token.access_token tk) a
              || String.eqb (Token.refresh_token tk) r = false).
  { destruct (_ || _) eqn:E; [|reflexivity].
    rewrite <- H. symmetry. apply List.existsb_exists. eauto. }
  apply orb_false_iff in E as [E1 E2].
  split; apply String.eqb_neq; assumption.
Qed.

Lemma post_auth_login_success (payload : UserLogin.t) (pair : string * string)
    (now1 now2 : Z) (w w' : World) (out : TokenPairOut.t) :
  post_auth_login payload pair now1 now2 w = (Return out, w') ->
  exists user,
    user_by_username (db w) (UserLogin.username payload) = Some user /\
    verify_password (UserLogin.password payload) (User.password_hash user) = true /\
    token_taken (fst pair) (snd pair)
      (deactivate_all (User.id user) (tokens (db w))) = false /\
    out = TokenPairOut.make (fst pair) (snd pair) /\
    db w' = set_tokens
              (deactivate_all (User.id user) (tokens (db w))
               ++ [issued (User.id user) pair now1 now2
                     (deactivate_all (User.id user) (tokens (db w)))])
              (db w) /\
    redis w' = redis w.
Proof.
  unfold post_auth_login. rewrite get_db_run, login_user_run. simpl.
  destruct (user_by_username (db w) _) as [user|]; [|discriminate].
  destruct (verify_password _ _) eqn:Ev; [|discriminate].
  destruct (token_taken _ _ _) eqn:E; [discriminate|]. simpl.
  intros [= <- <-]. exists user. repeat split; try reflexivity; assumption.
Qed.

Lemma deactivate_all_In (uid : Z) (ts : list Token.t) (tk : Token.t) :
  In tk (deactivate_all uid ts) ->
  exists tk0, In tk0 ts /\
    tk = (if owned_by uid tk0 then Token.set_is_active false tk0 else tk0).
Proof.
  unfold deactivate_all. rewrite List.in_map_iff. intros [tk0 [<- H]]. eauto.
Qed.

(** C1. After a successful login, the committed store holds the former
    rows of [tokens] with every pair of the user deactivated, followed by
    the new pair, written by one commit; so exactly the new pair, hence
    at most one pair, is active for that user; and a second successful
    login of the same user leaves the pair issued by the first one
    inactive. *)
Theorem login_at_most_one_active_pair :
  forall (payload : UserLogin.t) (pair : string * string) (now1 now2 : Z)
         (w w' : World) (out : TokenPairOut.t),
    post_auth_login payload pair now1 now2 w = (Return out, w') ->
    exists user new,
      user_by_username (db w) (UserLogin.username payload) = Some user /\
      new = issued (User.id user) pair now1 now2
              (deactivate_all (User.id user) (tokens (db w))) /\
      tokens (db w') = (deactivate_all (User.id user) (tokens (db w)) ++ [new])%list /\
      (forall i tk, List.nth_error (tokens (db w)) i = Some tk ->
                    owned_by (User.id user) tk = true ->
                    List.nth_error (tokens (db w')) i
                    = Some (Token.set_is_active false tk)) /\
      active_pairs (User.id user) (db w') = [new] /\
      (List.length (active_pairs (User.id user) (db w')) <= 1)%nat /\
      forall (payload2 : UserLogin.t) (pair2 : string * string) (n1 n2 : Z)
             (w'' : World) (out2 : TokenPairOut.t),
        UserLogin.username payload2 = UserLogin.username payload ->
        post_auth_login payload2 pair2 n1 n2 w' = (Return out2, w'') ->
        In (Token.set_is_active false new) (tokens (db w'')) /\
        (forall tk, In tk (tokens (db w'')) ->
                    Token.access_token tk = TokenPairOut.access_token out ->
                    Token.is_active tk = false) /\
        (List.length (active_pairs (User.id user) (db w'')) <= 1)%nat.
Proof.
  intros payload pair now1 now2 w w' out H.
  apply post_auth_login_success in H
    as (user & Hu & _ & Hfree & -> & Hdb & _).
  exists user, (issued (User.id user) pair now1 now2
                  (deactivate_all (User.id user) (tokens (db w)))).
  set (uid := User.id user) in *.
  set (old := deactivate_all uid (tokens (db w))) in *.
  set (new := issued uid pair now1 now2 old) in *.
  assert (Htok : tokens (db w') = (old ++ [new])%list) by (rewrite Hdb; reflexivity).
  assert (Hown : owned_by uid new = true) by (simpl; apply Z.eqb_refl).
  assert (Hact : active_pairs uid (db w') = [new]).
  { unfold active_pairs. rewrite Htok, List.filter_app.
    subst old. rewrite active_after_deactivate_all. simpl.
    rewrite Hown. reflexivity. }
  split; [exact Hu|]. split; [reflexivity|]. split; [exact Htok|].
  split.
  { intros i tk Hi Ho. rewrite Htok.
    rewrite List.nth_error_app1.
    - subst old. rewrite (deactivate_all_nth _ _ _ _ Hi), Ho. reflexivity.
    - subst old. rewrite deactivate_all_length.
      apply List.nth_error_Some. congruence. }
  split; [exact Hact|]. split; [rewrite Hact; simpl; lia|].
  intros payload2 pair2 n1 n2 w'' out2 Hname H2.
  apply post_auth_login_success in H2
    as (user2 & Hu2 & _ & Hfree2 & _ & Hdb2 & _).
  assert (user2 = user).
  { unfold user_by_username in Hu2. rewrite Hname, Hdb in Hu2. simpl in Hu2.
    unfold user_by_username in Hu. congruence. }
  subst user2. fold uid in Hfree2, Hdb2.
  assert (Htok2 : tokens (db w'')
                  = (deactivate_all uid (old ++ [new])
                     ++ [issued uid pair2 n1 n2 (deactivate_all uid (old ++ [new]))])%list).
  { rewrite Hdb2, Htok. reflexivity. }
  split.
  { rewrite Htok2. apply List.in_or_app. left.
    unfold deactivate_all. rewrite List.map_app. apply List.in_or_app. right.
    simpl. rewrite Hown. left. reflexivity. }
  split.
  { intros tk Hin Hacc. rewrite Htok2 in Hin.
    apply List.in_app_or in Hin as [Hin|[<-|[]]].
    - apply deactivate_all_In in Hin as (tk0 & Hin0 & ->).
      apply List.in_app_or in Hin0 as [Hin0|[<-|[]]].
      + exfalso. subst old.
        apply deactivate_all_In in Hin0 as (tk1 & Hin1 & ->).
        assert (Hin' : In (if owned_by uid tk1 then Token.set_is_active false tk1 else tk1)
                          (deactivate_all uid (tokens (db w)))).
        { unfold deactivate_all. apply List.in_map_iff. eauto. }
        destruct (token_taken_false _ _ _ Hfree _ Hin') as [Hne _].
        apply Hne. revert Hacc.
        destruct (owned_by uid tk1) eqn:E1;
          rewrite ?owned_by_set_is_active, ?E1; simpl; auto.
      + rewrite Hown. reflexivity.
    - exfalso. rewrite Htok in Hfree2.
      assert (Hin' : In (Token.set_is_active false new) (deactivate_all uid (old ++ [new]))).
      { unfold deactivate_all. rewrite List.map_app. apply List.in_or_app. right.
        simpl. rewrite Hown. left. reflexivity. }
      destruct (token_taken_false _ _ _ Hfree2 _ Hin') as [Hne _].
      apply Hne. simpl in Hacc. simpl. congruence. }
  unfold active_pairs. rewrite Htok2, List.filter_app, active_after_deactivate_all.
  simpl. destruct (_ && _); simpl; lia.
Qed.

Lemma login_at_most_one_active_pair_witness :
  post_auth_login (UserLogin.mk "bob" "secret123") ("A1", "R1") 1000 1001 world_bob
  = (Return (TokenPairOut.make "A1" "R1"), world_bob_1) /\
  post_auth_login (UserLogin.mk "bob" "secret123") ("A2", "R2") 2000 2001 world_bob_1
  = (Return (TokenPairOut.make "A2" "R2"), world_bob_2) /\
  (List.length (active_pairs 1 (db world_bob_1)) <= 1)%nat /\
  (forall tk, In tk (tokens (db world_bob_2)) ->
              Token.access_token tk = "A1" -> Token.is_active tk = false).
Proof.
  assert (H1 : post_auth_login (UserLogin.mk "bob" "secret123") ("A1", "R1") 1000 1001
                 world_bob = (Return (TokenPairOut.make "A1" "R1"), world_bob_1))
    by (vm_compute; reflexivity).
  assert (H2 : post_auth_login (UserLogin.mk "bob" "secret123") ("A2", "R2") 2000 2001
                 world_bob_1 = (Return (TokenPairOut.make "A2" "R2"), world_bob_2))
    by (vm_compute; reflexivity).
  split; [exact H1|]. split; [exact H2|].
  destruct (login_at_most_one_active_pair _ _ _ _ _ _ _ H1)
    as (user & new & Hu & _ & _ & _ & _ & Hlen & Htwice).
  change (Some bob = Some user) in Hu. injection Hu as <-.
  split; [exact Hlen|].
  destruct (Htwice _ _ _ _ _ _ eq_refl H2) as (_ & Hold & _).
  exact Hold.
Defined.

(** ** Rejected logins *)

(** C8. A login whose username is unknown, or whose password does not
    verify against the stored hash, raises 401 "Invalid username or
    password" and leaves the committed store as it was: the token rows
    are the same, none added and none deactivated. *)
Theorem login_invalid_credentials_state_unchanged :
  forall (payload : UserLogin.t) (pair : string * string) (now1 now2 : Z) (w : World),
    user_by_username (db w) (UserLogin.username payload) = None \/
    (exists user,
        user_by_username (db w) (UserLogin.username payload) = Some user /\
        verify_password (UserLogin.password payload) (User.password_hash user) = false) ->
    let (r, w') := post_auth_login payload pair now1 now2 w in
    r = Raise (HTTPException HTTP_401_UNAUTHORIZED "Invalid username or password") /\
    db w' = db w /\
    tokens (db w') = tokens (db w) /\
    List.length (tokens (db w')) = List.length (tokens (db w)) /\
    redis w' = redis w.
Proof.
  intros payload pair now1 now2 w H.
  unfold post_auth_login. rewrite get_db_run, login_user_run. simpl.
  destruct H as [H|(user & H & Hv)]; rewrite H; [|rewrite Hv]; simpl; auto.
Qed.

Lemma login_invalid_credentials_state_unchanged_witness :
  (exists user,
      user_by_username (db world_bob_1) "bob" = Some user /\
      verify_password "wrong" (User.password_hash user) = false) /\
  fst (post_auth_login (UserLogin.mk "bob" "wrong") ("A2", "R2") 2000 2001 world_bob_1)
  = Raise (HTTPException 401 "Invalid username or password") /\
  db (snd (post_auth_login (UserLogin.mk "bob" "wrong") ("A2", "R2") 2000 2001 world_bob_1))
  = db world_bob_1.
Proof.
  assert (H : exists user,
             user_by_username (db world_bob_1) "bob" = Some user /\
             verify_password "wrong" (User.password_hash user) = false).
  { exists bob. split; vm_compute; reflexivity. }
  split; [exact H|].
  pose proof (login_invalid_credentials_state_unchanged
                (UserLogin.mk "bob" "wrong") ("A2", "R2") 2000 2001 world_bob_1
                (or_intror H)) as L.
  destruct (post_auth_login _ _ _ _ _) as [r w'].
  destruct L as (Hr & Hdb & _). split; assumption.
Defined.

(** ** Validation has no side effect *)

(** C9. Validating an access token writes nothing: inside a request the
    world (transaction, committed rows, cache) is the one before the
    call, whatever the answer; for a request that only validates, the
    committed store, so every field of every token row and in particular
    both expiry columns, is unchanged. *)
Theorem validate_access_no_side_effect :
  forall (request : Request) (q : option string) (now_utc : Z) (w : World),
    snd (get_current_token request q now_utc w) = w /\
    snd (current_user request q now_utc w) = w /\
    let w' := snd (get_db (current_user request q now_utc) w) in
    db w' = db w /\
    tokens (db w') = tokens (db w) /\
    List.map Token.access_expires_at (tokens (db w'))
    = List.map Token.access_expires_at (tokens (db w)) /\
    List.map Token.refresh_expires_at (tokens (db w'))
    = List.map Token.refresh_expires_at (tokens (db w)) /\
    redis w' = redis w.
Proof.
  intros request q now_utc w.
  rewrite get_current_token_run, get_db_run, !current_user_run. simpl. auto 10.
Qed.

(** ** When validation fails *)

Lemma NoDup_map_eq {A B} (f : A -> B) (l : list A) (x y : A) :
  List.NoDup (List.map f l) -> In x l -> In y l -> f x = f y -> x = y.
Proof.
  induction l as [|a l IH]; simpl; [tauto|].
  intros Hnd Hx Hy Hf. apply List.NoDup_cons_iff in Hnd as [Hnotin Hnd].
  destruct Hx as [->|Hx], Hy as [->|Hy]; auto.
  - exfalso. apply Hnotin. rewrite Hf. apply List.in_map. exact Hy.
  - exfalso. apply Hnotin. rewrite <- Hf. apply List.in_map. exact Hx.
Qed.

Lemma active_by_access_Some (st : Store) (s : string) (tk : Token.t) :
  active_by_access st s = Some tk ->
  In tk (tokens st) /\ Token.access_token tk = s /\ Token.is_active tk = true.
Proof.
  unfold active_by_access. intros H. apply List.find_some in H as [Hin Hp].
  apply andb_true_iff in Hp as [He Ha]. apply String.eqb_eq in He. auto.
Qed.

Lemma active_by_access_None (st : Store) (s : string) :
  active_by_access st s = None ->
  forall tk, In tk (tokens st) -> Token.access_token tk = s -> Token.is_active tk = false.
Proof.
  unfold active_by_access. intros H tk Hin Hs.
  pose proof (List.find_none _ _ H tk Hin) as Hp. simpl in Hp.
  apply andb_false_iff in Hp as [Hp|Hp]; [|exact Hp].
  apply String.eqb_neq in Hp. contradiction.
Qed.

Lemma active_by_access_unique (st : Store) (s : string) (tk : Token.t) :
  List.NoDup (List.map Token.access_token (tokens st)) ->
  In tk (tokens st) -> Token.access_token tk = s -> Token.is_active tk = true ->
  active_by_access st s = Some tk.
Proof.
  intros Hnd Hin Hs Ha.
  destruct (active_by_access st s) as [tk'|] eqn:E.
  - apply active_by_access_Some in E as (Hin' & Hs' & _).
    f_equal. apply (NoDup_map_eq Token.access_token (tokens st)); congruence.
  - rewrite (active_by_access_None _ _ E tk Hin Hs) in Ha. discriminate.
Qed.

Lemma validate_access_run (request : Request) (q : option string) (now_utc : Z)
    (w : World) :
  fst (get_db (current_user request q now_utc) w)
  = match access_check (db w) request q now_utc with
    | Return tk => Return (owner (db w) tk)
    | Raise e => Raise e
    end.
Proof. rewrite get_db_run, current_user_run. reflexivity. Qed.

(** C3. With access tokens unique among the rows (the constraint of
    [models.py]): validation of a presented token string raises 401
    exactly when no active pair carries the string, or the pair that
    carries it has an [access_expires_at] earlier than the clock
    reading, or its owner is inactive; an expired pair is refused even
    though its row is active; validation returns a user exactly when he
    is the active owner of the active, unexpired pair that carries the
    string; and when every row is owned by a stored user, validation
    either raises 401 or returns the owner. A request that presents no
    token string is refused with 401 too. *)
Theorem validate_access_fails_iff :
  forall (request : Request) (q : option string) (now_utc : Z) (w : World),
    List.NoDup (List.map Token.access_token (tokens (db w))) ->
    let r := fst (get_db (current_user request q now_utc) w) in
    (presented_token request q = Return None ->
     exists d, r = Raise (HTTPException HTTP_401_UNAUTHORIZED d)) /\
    forall s, presented_token request q = Return (Some s) ->
      ((exists d, r = Raise (HTTPException HTTP_401_UNAUTHORIZED d)) <->
         (forall tk, In tk (tokens (db w)) ->
                     Token.access_token tk = s -> Token.is_active tk = false)
         \/ (exists tk, In tk (tokens (db w)) /\ Token.access_token tk = s /\
                        Token.is_active tk = true /\
                        (Token.access_expires_at tk < now_utc \/
                         exists u, owner (db w) tk = Some u /\ User.is_active u = false))) /\
      (forall tk, In tk (tokens (db w)) -> Token.access_token tk = s ->
                  Token.is_active tk = true -> Token.access_expires_at tk < now_utc ->
                  r = Raise (HTTPException HTTP_401_UNAUTHORIZED "Token expired or invalid")) /\
      (forall u, r = Return (Some u) <->
                 exists tk, In tk (tokens (db w)) /\ Token.access_token tk = s /\
                            Token.is_active tk = true /\
                            now_utc <= Token.access_expires_at tk /\
                            owner (db w) tk = Some u /\ User.is_active u = true) /\
      ((forall tk, In tk (tokens (db w)) -> owner (db w) tk <> None) ->
       (exists d, r = Raise (HTTPException HTTP_401_UNAUTHORIZED d)) \/
       (exists u, r = Return (Some u))).
Proof.
  intros request q now_utc w Hnd r. subst r.
  rewrite validate_access_run. unfold access_check. split.
  { intros ->. eauto. }
  intros s ->.
  destruct (active_by_access (db w) s) as [tk|] eqn:E.
  - pose proof (active_by_access_Some _ _ _ E) as (Hin & Hs & Ha).
    assert (Huniq : forall tk', In tk' (tokens (db w)) -> Token.access_token tk' = s ->
                                Token.is_active tk' = true -> tk' = tk).
    { intros tk' Hin' Hs' Ha'.
      pose proof (active_by_access_unique _ _ _ Hnd Hin' Hs' Ha'). congruence. }
    destruct (Z.ltb_spec (Token.access_expires_at tk) now_utc) as [Hlt|Hge].
    + refine (conj (conj _ _) (conj _ (conj (fun u => conj _ _) _))).
      * intros _. right. exists tk. auto.
      * eauto.
      * intros tk' Hin' Hs' Ha' _. reflexivity.
      * discriminate.
      * intros (tk' & Hin' & Hs' & Ha' & Hle & _).
        rewrite (Huniq _ Hin' Hs' Ha') in Hle. lia.
      * intros _. left. eauto.
    + destruct (owner (db w) tk) as [u0|] eqn:Eo.
      * destruct (User.is_active u0) eqn:Eu.
        -- rewrite Eo.
           refine (conj (conj _ _) (conj _ (conj (fun u => conj _ _) _))).
           ++ intros [d Hd]. discriminate.
           ++ intros [Hnone|(tk' & Hin' & Hs' & Ha' & Hbad)].
              ** rewrite (Hnone _ Hin Hs) in Ha. discriminate.
              ** rewrite (Huniq _ Hin' Hs' Ha') in Hbad.
                 destruct Hbad as [Hlt|(u' & Hu' & Hina)]; [lia|congruence].
           ++ intros tk' Hin' Hs' Ha' Hlt. rewrite (Huniq _ Hin' Hs' Ha') in Hlt. lia.
           ++ intros [= <-]. exists tk. auto 10.
           ++ intros (tk' & Hin' & Hs' & Ha' & _ & Ho' & _).
              rewrite (Huniq _ Hin' Hs' Ha') in Ho'. congruence.
           ++ intros _. right. eauto.
        -- refine (conj (conj _ _) (conj _ (conj (fun u => conj _ _) _))).
           ++ intros _. right. exists tk. eauto 10.
           ++ eauto.
           ++ intros tk' Hin' Hs' Ha' Hlt. rewrite (Huniq _ Hin' Hs' Ha') in Hlt. lia.
           ++ discriminate.
           ++ intros (tk' & Hin' & Hs' & Ha' & _ & Ho' & Hu').
              rewrite (Huniq _ Hin' Hs' Ha') in Ho'. congruence.
           ++ intros _. left. eauto.
      * refine (conj (conj _ _) (conj _ (conj (fun u => conj _ _) _))).
        -- intros [d Hd]. discriminate.
        -- intros [Hnone|(tk' & Hin' & Hs' & Ha' & Hbad)].
           ++ rewrite (Hnone _ Hin Hs) in Ha. discriminate.
           ++ rewrite (Huniq _ Hin' Hs' Ha') in Hbad.
              destruct Hbad as [Hlt|(u' & Hu' & _)]; [lia|congruence].
        -- intros tk' Hin' Hs' Ha' Hlt. rewrite (Huniq _ Hin' Hs' Ha') in Hlt. lia.
        -- discriminate.
        -- intros (tk' & Hin' & Hs' & Ha' & _ & Ho' & _).
           rewrite (Huniq _ Hin' Hs' Ha') in Ho'. congruence.
        -- intros Hfk. exfalso. exact (Hfk _ Hin Eo).
  - pose proof (active_by_access_None _ _ E) as Hnone.
    refine (conj (conj _ _) (conj _ (conj (fun u => conj _ _) _))).
    + intros _. left. exact Hnone.
    + eauto.
    + intros tk Hin Hs Ha _. rewrite (Hnone _ Hin Hs) in Ha. discriminate.
    + discriminate.
    + intros (tk & Hin & Hs & Ha & _). rewrite (Hnone _ Hin Hs) in Ha. discriminate.
    + intros _. left. eauto.
Qed.

Lemma world_bob_1_db : db world_bob_1 = mkStore [bob] [token_A1] [].
Proof. vm_compute. reflexivity. Qed.

Lemma validate_access_fails_iff_witness :
  List.NoDup (List.map Token.access_token (tokens (db world_bob_1))) /\
  presented_token (mkRequest (Some "Bearer A1")) None = Return (Some "A1") /\
  fst (get_db (current_user (mkRequest (Some "Bearer A1")) None 900001001) world_bob_1)
  = Raise (HTTPException 401 "Token expired or invalid") /\
  fst (get_db (current_user (mkRequest (Some "Bearer A1")) None 900001000) world_bob_1)
  = Return (Some bob).
Proof.
  assert (Hnd : List.NoDup (List.map Token.access_token (tokens (db world_bob_1)))).
  { rewrite world_bob_1_db. repeat constructor. intros []. }
  assert (Hp : presented_token (mkRequest (Some "Bearer A1")) None = Return (Some "A1"))
    by reflexivity.
  assert (Hin : In token_A1 (tokens (db world_bob_1)))
    by (rewrite world_bob_1_db; left; reflexivity).
  split; [exact Hnd|]. split; [exact Hp|]. split.
  - destruct (validate_access_fails_iff (mkRequest (Some "Bearer A1")) None 900001001
                world_bob_1 Hnd) as [_ H].
    destruct (H "A1" Hp) as (_ & Hexp & _).
    apply (Hexp token_A1 Hin); [reflexivity|reflexivity|vm_compute; reflexivity].
  - destruct (validate_access_fails_iff (mkRequest (Some "Bearer A1")) None 900001000
                world_bob_1 Hnd) as [_ H].
    destruct (H "A1" Hp) as (_ & _ & Hok & _).
    apply Hok. exists token_A1.
    rewrite world_bob_1_db.
    repeat split; try reflexivity; try (left; reflexivity); vm_compute; discriminate.
Defined.

(** ** Rotation *)

Lemma refresh_tokens_run (payload : RefreshIn.t) (pair : string * string)
    (now0 now1 now2 : Z) (w : World) :
  refresh_tokens payload pair now0 now1 now2 w =
  match active_by_refresh (txn w) (RefreshIn.refresh_token payload) with
  | None => (Raise (HTTPException 401 "Invalid or expired refresh token"), w)
  | Some tk =>
      if Token.refresh_expires_at tk <? now0
      then (Raise (HTTPException 401 "Invalid or expired refresh token"), w)
      else match owner (txn w) tk with
           | None => (Raise AttributeError, w)
           | Some u =>
               if User.is_active u
               then
                 let tk' := rotated tk pair now1 now2 in
                 if pair_clash tk' (tokens (txn w))
                 then (Raise IntegrityError, w)
                 else
                   let st := set_tokens (replace_row tk' (tokens (txn w))) (txn w) in
                   (Return (TokenPairOut.make (fst pair) (snd pair)),
                    mkWorld st st (redis w) (background w))
               else (Raise (HTTPException 401 "Invalid or expired refresh token"), w)
           end
  end.
Proof.
  unfold refresh_tokens, active_by_refresh. destruct pair as [a r]. unfold_py. simpl.
  destruct (List.find _ (tokens (txn w))) as [tk|]; [|reflexivity].
  destruct (Token.refresh_expires_at tk <? now0); [reflexivity|].
  rewrite Token_user_run. destruct (owner (txn w) tk) as [u|]; [|reflexivity].
  destruct (User.is_active u); [|reflexivity]. simpl.
  unfold flush_token_pair, commit, pair_clash, replace_row, rotated. unfold_py. simpl.
  destruct (List.existsb _ _); reflexivity.
Qed.

Lemma active_by_refresh_Some (st : Store) (s : string) (tk : Token.t) :
  active_by_refresh st s = Some tk ->
  In tk (tokens st) /\ Token.refresh_token tk = s /\ Token.is_active tk = true.
Proof.
  unfold active_by_refresh. intros H. apply List.find_some in H as [Hin Hp].
  apply andb_true_iff in Hp as [He Ha]. apply String.eqb_eq in He. auto.
Qed.

Lemma active_by_refresh_unique (st : Store) (tk : Token.t) :
  List.NoDup (List.map Token.refresh_token (tokens st)) ->
  In tk (tokens st) -> Token.is_active tk = true ->
  active_by_refresh st (Token.refresh_token tk) = Some tk.
Proof.
  intros Hnd Hin Ha.
  destruct (active_by_refresh st (Token.refresh_token tk)) as [tk'|] eqn:E.
  - apply active_by_refresh_Some in E as (Hin' & Hs' & _).
    f_equal. apply (NoDup_map_eq Token.refresh_token (tokens st)); congruence.
  - unfold active_by_refresh in E.
    pose proof (List.find_none _ _ E tk Hin) as Hp. simpl in Hp.
    rewrite String.eqb_refl, Ha in Hp. discriminate.
Qed.


Lemma replace_row_other (tk' : Token.t) (ts : list Token.t) (x : Token.t) :
  In x (replace_row tk' ts) ->
  x = tk' \/ (In x ts /\ Token.id x <> Token.id tk').
Proof.
  unfold replace_row. rewrite List.in_map_iff. intros (y & Hy & Hin).
  destruct (Z.eqb_spec (Token.id y) (Token.id tk')); subst; auto.
Qed.




(** ** Logout *)

Lemma logout_run (token_obj : M Token.t) (w : World) :
  logout token_obj w =
  match token_obj w with
  | (Return tk, w1) =>
      let st := set_tokens (revoke_row tk (tokens (txn w1))) (txn w1) in
      (Return (MessageOut.mk "Logged out successfully"),
       mkWorld st st (redis w1) (background w1))
  | (Raise e, w1) => (Raise e, w1)
  end.
Proof.
  unfold logout, bind. destruct (token_obj w) as [[tk|e] w1]; reflexivity.
Qed.

Lemma post_auth_logout_run (request : Request) (q : option string) (now_utc : Z)
    (w : World) :
  post_auth_logout request q now_utc w =
  match access_check (db w) request q now_utc with
  | Return tk =>
      let st := set_tokens (revoke_row tk (tokens (db w))) (db w) in
      (Return (MessageOut.mk "Logged out successfully"),
       mkWorld st st (redis w) (background w))
  | Raise e => (Raise e, close w)
  end.
Proof.
  unfold post_auth_logout. rewrite get_db_run, logout_run, get_current_token_run.
  simpl. destruct (access_check (db w) request q now_utc); reflexivity.
Qed.

Lemma revoke_row_idem (tk : Token.t) (ts : list Token.t) :
  revoke_row tk (revoke_row tk ts) = revoke_row tk ts.
Proof.
  unfold revoke_row. rewrite List.map_map. apply List.map_ext. intros x.
  destruct (Token.id x =? Token.id tk) eqn:E; simpl; rewrite E; reflexivity.
Qed.

Lemma revoke_row_In (tk : Token.t) (ts : list Token.t) (x : Token.t) :
  In x (revoke_row tk ts) ->
  exists y, In y ts /\ Token.access_token x = Token.access_token y /\
            (Token.id y = Token.id tk -> Token.is_active x = false).
Proof.
  unfold revoke_row. rewrite List.in_map_iff. intros (y & <- & Hin). exists y.
  destruct (Z.eqb_spec (Token.id y) (Token.id tk)) as [E|E]; simpl; auto.
  repeat split; auto. contradiction.
Qed.

(** C4. [logout] is idempotent. For every token pair and every world,
    the handler applied to the pair returns its message and commits the
    rows with the pair's row inactive, the other rows and the users as
    they were; applied again to the same pair, in whatever state the
    token object is, it returns the same message without an error and
    leaves the world as the first call left it. *)
Theorem logout_idempotent :
  forall (tk : Token.t) (w : World),
    let msg := MessageOut.mk "Logged out successfully" in
    let w1 := snd (get_db (logout (ret tk)) w) in
    get_db (logout (ret tk)) w = (Return msg, w1) /\
    tokens (db w1) = revoke_row tk (tokens (db w)) /\
    users (db w1) = users (db w) /\
    (forall x, In x (tokens (db w1)) ->
               Token.id x = Token.id tk -> Token.is_active x = false) /\
    (forall x, In x (tokens (db w)) ->
               Token.id x <> Token.id tk -> In x (tokens (db w1))) /\
    get_db (logout (ret tk)) w1 = (Return msg, w1) /\
    (forall tk2, Token.id tk2 = Token.id tk ->
                 get_db (logout (ret tk2)) w1 = (Return msg, w1)).
Proof.
  intros tk w msg w1. subst w1 msg.
  assert (Hrun : forall tk0 w0,
             get_db (logout (ret tk0)) w0
             = (Return (MessageOut.mk "Logged out successfully"),
                mkWorld (set_tokens (revoke_row tk0 (tokens (db w0))) (db w0))
                        (set_tokens (revoke_row tk0 (tokens (db w0))) (db w0))
                        (redis w0) (background w0))).
  { intros tk0 w0. rewrite get_db_run, logout_run. reflexivity. }
  assert (Hsame : forall tk2, Token.id tk2 = Token.id tk ->
                              revoke_row tk2 (revoke_row tk (tokens (db w)))
                              = revoke_row tk (tokens (db w))).
  { intros tk2 E. rewrite <- (revoke_row_idem tk) at 2.
    unfold revoke_row. rewrite E. reflexivity. }
  rewrite !Hrun. cbn [snd db tokens users set_tokens redis background].
  split; [reflexivity|]. split; [reflexivity|]. split; [reflexivity|]. split.
  { intros x Hx E. unfold revoke_row in Hx.
    apply List.in_map_iff in Hx as (y & Hxy & Hy).
    destruct (Z.eqb_spec (Token.id y) (Token.id tk)) as [Ey|Ey]; subst x;
      [reflexivity|contradiction]. }
  split.
  { intros x Hx Hne. unfold revoke_row. apply List.in_map_iff. exists x.
    apply Z.eqb_neq in Hne. rewrite Hne. auto. }
  split.
  - rewrite revoke_row_idem. reflexivity.
  - intros tk2 E. rewrite Hrun. cbn [db tokens set_tokens redis background].
    rewrite (Hsame tk2 E). reflexivity.
Qed.

(** ** Passwords *)

Lemma find_none_existsb {A} (p : A -> bool) (l : list A) :
  List.find p l = None -> List.existsb p l = false.
Proof.
  induction l as [|a l IH]; simpl; [reflexivity|].
  destruct (p a); [discriminate|]. exact IH.
Qed.

Lemma post_auth_register_run (payload : UserRegister.t) (w : World) :
  post_auth_register payload w =
  match user_by_username (db w) (UserRegister.username payload) with
  | Some _ => (Raise (HTTPException 400 "Username already exists"), close w)
  | None =>
      let st := set_users (users (db w) ++ [registered payload (users (db w))]) (db w) in
      (Return (MessageOut.mk "User registered successfully"),
       mkWorld st st (redis w) (background w))
  end.
Proof.
  unfold post_auth_register. rewrite get_db_run.
  unfold register_user, user_by_username, add_user, commit. unfold_py. simpl.
  destruct (List.find _ (users (db w))) eqn:E; [reflexivity|].
  change (txn (close w)) with (db w).
  rewrite (find_none_existsb _ _ E). reflexivity.
Qed.

(** C10. [hash_password] is a function of the raw password alone: the
    SHA-256 hex digest of the constant salt followed by the password;
    [verify_password] accepts exactly the hash of the raw password; and
    two users who register one after the other with the same password
    are stored with the same password hash. *)
Theorem password_hash_constant_salt :
  PASSWORD_SALT = "very-secret-salt-for-homework" /\
  (forall raw, hash_password raw
               = Sha256.hexdigest (encode_utf8 (PASSWORD_SALT ++ raw)%string)) /\
  (forall raw hashed, verify_password raw hashed = true <-> hashed = hash_password raw) /\
  forall (p1 p2 : UserRegister.t) (w w1 w2 : World) (m1 m2 : MessageOut.t),
    post_auth_register p1 w = (Return m1, w1) ->
    post_auth_register p2 w1 = (Return m2, w2) ->
    UserRegister.password p1 = UserRegister.password p2 ->
    exists u1 u2,
      In u1 (users (db w2)) /\ In u2 (users (db w2)) /\
      User.username u1 = UserRegister.username p1 /\
      User.username u2 = UserRegister.username p2 /\
      User.username u1 <> User.username u2 /\
      User.password_hash u1 = hash_password (UserRegister.password p1) /\
      User.password_hash u1 = User.password_hash u2.
Proof.
  split; [reflexivity|]. split; [reflexivity|]. split.
  { intros raw hashed. unfold verify_password. rewrite String.eqb_eq.
    split; congruence. }
  intros p1 p2 w w1 w2 m1 m2. rewrite !post_auth_register_run.
  destruct (user_by_username (db w) _) eqn:E1; [discriminate|].
  simpl. intros [= _ <-]. simpl.
  destruct (user_by_username _ (UserRegister.username p2)) eqn:E2; [discriminate|].
  simpl. intros [= _ <-] Hpw. simpl.
  set (u1 := registered p1 (users (db w))).
  exists u1, (registered p2 (users (db w) ++ [u1])%list).
  repeat split.
  - apply List.in_or_app. left. apply List.in_or_app. right. left. reflexivity.
  - apply List.in_or_app. right. left. reflexivity.
  - simpl. intros Hname.
    unfold user_by_username in E2. simpl in E2.
    pose proof (List.find_none _ _ E2 u1) as Hn. simpl in Hn.
    rewrite Hname, String.eqb_refl in Hn.
    discriminate Hn. apply List.in_or_app. right. left. reflexivity.
  - simpl. congruence.
Qed.

Lemma password_hash_constant_salt_witness :
  post_auth_register (UserRegister.mk "bob" "secret123" false) world_empty
  = (Return (MessageOut.mk "User registered successfully"), world_one) /\
  post_auth_register (UserRegister.mk "carol" "secret123" true) world_one
  = (Return (MessageOut.mk "User registered successfully"), world_two) /\
  (exists u1 u2,
      In u1 (users (db world_two)) /\ In u2 (users (db world_two)) /\
      User.username u1 = "bob" /\ User.username u2 = "carol" /\
      User.password_hash u1 = User.password_hash u2) /\
  verify_password "secret123"
    "149cfdbba0614bd83effa8875244457d1c1bf83594091132f9d1a468fc397c49" = true.
Proof.
  assert (H1 : post_auth_register (UserRegister.mk "bob" "secret123" false) world_empty
               = (Return (MessageOut.mk "User registered successfully"), world_one))
    by (vm_compute; reflexivity).
  assert (H2 : post_auth_register (UserRegister.mk "carol" "secret123" true) world_one
               = (Return (MessageOut.mk "User registered successfully"), world_two))
    by (vm_compute; reflexivity).
  destruct password_hash_constant_salt as (_ & _ & Hv & Hreg).
  split; [exact H1|]. split; [exact H2|]. split.
  - destruct (Hreg _ _ _ _ _ _ _ H1 H2 eq_refl)
      as (u1 & u2 & Hi1 & Hi2 & Hn1 & Hn2 & _ & _ & Hh).
    exists u1, u2. auto.
  - apply Hv. vm_compute. reflexivity.
Defined.

(** ** The cache server *)

Lemma live_lookup (now : Z) (r : Redis.t) (k : string) (e : Redis.entry) :
  Redis.live now r !! k = Some e <-> r !! k = Some e /\ now < Redis.expire_at e.
Proof. unfold Redis.live. apply map_lookup_filter_Some. Qed.

Lemma get_Some (k : string) (now : Z) (r : Redis.t) (v : string) :
  Redis.get k now r = Some v <->
  exists e, r !! k = Some e /\ now < Redis.expire_at e /\ Redis.value e = v.
Proof.
  unfold Redis.get. split.
  - destruct (Redis.live now r !! k) as [e|] eqn:E; [|discriminate].
    intros [= <-]. apply live_lookup in E. exists e. tauto.
  - intros (e & He & Hlt & <-).
    assert (E : Redis.live now r !! k = Some e) by (apply live_lookup; auto).
    rewrite E. reflexivity.
Qed.

Lemma get_None (k : string) (now : Z) (r : Redis.t) :
  Redis.get k now r = None <->
  forall e, r !! k = Some e -> Redis.expire_at e <= now.
Proof.
  split.
  - intros H e He. destruct (Z.le_gt_cases (Redis.expire_at e) now) as [|Hlt]; [assumption|].
    assert (E : Redis.get k now r = Some (Redis.value e)).
    { apply get_Some. exists e. auto with zarith. }
    congruence.
  - intros H. destruct (Redis.get k now r) as [v|] eqn:E; [|reflexivity].
    apply get_Some in E as (e & He & Hlt & _). specialize (H e He). lia.
Qed.

Lemma get_same_lookup (k : string) (t : Z) (r r' : Redis.t) :
  r' !! k = r !! k -> Redis.get k t r' = Redis.get k t r.
Proof.
  intros H. destruct (Redis.get k t r) as [v|] eqn:E.
  - apply get_Some. apply get_Some in E. rewrite H. exact E.
  - apply get_None. rewrite get_None in E. rewrite H. exact E.
Qed.

Lemma scan_iter_In (pattern : string) (now : Z) (r : Redis.t) (k : string) :
  In k (Redis.scan_iter pattern now r) <->
  Redis.glob pattern k = true /\
  exists e, r !! k = Some e /\ now < Redis.expire_at e.
Proof.
  unfold Redis.scan_iter. rewrite List.filter_In, List.in_map_iff. split.
  - intros [([k' e] & <- & Hin) Hg]. split; [exact Hg|].
    apply list_elem_of_In, elem_of_map_to_list, live_lookup in Hin. eauto.
  - intros [Hg (e & He & Hlt)]. split; [|exact Hg].
    exists (k, e). split; [reflexivity|].
    apply list_elem_of_In, elem_of_map_to_list, live_lookup. auto.
Qed.

Lemma delete_all_lookup (keys : list string) (r : Redis.t) (k : string) :
  delete_all keys r !! k = if List.existsb (String.eqb k) keys then None else r !! k.
Proof.
  revert r. induction keys as [|k0 keys IH]; intros r; simpl; [reflexivity|].
  unfold delete_all in *. simpl. rewrite IH. unfold Redis.delete.
  destruct (String.eqb_spec k k0) as [->|Hne]; simpl.
  - rewrite lookup_delete_eq. destruct (List.existsb _ _); reflexivity.
  - rewrite lookup_delete_ne by congruence. reflexivity.
Qed.

Lemma for_each_delete_run (keys : list string) (w : World) :
  for_each keys redis_delete w = (Return tt, set_redis (delete_all keys (redis w)) w).
Proof.
  revert w. induction keys as [|k keys IH]; intros w; simpl.
  - destruct w; reflexivity.
  - unfold bind, redis_delete, modify. rewrite IH. destruct w; reflexivity.
Qed.

Lemma existsb_eqb_In (k : string) (keys : list string) :
  List.existsb (String.eqb k) keys = true <-> In k keys.
Proof.
  rewrite List.existsb_exists. split.
  - intros (x & Hin & E). apply String.eqb_eq in E. congruence.
  - intros H. exists k. split; [exact H|apply String.eqb_refl].
Qed.

Lemma purge_get (pattern : string) (now t : Z) (r : Redis.t) (k : string) :
  now <= t ->
  Redis.get k t (purge pattern now r)
  = if Redis.glob pattern k then None else Redis.get k t r.
Proof.
  intros Hle. unfold purge.
  destruct (List.existsb (String.eqb k) (Redis.scan_iter pattern now r)) eqn:E.
  - assert (Hin := E). apply existsb_eqb_In, scan_iter_In in Hin as [Hg _].
    rewrite Hg. apply get_None. intros e. rewrite delete_all_lookup, E. discriminate.
  - assert (Hsame : delete_all (Redis.scan_iter pattern now r) r !! k = r !! k)
      by (rewrite delete_all_lookup, E; reflexivity).
    rewrite (get_same_lookup _ _ _ _ Hsame).
    destruct (Redis.glob pattern k) eqn:Hg; [|reflexivity].
    apply get_None. intros e He.
    destruct (Z.le_gt_cases (Redis.expire_at e) now) as [|Hlt]; [lia|].
    exfalso. assert (Hin : In k (Redis.scan_iter pattern now r)).
    { apply scan_iter_In. split; [exact Hg|]. exists e. auto with zarith. }
    apply existsb_eqb_In in Hin. congruence.
Qed.

Lemma purge_subseteq (pattern : string) (now : Z) (r : Redis.t) (k : string)
    (e : Redis.entry) :
  purge pattern now r !! k = Some e -> r !! k = Some e.
Proof.
  unfold purge. rewrite delete_all_lookup.
  destruct (List.existsb _ _); [discriminate|trivial].
Qed.

Lemma invalidate_students_cache_run (rnow : Z) (w : World) :
  invalidate_students_cache rnow w
  = (Return tt, set_redis (purge "students:*" rnow (redis w)) w).
Proof.
  unfold invalidate_students_cache, bind, redis_scan_iter, gets.
  rewrite for_each_delete_run. reflexivity.
Qed.

Lemma glob_star (s : string) : Redis.glob "*" s = true.
Proof. induction s as [|c s IH]; [reflexivity|]. simpl in *. rewrite IH. reflexivity. Qed.

Lemma glob_literal (c : ascii) (p s : string) :
  Ascii.eqb c "*" = false -> Ascii.eqb c "?" = false -> Ascii.eqb c "\" = false ->
  Redis.glob (String c p) s
  = match s with
    | EmptyString => false
    | String d s' => Ascii.eqb c d && Redis.glob p s'
    end.
Proof. intros H1 H2 H3. simpl. rewrite H1, H2, H3. destruct s; reflexivity. Qed.

Lemma glob_students (k : string) :
  Redis.glob "students:*" k = true <-> exists rest, k = ("students:" ++ rest)%string.
Proof.
  split.
  - intros H.
    do 9 (rewrite glob_literal in H by reflexivity;
          destruct k as [|? k]; [discriminate|];
          apply andb_true_iff in H as [E H];
          apply Ascii.eqb_eq in E; subst).
    eexists. reflexivity.
  - intros [rest ->]. change (Redis.glob "*" rest = true). apply glob_star.
Qed.

(** ** Fresh keys *)

Lemma next_id_above (ids : list Z) (i : Z) : In i ids -> i < next_id ids.
Proof.
  destruct ids as [|i0 rest]; [intros []|]. simpl next_id.
  assert (H : forall l a x, In x (a :: l) -> x <= List.fold_right Z.max a l).
  { induction l as [|b l IH]; simpl; intros a x.
    - intros [->|[]]. lia.
    - intros [->|[->|Hx]].
      + specialize (IH x x (or_introl eq_refl)). lia.
      + lia.
      + specialize (IH a x (or_intror Hx)). lia. }
  intros Hin. specialize (H rest i0 i Hin). lia.
Qed.

Lemma next_id_fresh (ids : list Z) : ~ In (next_id ids) ids.
Proof. intros H. apply next_id_above in H. lia. Qed.

Lemma NoDup_snoc {A} (l : list A) (x : A) :
  List.NoDup l -> ~ In x l -> List.NoDup (l ++ [x]).
Proof.
  intros Hl Hx. apply List.NoDup_app; [exact Hl|repeat constructor; intros []|].
  intros a Ha [<-|[]]. contradiction.
Qed.

(** ** The students router *)

Lemma purge_purged (now : Z) (r : Redis.t) :
  students_cache_purged now (purge "students:*" now r).
Proof. intros k t Hle Hg. rewrite purge_get by exact Hle. rewrite Hg. reflexivity. Qed.

(** What the four operations of the repository return and leave. *)
Lemma repository_create_run (data : StudentCreate.t) (w : World) :
  StudentsRepository.create data w
  = match sqlite_real (StudentCreate.grade data) with
    | None => (Raise IntegrityError, w)
    | Some grade =>
        let student := Student.mk (next_id (List.map Student.id (students (txn w))))
                         (StudentCreate.last_name data) (StudentCreate.first_name data)
                         (StudentCreate.faculty data) (StudentCreate.course data)
                         grade in
        let st := set_students (students (txn w) ++ [student])%list (txn w) in
        (Return student, set_db st (set_txn st w))
    end.
Proof.
  unfold StudentsRepository.create, commit, bind, gets, modify, ret, raise.
  destruct (sqlite_real (StudentCreate.grade data)); reflexivity.
Qed.

Lemma repository_get_run (i : Z) (w : World) :
  StudentsRepository.get i w
  = (if sqlite_int i then Return (student_by_id (txn w) i) else Raise OverflowError, w).
Proof.
  unfold StudentsRepository.get, StudentsRepository.db_get.
  destruct (sqlite_int i); reflexivity.
Qed.

Lemma repository_delete_run (i : Z) (w : World) :
  StudentsRepository.delete i w
  = if sqlite_int i
    then match student_by_id (txn w) i with
         | Some _ =>
             let st := set_students
                         (List.filter (fun s => negb (Student.id s =? i))
                                      (students (txn w)))
                         (txn w) in
             (Return true, set_db st (set_txn st w))
         | None => (Return false, w)
         end
    else (Raise OverflowError, w).
Proof.
  unfold StudentsRepository.delete, StudentsRepository.db_get, student_by_id, commit,
    bind, query_first, gets, modify, ret, raise.
  destruct (sqlite_int i); [|reflexivity].
  destruct (List.find _ (students (txn w))); reflexivity.
Qed.

Lemma repository_update_run (i : Z) (data : StudentUpdate.t) (w : World) :
  StudentsRepository.update i data w
  = if sqlite_int i
    then match student_by_id (txn w) i with
         | None => (Return None, w)
         | Some student =>
             match StudentsRepository.setattr (Student.last_name student)
                     (StudentUpdate.last_name data),
                   StudentsRepository.setattr (Student.first_name student)
                     (StudentUpdate.first_name data),
                   StudentsRepository.setattr (Student.faculty student)
                     (StudentUpdate.faculty data),
                   StudentsRepository.setattr (Student.course student)
                     (StudentUpdate.course data),
                   StudentsRepository.setattr_real (Student.grade student)
                     (StudentUpdate.grade data) with
             | Some ln, Some fn, Some fa, Some co, Some gr =>
                 let s' := Student.mk (Student.id student) ln fn fa co gr in
                 let st := set_students
                             (List.map (fun s => if Student.id s =? i then s' else s)
                                       (students (txn w)))
                             (txn w) in
                 (Return (Some s'), set_db st (set_txn st w))
             | _, _, _, _, _ => (Raise IntegrityError, w)
             end
         end
    else (Raise OverflowError, w).
Proof.
  unfold StudentsRepository.update, StudentsRepository.db_get, student_by_id, commit,
    bind, query_first, gets, modify, ret, raise.
  destruct (sqlite_int i); [|reflexivity].
  destruct (List.find _ (students (txn w))) as [s|]; [|reflexivity].
  destruct (StudentsRepository.setattr (Student.last_name s) _); [|reflexivity].
  destruct (StudentsRepository.setattr (Student.first_name s) _); [|reflexivity].
  destruct (StudentsRepository.setattr (Student.faculty s) _); [|reflexivity].
  destruct (StudentsRepository.setattr (Student.course s) _); [|reflexivity].
  destruct (StudentsRepository.setattr_real (Student.grade s) _); reflexivity.
Qed.

(** A repository operation that raises changes nothing; one that
    returns leaves the cache alone and the session committed or
    untouched. *)
Lemma repository_create_effect (data : StudentCreate.t) (w : World) :
  let (r, w1) := StudentsRepository.create data w in
  redis w1 = redis w /\ background w1 = background w /\
  ((exists e, r = Raise e /\ w1 = w) \/
   (exists s, r = Return s /\ txn w1 = db w1)).
Proof.
  rewrite repository_create_run.
  destruct (sqlite_real (StudentCreate.grade data)); cbv zeta;
    (split; [reflexivity|]); (split; [reflexivity|]).
  - right. eexists. split; reflexivity.
  - left. eexists. split; reflexivity.
Qed.

Lemma repository_update_effect (i : Z) (data : StudentUpdate.t) (w : World) :
  let (r, w1) := StudentsRepository.update i data w in
  redis w1 = redis w /\ background w1 = background w /\
  ((exists e, r = Raise e /\ w1 = w) \/
   (r = Return None /\ w1 = w) \/
   (exists s, r = Return (Some s) /\ txn w1 = db w1)).
Proof.
  assert (Hraise : forall e : exn,
             redis w = redis w /\ background w = background w /\
             ((exists e', (Raise e : outcome (option Student.t)) = Raise e' /\ w = w) \/
              ((Raise e : outcome (option Student.t)) = Return None /\ w = w) \/
              (exists s, (Raise e : outcome (option Student.t)) = Return (Some s) /\
                         txn w = db w))).
  { intros e. split; [reflexivity|]. split; [reflexivity|]. left. eauto. }
  rewrite repository_update_run.
  destruct (sqlite_int i); [|apply Hraise].
  destruct (student_by_id (txn w) i) as [s|];
    [|split; [reflexivity|]; split; [reflexivity|]; right; left; split; reflexivity].
  destruct (StudentsRepository.setattr (Student.last_name s) _); [|apply Hraise].
  destruct (StudentsRepository.setattr (Student.first_name s) _); [|apply Hraise].
  destruct (StudentsRepository.setattr (Student.faculty s) _); [|apply Hraise].
  destruct (StudentsRepository.setattr (Student.course s) _); [|apply Hraise].
  destruct (StudentsRepository.setattr_real (Student.grade s) _); [|apply Hraise].
  cbv zeta. split; [reflexivity|]. split; [reflexivity|]. right. right.
  eexists. split; reflexivity.
Qed.

Lemma repository_delete_effect (i : Z) (w : World) :
  let (r, w1) := StudentsRepository.delete i w in
  redis w1 = redis w /\ background w1 = background w /\
  ((exists e, r = Raise e /\ w1 = w) \/
   (r = Return false /\ w1 = w) \/
   (r = Return true /\ txn w1 = db w1)).
Proof.
  rewrite repository_delete_run.
  destruct (sqlite_int i);
    [|split; [reflexivity|]; split; [reflexivity|]; left; eexists; split; reflexivity].
  destruct (student_by_id (txn w) i) as [s|]; cbv zeta;
    (split; [reflexivity|]); (split; [reflexivity|]); right.
  - right. split; reflexivity.
  - left. split; reflexivity.
Qed.

Lemma create_student_outcome (payload : StudentCreate.t) (user : M User.t) (rnow : Z)
    (w : World) (u : User.t) :
  user w = (Return u, w) ->
  let (r, w1) := (create_student payload user rnow ;; ret tt) w in
  direct_write_outcome rnow w r w1.
Proof.
  intros Hu. unfold create_student, bind. rewrite Hu.
  pose proof (repository_create_effect payload w) as H.
  destruct (StudentsRepository.create payload w) as [r w1].
  destruct H as (Hr & Hb & [(e & -> & ->)|(s & -> & Ht)]).
  - split; [reflexivity|]. left. eauto.
  - rewrite invalidate_students_cache_run. cbn [ret].
    split; [exact Hb|]. right. cbn [txn db redis set_redis]. rewrite Hr. auto.
Qed.

Lemma update_student_outcome (student_id : Z) (payload : StudentUpdate.t)
    (user : M User.t) (rnow : Z) (w : World) (u : User.t) :
  user w = (Return u, w) ->
  let (r, w1) := (update_student student_id payload user rnow ;; ret tt) w in
  direct_write_outcome rnow w r w1.
Proof.
  intros Hu. unfold update_student, bind. rewrite Hu.
  pose proof (repository_update_effect student_id payload w) as H.
  destruct (StudentsRepository.update student_id payload w) as [r w1].
  destruct H as (Hr & Hb & [(e & -> & ->)|[(-> & ->)|(s & -> & Ht)]]).
  - split; [reflexivity|]. left. eauto.
  - split; [reflexivity|]. left. unfold raise. eauto.
  - rewrite invalidate_students_cache_run. cbn [ret].
    split; [exact Hb|]. right. cbn [txn db redis set_redis]. rewrite Hr. auto.
Qed.

Lemma delete_student_outcome (student_id : Z) (user : M User.t) (rnow : Z)
    (w : World) (u : User.t) :
  user w = (Return u, w) ->
  let (r, w1) := delete_student student_id user rnow w in
  direct_write_outcome rnow w r w1.
Proof.
  intros Hu. unfold delete_student, bind. rewrite Hu.
  pose proof (repository_delete_effect student_id w) as H.
  destruct (StudentsRepository.delete student_id w) as [r w1].
  destruct H as (Hr & Hb & [(e & -> & ->)|[(-> & ->)|(-> & Ht)]]).
  - split; [reflexivity|]. left. eauto.
  - split; [reflexivity|]. left. cbn [negb]. unfold raise. eauto.
  - cbn [negb]. rewrite invalidate_students_cache_run. cbn [ret].
    split; [exact Hb|]. right. cbn [txn db redis set_redis]. rewrite Hr. auto.
Qed.

Section RouterProperties.

Variable json_dumps : list Student.t -> string.
Variable json_loads : string -> option (list Student.t).
Variable json_dumps_student : Student.t -> string.
Variable json_loads_student : string -> option Student.t.
Variable float_of_str : string -> option float.
Variable read_csv : string -> option (list CsvRow).

Lemma set_txn_students_id (w : World) :
  set_txn (set_students (students (txn w)) (txn w)) w = w.
Proof. destruct w as [d [us ts ss] r b]. reflexivity. Qed.

(** One row of the file: skipped, or refused by the table, or appended
    with a fresh key. *)
Lemma import_row_run (row : CsvRow) (w : World) :
  match row_columns float_of_str row with
  | None => import_row float_of_str row w = (Return tt, w)
  | Some c =>
      match stored_columns c with
      | None => import_row float_of_str row w = (Raise IntegrityError, w)
      | Some c' =>
          exists s,
            import_row float_of_str row w
            = (Return tt,
               set_txn (set_students (students (txn w) ++ [s])%list (txn w)) w) /\
            Student.id s = next_id (List.map Student.id (students (txn w))) /\
            columns s = c'
      end
  end.
Proof.
  unfold import_row, row_columns, stored_columns, add_student, ret, raise, modify.
  destruct (Familiya row) as [ln|]; destruct (Imya row) as [fn|];
    destruct (Otsenka row ≫= float_of_str) as [gr|];
    cbn [Str.truthy_opt negb orb andb]; try reflexivity.
  all: try (destruct (Str.truthy ln) eqn:Eln; cbn [negb orb andb]; try reflexivity).
  all: try (destruct (Str.truthy fn) eqn:Efn; cbn [negb orb andb]; try reflexivity).
  all: try (destruct (Str.truthy (Str.strip (or_empty (Kurs row)))) eqn:Ek;
            cbn [negb orb andb]; try reflexivity).
  destruct (sqlite_real gr) as [g|]; [|reflexivity].
  eexists. split; [reflexivity|]. split; [reflexivity|].
  unfold columns, or_empty.
  cbn [Student.last_name Student.first_name Student.faculty Student.course Student.grade].
  rewrite Eln, Efn. reflexivity.
Qed.

(** The loop over the file: the rows it appends to the session, or the
    row that stops it. *)
Lemma for_each_import_row_run (rows : list CsvRow) (w : World) :
  exists new r,
    for_each rows (import_row float_of_str) w
    = (r, set_txn (set_students (students (txn w) ++ new)%list (txn w)) w) /\
    match mapM stored_columns (omap (row_columns float_of_str) rows) with
    | Some cols =>
        r = Return tt /\ List.map columns new = cols /\
        (List.NoDup (List.map Student.id (students (txn w))) ->
         List.NoDup (List.map Student.id (students (txn w) ++ new)%list))
    | None => r = Raise IntegrityError
    end.
Proof.
  revert w. induction rows as [|row rows IH]; intros w.
  - exists [], (Return tt). rewrite List.app_nil_r, set_txn_students_id.
    split; [reflexivity|]. cbn. auto.
  - pose proof (import_row_run row w) as Hrow. cbn [for_each]. unfold bind.
    change (omap (row_columns float_of_str) (row :: rows))
      with (match row_columns float_of_str row with
            | Some c => c :: omap (row_columns float_of_str) rows
            | None => omap (row_columns float_of_str) rows
            end).
    destruct (row_columns float_of_str row) as [c|].
    + cbn [mapM mbind option_bind]. destruct (stored_columns c) as [c'|].
      * destruct Hrow as (s & -> & Hid & Hc).
        set (w1 := set_txn (set_students (students (txn w) ++ [s])%list (txn w)) w).
        destruct (IH w1) as (new & r & -> & Hrest).
        exists (s :: new), r. split.
        { unfold w1. destruct w as [d [us ts ss] rd b].
          cbn [txn students set_txn set_students users tokens db redis background].
          rewrite <- List.app_assoc. reflexivity. }
        destruct (mapM stored_columns (omap (row_columns float_of_str) rows)) as [cols|];
          cbn [mbind option_bind mret option_ret]; [|exact Hrest].
        destruct Hrest as (-> & Hcols & Hnd).
        split; [reflexivity|]. split; [cbn [List.map]; rewrite Hc, Hcols; reflexivity|].
        intros Hw. change (s :: new) with ([s] ++ new)%list.
        rewrite List.app_assoc. apply Hnd. unfold w1.
        cbn [txn students set_txn set_students]. rewrite List.map_app.
        cbn [List.map]. rewrite Hid.
        apply NoDup_snoc; [exact Hw|apply next_id_fresh].
      * rewrite Hrow. exists [], (Raise IntegrityError).
        rewrite List.app_nil_r, set_txn_students_id. split; reflexivity.
    + rewrite Hrow. apply IH.
Qed.

Lemma import_task_outcome (csv_path : string) (rnow : Z) (w : World) :
  let (r, w1) := import_students_from_csv_task float_of_str read_csv csv_path rnow w in
  direct_write_outcome rnow w r w1.
Proof.
  unfold import_students_from_csv_task, finally_close, SessionLocal, bind at 1, modify.
  destruct (read_csv csv_path) as [rows|].
  - unfold bind at 1.
    destruct (for_each_import_row_run rows (set_txn (db w) w)) as (new & r & -> & Hr).
    destruct (mapM stored_columns _) as [cols|].
    + destruct Hr as (-> & _ & _).
      unfold bind, commit, modify. rewrite invalidate_students_cache_run. simpl.
      split; [reflexivity|]. right. auto.
    + subst r. simpl. split; [reflexivity|]. left. eauto.
  - simpl. split; [reflexivity|]. left. eauto.
Qed.

Lemma bulk_delete_task_outcome (ids : list Z) (rnow : Z) (w : World) :
  ids <> [] ->
  let (r, w1) := bulk_delete_students_task ids rnow w in
  direct_write_outcome rnow w r w1.
Proof.
  intros Hne. destruct ids as [|i ids]; [contradiction|].
  unfold bulk_delete_students_task, finally_close, SessionLocal, commit. unfold_py.
  destruct (List.forallb sqlite_int (i :: ids)).
  - rewrite invalidate_students_cache_run. simpl.
    split; [reflexivity|]. right. auto.
  - simpl. split; [reflexivity|]. left. eauto.
Qed.

(** A handler that a failed dependency stops. *)
Lemma write_handler_raise (op : WriteOp) (user : M User.t) (rnow : Z) (w : World)
    (e : exn) :
  user w = (Raise e, w) -> write_handler op user rnow w = (Raise e, w).
Proof.
  intros Hu. destruct op; simpl;
    unfold create_student, update_student, delete_student,
      import_students_from_csv, bulk_delete_students, bind;
    rewrite Hu; reflexivity.
Qed.

Lemma write_handler_direct (op : WriteOp) (user : M User.t) (rnow : Z) (w : World)
    (u : User.t) :
  writes_directly op = true ->
  user w = (Return u, w) ->
  let (r, w1) := write_handler op user rnow w in
  direct_write_outcome rnow w r w1.
Proof.
  intros Hop Hu. destruct op; try discriminate; simpl.
  - apply (create_student_outcome _ _ _ _ _ Hu).
  - apply (update_student_outcome _ _ _ _ _ _ Hu).
  - apply (delete_student_outcome _ _ _ _ _ Hu).
Qed.

Lemma write_handler_scheduled (op : WriteOp) (user : M User.t) (rnow : Z) (w : World)
    (u : User.t) :
  writes_directly op = false ->
  user w = (Return u, w) ->
  write_handler op user rnow w
  = (Return tt, set_background (background w ++ scheduled op) w).
Proof.
  intros Hop Hu. destruct op; try discriminate; simpl;
    unfold import_students_from_csv, bulk_delete_students, add_task, bind;
    rewrite Hu.
  - reflexivity.
  - destruct (BulkDeleteRequest.ids payload); simpl.
    + rewrite List.app_nil_r. destruct w; reflexivity.
    + reflexivity.
Qed.

Lemma run_task_outcome (rnow : Z) (task : Task) (w : World) :
  match task with
  | bulk_delete_students_task_of [] => False
  | _ => True
  end ->
  let (r, w1) := run_task float_of_str read_csv rnow task w in
  direct_write_outcome rnow w r w1.
Proof.
  destruct task as [path|ids]; simpl; intros H.
  - apply import_task_outcome.
  - apply bulk_delete_task_outcome. destruct ids; [contradiction|discriminate].
Qed.

Lemma scheduled_runnable (op : WriteOp) (task : Task) :
  In task (scheduled op) ->
  match task with
  | bulk_delete_students_task_of [] => False
  | _ => True
  end.
Proof.
  destruct op as [| | |payload|payload]; simpl; try tauto.
  - intros [<-|[]]. exact I.
  - destruct (BulkDeleteRequest.ids payload) as [|i ids]; simpl; [tauto|].
    intros [<-|[]]. exact I.
Qed.

Lemma scheduled_short (op : WriteOp) :
  scheduled op = [] \/ exists task, scheduled op = [task].
Proof.
  destruct op as [| | |payload|payload]; simpl; eauto.
  destruct (BulkDeleteRequest.ids payload); eauto.
Qed.

Lemma serve_raise {A} (handler : M A) (rnow_bg : Z) (w : World) (e : exn) :
  handler (close (set_background [] w)) = (Raise e, close (set_background [] w)) ->
  serve float_of_str read_csv handler rnow_bg w
  = (Raise e, close (set_background [] w)).
Proof. intros H. unfold serve. rewrite get_db_run, H. reflexivity. Qed.

(** What a write request leaves: nothing changed; or, for a handler
    that writes directly, the cache purged at [rnow]; or, for a handler
    that schedules its write, nothing changed or the cache purged at
    [rnow_bg]. *)
Lemma write_request_outcome (op : WriteOp) (request : Request) (q : option string)
    (now_utc rnow rnow_bg : Z) (w : World) :
  let (r, w') := write_request float_of_str read_csv op request q now_utc rnow rnow_bg w in
  background w' = [] /\
  ((exists e, r = Raise e /\ db w' = db w /\ redis w' = redis w) \/
   (writes_directly op = true /\ r = Return tt /\
    redis w' = purge "students:*" rnow (redis w)) \/
   (writes_directly op = false /\ r = Return tt /\
    ((db w' = db w /\ redis w' = redis w) \/
     redis w' = purge "students:*" rnow_bg (redis w)))).
Proof.
  unfold write_request.
  set (w0 := close (set_background [] w)).
  pose proof (write_user_run request q now_utc w0) as Hu.
  destruct (match access_check (txn w0) request q now_utc with Return _ => _ | Raise _ => _ end)
    as [u|e].
  2: { rewrite (serve_raise _ _ _ e) by (apply write_handler_raise; exact Hu).
       split; [reflexivity|]. left. eauto. }
  unfold serve. rewrite get_db_run. fold w0.
  destruct (writes_directly op) eqn:Hop.
  - pose proof (write_handler_direct op _ rnow w0 u Hop Hu) as H.
    destruct (write_handler op _ rnow w0) as [r w1].
    destruct H as [Hbg [(e & -> & Hdb & Hr)|(-> & Htx & Hr)]]; simpl.
    + split; [reflexivity|]. left. eauto.
    + rewrite Hbg. simpl. split; [reflexivity|]. right. left. auto.
  - rewrite (write_handler_scheduled op _ rnow w0 u Hop Hu). simpl.
    destruct (scheduled_short op) as [E|[task E]].
    + rewrite E. simpl. split; [reflexivity|]. right. right. auto.
    + pose proof (scheduled_runnable op task) as Hrun. rewrite E in *. simpl.
      unfold bind.
      set (w1 := set_background [] (close (set_background [task] w0))).
      pose proof (run_task_outcome rnow_bg task w1 (Hrun (or_introl eq_refl))) as H.
      destruct (run_task float_of_str read_csv rnow_bg task w1) as [r2 w2].
      destruct H as [Hbg [(e & -> & Hdb & Hr)|(-> & Htx & Hr)]]; simpl.
      * split; [reflexivity|]. right. right. auto.
      * split; [reflexivity|]. right. right. auto.
Qed.

Lemma write_request_forbidden (op : WriteOp) (request : Request) (q : option string)
    (now_utc rnow rnow_bg : Z) (w : World) (tk : Token.t) (u : User.t) :
  access_check (db w) request q now_utc = Return tk ->
  owner (db w) tk = Some u ->
  User.is_readonly u = true ->
  write_request float_of_str read_csv op request q now_utc rnow rnow_bg w
  = (Raise (HTTPException 403 "Read-only user cannot modify data"),
     close (set_background [] w)).
Proof.
  intros Hg Ho Hr. unfold write_request. apply serve_raise.
  apply write_handler_raise. rewrite write_user_run. simpl.
  rewrite Hg, Ho, Hr. reflexivity.
Qed.

Lemma model_validate_accepts (s : Student.t) :
  StudentOut.model_validate s = if schema_accepts s then Some s else None.
Proof.
  unfold schema_accepts, StudentOut.model_validate.
  destruct (PrimFloat.leb 0 (Student.grade s) && PrimFloat.leb (Student.grade s) 100);
    reflexivity.
Qed.

Lemma mapM_model_validate (ss : list Student.t) :
  mapM StudentOut.model_validate ss
  = if List.forallb schema_accepts ss then Some ss else None.
Proof.
  induction ss as [|s ss IH]; [reflexivity|].
  cbn [mapM List.forallb]. rewrite IH, model_validate_accepts.
  destruct (schema_accepts s); [|reflexivity].
  destruct (List.forallb schema_accepts ss); reflexivity.
Qed.

Lemma list_students_run (user : M (option User.t)) (rnow1 rnow2 : Z) (w : World)
    (u : option User.t) :
  user w = (Return u, w) ->
  list_students json_dumps json_loads user rnow1 rnow2 w =
  if Str.truthy_opt (Redis.get "students:list" rnow1 (redis w))
  then match json_loads (or_empty (Redis.get "students:list" rnow1 (redis w))) with
       | Some data => (Return data, w)
       | None => (Raise JSONDecodeError, w)
       end
  else if List.forallb schema_accepts (students (txn w))
       then (Return (students (txn w)),
             set_redis (<["students:list" :=
                            Redis.Entry (json_dumps (students (txn w)))
                                        (rnow2 + 60 * 1000)]>
                          (redis w)) w)
       else (Raise ValidationError, w).
Proof.
  intros Hu. unfold list_students, bind. rewrite Hu.
  unfold redis_get, StudentsRepository.list, gets.
  destruct (Str.truthy_opt _).
  - destruct (json_loads _); reflexivity.
  - rewrite mapM_model_validate.
    destruct (List.forallb schema_accepts (students (txn w))); reflexivity.
Qed.

Lemma get_student_run (student_id : Z) (user : M (option User.t)) (rnow1 rnow2 : Z)
    (w : World) (u : option User.t) :
  user w = (Return u, w) ->
  let key := ("students:" ++ str_of_int student_id)%string in
  get_student json_dumps_student json_loads_student student_id user rnow1 rnow2 w =
  if Str.truthy_opt (Redis.get key rnow1 (redis w))
  then match json_loads_student (or_empty (Redis.get key rnow1 (redis w))) with
       | Some data => (Return data, w)
       | None => (Raise JSONDecodeError, w)
       end
  else if sqlite_int student_id
       then match student_by_id (txn w) student_id with
            | None => (Raise (HTTPException 404 "Student not found"), w)
            | Some student =>
                if schema_accepts student
                then (Return student,
                      set_redis (<[key := Redis.Entry (json_dumps_student student)
                                                      (rnow2 + 60 * 1000)]> (redis w)) w)
                else (Raise ValidationError, w)
            end
       else (Raise OverflowError, w).
Proof.
  intros Hu. unfold get_student, bind. rewrite Hu.
  unfold redis_get, gets.
  destruct (Str.truthy_opt _).
  - destruct (json_loads_student _); reflexivity.
  - rewrite repository_get_run. destruct (sqlite_int student_id); [|reflexivity].
    destruct (student_by_id (txn w) student_id) as [s|]; [|reflexivity].
    rewrite model_validate_accepts. destruct (schema_accepts s); reflexivity.
Qed.

Lemma current_user_cases (request : Request) (q : option string) (now_utc : Z)
    (w : World) :
  (exists u, current_user request q now_utc w = (Return u, w)) \/
  (exists e, current_user request q now_utc w = (Raise e, w)).
Proof.
  rewrite current_user_run.
  destruct (access_check (txn w) request q now_utc); eauto.
Qed.

(** C5. Every write of the router that succeeds purges the students
    cache: after a create, update or delete request that returned, and
    after an import or bulk-delete task that returned (for a bulk delete
    of at least one id), no key matching "students:*" can be read at
    the server time of the invalidation or later; whenever a write
    request changed the committed store, the same holds. The cache is
    only ever filled with a TTL of 60 seconds: a read handler adds at
    most its own key, expiring 60000 ms after the server time of its
    SETEX, a write request adds none, and an entry cannot be read from
    its expiry time on. *)
Theorem writes_invalidate_students_cache :
  (forall op request q now_utc rnow rnow_bg w w',
      writes_directly op = true ->
      write_request float_of_str read_csv op request q now_utc rnow rnow_bg w
      = (Return tt, w') ->
      students_cache_purged rnow (redis w')) /\
  (forall csv_path rnow w w',
      import_students_from_csv_task float_of_str read_csv csv_path rnow w
      = (Return tt, w') ->
      students_cache_purged rnow (redis w')) /\
  (forall ids rnow w w',
      ids <> [] ->
      bulk_delete_students_task ids rnow w = (Return tt, w') ->
      students_cache_purged rnow (redis w')) /\
  (forall op request q now_utc rnow rnow_bg w r w',
      write_request float_of_str read_csv op request q now_utc rnow rnow_bg w = (r, w') ->
      db w' <> db w ->
      forall k t, rnow <= t -> rnow_bg <= t ->
                  Redis.glob "students:*" k = true ->
                  Redis.get k t (redis w') = None) /\
  (forall op request q now_utc rnow rnow_bg w k e,
      redis (snd (write_request float_of_str read_csv op request q now_utc rnow rnow_bg w))
        !! k = Some e ->
      redis w !! k = Some e) /\
  (forall request q now_utc rnow1 rnow2 w k e,
      redis (snd (list_students json_dumps json_loads
                    (current_user request q now_utc) rnow1 rnow2 w)) !! k = Some e ->
      redis w !! k = Some e \/
      (k = "students:list" /\ Redis.expire_at e = rnow2 + 60 * 1000)) /\
  (forall student_id request q now_utc rnow1 rnow2 w k e,
      redis (snd (get_student json_dumps_student json_loads_student student_id
                    (current_user request q now_utc) rnow1 rnow2 w)) !! k = Some e ->
      redis w !! k = Some e \/
      (k = ("students:" ++ str_of_int student_id)%string /\
       Redis.expire_at e = rnow2 + 60 * 1000)) /\
  (forall (r : Redis.t) k e t,
      r !! k = Some e -> Redis.expire_at e <= t -> Redis.get k t r = None).
Proof.
  split.
  { intros op request q now_utc rnow rnow_bg w w' Hop H.
    pose proof (write_request_outcome op request q now_utc rnow rnow_bg w) as O.
    rewrite H in O. destruct O as [_ [(e & He & _)|[(_ & _ & ->)|(Hop' & _)]]].
    - discriminate.
    - apply purge_purged.
    - congruence. }
  split.
  { intros csv_path rnow w w' H.
    pose proof (import_task_outcome csv_path rnow w) as O. rewrite H in O.
    destruct O as [_ [(e & He & _)|(_ & _ & ->)]]; [discriminate|apply purge_purged]. }
  split.
  { intros ids rnow w w' Hne H.
    pose proof (bulk_delete_task_outcome ids rnow w Hne) as O. rewrite H in O.
    destruct O as [_ [(e & He & _)|(_ & _ & ->)]]; [discriminate|apply purge_purged]. }
  split.
  { intros op request q now_utc rnow rnow_bg w r w' H Hdb k t Ht1 Ht2 Hg.
    pose proof (write_request_outcome op request q now_utc rnow rnow_bg w) as O.
    rewrite H in O.
    destruct O as [_ [(e & _ & Hsame & _)|[(_ & _ & ->)|(_ & _ & [[Hsame _]| ->])]]];
      try contradiction.
    - apply (purge_purged rnow); assumption.
    - apply (purge_purged rnow_bg); assumption. }
  split.
  { intros op request q now_utc rnow rnow_bg w k e.
    pose proof (write_request_outcome op request q now_utc rnow rnow_bg w) as O.
    destruct (write_request _ _ _ _ _ _ _ _ _) as [r w']. simpl.
    destruct O as [_ [(e' & _ & _ & ->)|[(_ & _ & ->)|(_ & _ & [[_ ->]| ->])]]];
      eauto using purge_subseteq. }
  split.
  { intros request q now_utc rnow1 rnow2 w k e.
    destruct (current_user_cases request q now_utc w) as [[u Hu]|[err Hu]].
    - rewrite (list_students_run _ _ _ _ _ Hu).
      destruct (Str.truthy_opt _).
      + destruct (json_loads _); simpl; auto.
      + destruct (List.forallb schema_accepts _); simpl; auto.
        destruct (String.eqb_spec "students:list" k) as [<-|Hne].
        * rewrite lookup_insert_eq. intros [= <-]. right. auto.
        * rewrite lookup_insert_ne by exact Hne. auto.
    - unfold list_students, bind. rewrite Hu. simpl. auto. }
  split.
  { intros student_id request q now_utc rnow1 rnow2 w k e.
    destruct (current_user_cases request q now_utc w) as [[u Hu]|[err Hu]].
    - rewrite (get_student_run _ _ _ _ _ _ Hu).
      destruct (Str.truthy_opt _).
      + destruct (json_loads_student _); simpl; auto.
      + destruct (sqlite_int student_id); simpl; auto.
        destruct (student_by_id _ _) as [s|]; simpl; auto.
        destruct (schema_accepts s); simpl; auto.
        destruct (String.eqb_spec ("students:" ++ str_of_int student_id) k) as [<-|Hne].
        * rewrite lookup_insert_eq. intros [= <-]. right. auto.
        * rewrite lookup_insert_ne by exact Hne. auto.
    - unfold get_student, bind. rewrite Hu. simpl. auto. }
  intros r k e t He Hle. apply get_None. intros e' He'.
  assert (e' = e) by congruence. subst. exact Hle.
Qed.

(** C7. For a request whose token validates to a user flagged
    read-only, each of the five write operations raises 403 and leaves
    the committed store, the cache and the task queue as they were; a
    user who is not read-only passes [require_write_user], which knows
    no other level than these two. *)
Theorem read_only_user_cannot_write :
  forall (op : WriteOp) (request : Request) (q : option string)
         (now_utc rnow rnow_bg : Z) (w : World) (u : User.t),
    fst (get_db (current_user request q now_utc) w) = Return (Some u) ->
    (User.is_readonly u = true ->
     let (r, w') := write_request float_of_str read_csv op request q now_utc
                                  rnow rnow_bg w in
     r = Raise (HTTPException HTTP_403_FORBIDDEN "Read-only user cannot modify data") /\
     db w' = db w /\
     students (db w') = students (db w) /\
     redis w' = redis w /\
     background w' = []) /\
    (User.is_readonly u = false ->
     fst (get_db (write_user request q now_utc) w) = Return u) /\
    (forall (user : User.t) (w0 : World),
        require_write_user (ret (Some user)) w0
        = (if User.is_readonly user
           then Raise (HTTPException HTTP_403_FORBIDDEN "Read-only user cannot modify data")
           else Return user, w0)).
Proof.
  intros op request q now_utc rnow rnow_bg w u Hu.
  rewrite validate_access_run in Hu.
  destruct (access_check (db w) request q now_utc) as [tk|e] eqn:Hg; [|discriminate].
  injection Hu as Ho. split; [|split].
  - intros Hr. rewrite (write_request_forbidden _ _ _ _ _ _ _ _ _ Hg Ho Hr).
    simpl. auto.
  - intros Hr. rewrite get_db_run, write_user_run. simpl. rewrite Hg, Ho, Hr.
    reflexivity.
  - intros user w0. unfold require_write_user. unfold_py. simpl.
    destruct (User.is_readonly user); reflexivity.
Qed.


End RouterProperties.

Lemma writes_invalidate_students_cache_witness :
  write_request no_float no_file (OpCreate petrov)
    (mkRequest (Some "Bearer A1")) None 2000 5000 5000 world_cached
  = (Return tt, world_created) /\
  Redis.get "students:list" 5000 (redis world_cached) = Some "[]" /\
  Redis.get "students:list" 5000 (redis world_created) = None /\
  Redis.get "sessions:1" 5000 (redis world_created) = Some "x".
Proof.
  assert (H : write_request no_float no_file (OpCreate petrov)
                (mkRequest (Some "Bearer A1")) None 2000 5000 5000 world_cached
              = (Return tt, world_created)) by (vm_compute; reflexivity).
  split; [exact H|]. split; [vm_compute; reflexivity|]. split.
  - destruct (writes_invalidate_students_cache (fun _ => "[]") (fun _ => None)
                (fun _ => "{}") (fun _ => None) no_float no_file) as (Hw & _).
    apply (Hw (OpCreate petrov) _ _ _ _ _ _ _ eq_refl H); [lia|reflexivity].
  - vm_compute. reflexivity.
Defined.

Lemma read_only_user_cannot_write_witness :
  fst (get_db (current_user (mkRequest (Some "Bearer A9")) None 2000) world_carol)
  = Return (Some carol) /\
  User.is_readonly carol = true /\
  fst (write_request no_float no_file (OpDelete 1)
         (mkRequest (Some "Bearer A9")) None 2000 5000 5000 world_carol)
  = Raise (HTTPException 403 "Read-only user cannot modify data") /\
  db (snd (write_request no_float no_file (OpDelete 1)
             (mkRequest (Some "Bearer A9")) None 2000 5000 5000 world_carol))
  = db world_carol.
Proof.
  assert (H : fst (get_db (current_user (mkRequest (Some "Bearer A9")) None 2000)
                     world_carol) = Return (Some carol)) by (vm_compute; reflexivity).
  split; [exact H|]. split; [reflexivity|].
  destruct (read_only_user_cannot_write no_float no_file (OpDelete 1)
              (mkRequest (Some "Bearer A9")) None 2000 5000 5000 world_carol carol H)
    as (Hro & _).
  specialize (Hro eq_refl).
  destruct (write_request _ _ _ _ _ _ _ _ _) as [r w'].
  destruct Hro as (Hr & Hdb & _). split; assumption.
Defined.


(** ** Collisions of generated strings *)

Lemma token_taken_deactivate_all (a r : string) (uid : Z) (ts : list Token.t) :
  token_taken a r (deactivate_all uid ts) = token_taken a r ts.
Proof.
  unfold token_taken, deactivate_all. induction ts as [|tk ts IH]; [reflexivity|].
  simpl. rewrite IH. destruct (owned_by uid tk); reflexivity.
Qed.

(** X18. A login whose generated pair collides with a stored token string
    fails on the uniqueness constraint, and the deactivation of the
    user's pairs is rolled back with it; so does a refresh whose
    generated pair collides with the strings of another row. *)
Lemma collision_fails_and_rolls_back :
  (forall payload pair now1 now2 w user,
      user_by_username (db w) (UserLogin.username payload) = Some user ->
      verify_password (UserLogin.password payload) (User.password_hash user) = true ->
      token_taken (fst pair) (snd pair) (tokens (db w)) = true ->
      post_auth_login payload pair now1 now2 w = (Raise IntegrityError, close w)) /\
  (forall pair now0 now1 now2 w tk u,
      active_by_refresh (db w) (Token.refresh_token tk) = Some tk ->
      now0 <= Token.refresh_expires_at tk ->
      owner (db w) tk = Some u ->
      User.is_active u = true ->
      pair_clash (rotated tk pair now1 now2) (tokens (db w)) = true ->
      post_auth_refresh (RefreshIn.mk (Token.refresh_token tk)) pair now0 now1 now2 w
      = (Raise IntegrityError, close w)).
Proof.
  split.
  - intros payload pair now1 now2 w user Hu Hv Ht.
    unfold post_auth_login. rewrite get_db_run, login_user_run. simpl.
    rewrite Hu, Hv, token_taken_deactivate_all, Ht. reflexivity.
  - intros pair now0 now1 now2 w tk u Ha Hexp Ho Hu Hc.
    unfold post_auth_refresh. rewrite get_db_run, refresh_tokens_run. simpl.
    rewrite Ha. destruct (Z.ltb_spec (Token.refresh_expires_at tk) now0); [lia|].
    rewrite Ho, Hu. simpl. rewrite Hc. reflexivity.
Qed.

(** ** The constraints of the tables are invariants *)

Lemma find_app_Some {A} (p : A -> bool) (l l' : list A) :
  List.find p l <> None -> List.find p (l ++ l') <> None.
Proof.
  induction l as [|a l IH]; simpl; [congruence|].
  destruct (p a); [discriminate|exact IH].
Qed.

Lemma map_deactivate_all {B} (f : Token.t -> B) (uid : Z) (ts : list Token.t) :
  (forall b tk, f (Token.set_is_active b tk) = f tk) ->
  List.map f (deactivate_all uid ts) = List.map f ts.
Proof.
  intros Hf. unfold deactivate_all. rewrite List.map_map. apply List.map_ext.
  intros tk. destruct (owned_by uid tk); [apply Hf|reflexivity].
Qed.

Lemma map_revoke_row {B} (f : Token.t -> B) (tk : Token.t) (ts : list Token.t) :
  (forall b x, f (Token.set_is_active b x) = f x) ->
  List.map f (revoke_row tk ts) = List.map f ts.
Proof.
  intros Hf. unfold revoke_row. rewrite List.map_map. apply List.map_ext.
  intros x. destruct (Token.id x =? Token.id tk); [apply Hf|reflexivity].
Qed.

Lemma replace_row_absent (tk' : Token.t) (ts : list Token.t) :
  ~ In (Token.id tk') (List.map Token.id ts) -> replace_row tk' ts = ts.
Proof.
  induction ts as [|x ts IH]; simpl; [reflexivity|]. intros H.
  destruct (Z.eqb_spec (Token.id x) (Token.id tk')) as [E|_]; [tauto|].
  f_equal. apply IH. tauto.
Qed.

Lemma replace_row_ids (tk' : Token.t) (ts : list Token.t) :
  List.map Token.id (replace_row tk' ts) = List.map Token.id ts.
Proof.
  unfold replace_row. rewrite List.map_map. apply List.map_ext. intros x.
  destruct (Z.eqb_spec (Token.id x) (Token.id tk')); congruence.
Qed.

Lemma replace_row_NoDup {B} (f : Token.t -> B) (tk' : Token.t) (ts : list Token.t) :
  List.NoDup (List.map Token.id ts) ->
  List.NoDup (List.map f ts) ->
  (forall x, In x ts -> Token.id x <> Token.id tk' -> f x <> f tk') ->
  List.NoDup (List.map f (replace_row tk' ts)).
Proof.
  induction ts as [|x ts IH]; simpl; [constructor|].
  intros Hid Hf Hclash.
  apply List.NoDup_cons_iff in Hid as [Hxid Hid].
  apply List.NoDup_cons_iff in Hf as [Hxf Hf].
  destruct (Z.eqb_spec (Token.id x) (Token.id tk')) as [E|Hne].
  - rewrite replace_row_absent by congruence. constructor; [|exact Hf].
    rewrite List.in_map_iff. intros (y & Hy & Hin).
    apply (Hclash y); auto. intros Ey. apply Hxid.
    rewrite E, <- Ey. apply List.in_map. exact Hin.
  - constructor; [|apply IH; auto].
    rewrite List.in_map_iff. intros (y & Hy & Hin).
    apply replace_row_other in Hin as [->|[Hin _]].
    + apply (Hclash x); auto.
    + apply Hxf. rewrite <- Hy. apply List.in_map. exact Hin.
Qed.

Lemma pair_clash_false (tk' : Token.t) (ts : list Token.t) :
  pair_clash tk' ts = false ->
  forall x, In x ts -> Token.id x <> Token.id tk' ->
            Token.access_token x <> Token.access_token tk' /\
            Token.refresh_token x <> Token.refresh_token tk'.
Proof.
  unfold pair_clash. intros H x Hin Hne.
  assert (E : negb (Token.id x =? Token.id tk')
              && (String.eqb (Token.access_token x) (Token.access_token tk')
                  || String.eqb (Token.refresh_token x) (Token.refresh_token tk')) = false).
  { destruct (_ && _) eqn:E; [|reflexivity].
    rewrite <- H. symmetry. apply List.existsb_exists. eauto. }
  apply Z.eqb_neq in Hne. rewrite Hne in E. simpl in E.
  apply orb_false_iff in E as [E1 E2]. split; apply String.eqb_neq; assumption.
Qed.

Lemma owner_same_users (st st' : Store) (tk : Token.t) :
  users st' = users st -> owner st' tk = owner st tk.
Proof. unfold owner. intros ->. reflexivity. Qed.

(** X17. The four endpoints of the authentication router keep the
    constraints, which hold in the empty store: they hold in every store
    the router reaches. *)
Theorem store_ok_invariant :
  store_ok (db world_empty) /\
  forall w, store_ok (db w) ->
    (forall payload, store_ok (db (snd (post_auth_register payload w)))) /\
    (forall payload pair now1 now2,
        store_ok (db (snd (post_auth_login payload pair now1 now2 w)))) /\
    (forall payload pair now0 now1 now2,
        store_ok (db (snd (post_auth_refresh payload pair now0 now1 now2 w)))) /\
    (forall request q now_utc,
        store_ok (db (snd (post_auth_logout request q now_utc w)))).
Proof.
  split.
  { repeat split; try constructor. intros tk []. }
  intros w (Huid & Hname & Htid & Hacc & Href & Hfk).
  split; [|split; [|split]].
  - intros payload. rewrite post_auth_register_run.
    destruct (user_by_username (db w) _) as [u|] eqn:E; simpl.
    { repeat split; assumption. }
    unfold store_ok. cbn [db tokens users set_tokens set_users fst snd]. rewrite !List.map_app. simpl. repeat split; try assumption.
    + apply NoDup_snoc; [exact Huid|apply next_id_fresh].
    + apply NoDup_snoc; [exact Hname|].
      rewrite List.in_map_iff. intros (u & Hu & Hin).
      unfold user_by_username in E.
      pose proof (List.find_none _ _ E u Hin) as Hn. simpl in Hn.
      rewrite Hu, String.eqb_refl in Hn. discriminate.
    + intros tk Hin. specialize (Hfk tk Hin). unfold owner in *. simpl.
      destruct (Token.user_id tk); [|exact Hfk]. apply find_app_Some. exact Hfk.
  - intros payload pair now1 now2. unfold post_auth_login.
    rewrite get_db_run, login_user_run. simpl.
    destruct (user_by_username (db w) _) as [user|] eqn:E; simpl;
      [|repeat split; assumption].
    destruct (verify_password _ _); simpl; [|repeat split; assumption].
    destruct (token_taken _ _ _) eqn:Et; simpl; [repeat split; assumption|].
    unfold store_ok, issued. cbn [db tokens users set_tokens set_users fst snd].
    rewrite !List.map_app. cbn [List.map Token.id Token.access_token Token.refresh_token].
    rewrite !map_deactivate_all by reflexivity.
    repeat split; try assumption.
    + apply NoDup_snoc; [exact Htid|apply next_id_fresh].
    + apply NoDup_snoc; [exact Hacc|].
      rewrite List.in_map_iff. intros (tk & Htk & Hin).
      rewrite <- (map_deactivate_all Token.access_token (User.id user)) in Hacc
        by reflexivity.
      assert (Hin' : In (if owned_by (User.id user) tk
                         then Token.set_is_active false tk else tk)
                        (deactivate_all (User.id user) (tokens (db w)))).
      { unfold deactivate_all. apply List.in_map_iff. eauto. }
      destruct (token_taken_false _ _ _ Et _ Hin') as [Hne _]. apply Hne.
      destruct (owned_by (User.id user) tk); exact Htk.
    + apply NoDup_snoc; [exact Href|].
      rewrite List.in_map_iff. intros (tk & Htk & Hin).
      assert (Hin' : In (if owned_by (User.id user) tk
                         then Token.set_is_active false tk else tk)
                        (deactivate_all (User.id user) (tokens (db w)))).
      { unfold deactivate_all. apply List.in_map_iff. eauto. }
      destruct (token_taken_false _ _ _ Et _ Hin') as [_ Hne]. apply Hne.
      destruct (owned_by (User.id user) tk); exact Htk.
    + intros tk Hin. apply List.in_app_or in Hin as [Hin|[<-|[]]].
      * apply deactivate_all_In in Hin as (tk0 & Hin0 & ->).
        specialize (Hfk tk0 Hin0). unfold owner in *. simpl.
        destruct (owned_by _ tk0); exact Hfk.
      * unfold owner. simpl. unfold user_by_username in E.
        apply List.find_some in E as [Hin _].
        destruct (List.find _ (users (db w))) eqn:F; [discriminate|].
        pose proof (List.find_none _ _ F user Hin) as Hn. simpl in Hn.
        rewrite Z.eqb_refl in Hn. discriminate.
  - intros payload pair now0 now1 now2. unfold post_auth_refresh.
    rewrite get_db_run, refresh_tokens_run. simpl.
    destruct (active_by_refresh (db w) _) as [tk|] eqn:E; simpl;
      [|repeat split; assumption].
    destruct (Token.refresh_expires_at tk <? now0); simpl; [repeat split; assumption|].
    destruct (owner (db w) tk) as [u|]; simpl; [|repeat split; assumption].
    destruct (User.is_active u); simpl; [|repeat split; assumption].
    destruct (pair_clash _ _) eqn:Ec; simpl; [repeat split; assumption|].
    pose proof (pair_clash_false _ _ Ec) as Hclash.
    unfold store_ok. cbn [db tokens users set_tokens set_users fst snd]. repeat split; try assumption.
    + rewrite replace_row_ids. exact Htid.
    + apply replace_row_NoDup; auto. intros x Hx Hne. apply (Hclash x Hx Hne).
    + apply replace_row_NoDup; auto. intros x Hx Hne. apply (Hclash x Hx Hne).
    + intros x Hx. apply replace_row_other in Hx as [->|[Hx _]].
      * apply active_by_refresh_Some in E as (Hin & _). exact (Hfk tk Hin).
      * exact (Hfk x Hx).
  - intros request q now_utc. rewrite post_auth_logout_run.
    destruct (access_check (db w) request q now_utc) as [tk|e]; simpl;
      [|repeat split; assumption].
    unfold store_ok. cbn [db tokens users set_tokens set_users fst snd].
    rewrite !map_revoke_row by reflexivity. repeat split; try assumption.
    intros x Hx. unfold revoke_row in Hx. apply List.in_map_iff in Hx as (y & <- & Hy).
    specialize (Hfk y Hy). unfold owner in *.
    destruct (Token.id y =? Token.id tk); exact Hfk.
Qed.

(** ** The scenario of the specification *)

(** Register "bob" with "secret123"; login returns two distinct strings
    and leaves one active row; a login with a wrong password raises 401
    and adds no row; a refresh returns a pair that differs from the
    first; after logout the access token no longer validates. *)
Example scenario_bob :
  let login := post_auth_login (UserLogin.mk "bob" "secret123") ("A1", "R1") 1000 1001 in
  let wrong := post_auth_login (UserLogin.mk "bob" "wrong") ("A2", "R2") 2000 2001 in
  let refresh := post_auth_refresh (RefreshIn.mk "R1") ("A3", "R3") 3000 3001 3002 in
  let bearer := mkRequest (Some "Bearer A3") in
  let w1 := snd (post_auth_register (UserRegister.mk "bob" "secret123" false) world_empty) in
  let w2 := snd (login w1) in
  let w3 := snd (wrong w2) in
  let w4 := snd (refresh w3) in
  let w5 := snd (post_auth_logout bearer None 4000 w4) in
  fst (login w1) = Return (TokenPairOut.make "A1" "R1") /\
  List.map Token.is_active (tokens (db w2)) = [true] /\
  fst (wrong w2) = Raise (HTTPException 401 "Invalid username or password") /\
  tokens (db w3) = tokens (db w2) /\
  fst (refresh w3) = Return (TokenPairOut.make "A3" "R3") /\
  List.map Token.access_token (tokens (db w4)) = ["A3"] /\
  fst (get_db (current_user bearer None 4000) w4) = Return (Some bob) /\
  fst (post_auth_logout bearer None 4000 w4)
  = Return (MessageOut.mk "Logged out successfully") /\
  fst (get_db (current_user bearer None 4000) w5)
  = Raise (HTTPException 401 "Token expired or invalid").
Proof. vm_compute. repeat split. Qed.

(** * Further properties of the same code *)

(** ** Registration and login compose *)

Lemma find_snoc_fresh {A} (p : A -> bool) (l : list A) (x : A) :
  List.find p l = None -> p x = true -> List.find p (l ++ [x]) = Some x.
Proof.
  induction l as [|a l IH]; simpl; intros Hn Hx.
  - rewrite Hx. reflexivity.
  - destruct (p a); [discriminate|]. apply IH; assumption.
Qed.

(** X1. A registration that succeeded makes its username taken: every
    later registration with that username, whatever its password and
    flag, raises 400 and leaves the committed store as it was. *)
Theorem register_twice_rejected :
  forall (p1 p2 : UserRegister.t) (w w1 : World) (m : MessageOut.t),
    post_auth_register p1 w = (Return m, w1) ->
    UserRegister.username p2 = UserRegister.username p1 ->
    let (r, w2) := post_auth_register p2 w1 in
    r = Raise (HTTPException HTTP_400_BAD_REQUEST "Username already exists") /\
    db w2 = db w1 /\
    List.length (users (db w2)) = S (List.length (users (db w))).
Proof.
  intros p1 p2 w w1 m H1 Hname. rewrite post_auth_register_run in H1.
  destruct (user_by_username (db w) (UserRegister.username p1)) eqn:E1; [discriminate|].
  injection H1 as _ <-. rewrite post_auth_register_run. simpl.
  unfold user_by_username in *. simpl. rewrite Hname.
  rewrite (find_snoc_fresh _ _ _ E1) by (simpl; apply String.eqb_refl).
  simpl. repeat split. rewrite List.length_app. simpl. lia.
Qed.

Lemma register_twice_rejected_witness :
  post_auth_register (UserRegister.mk "bob" "secret123" false) world_empty
  = (Return (MessageOut.mk "User registered successfully"), world_one) /\
  fst (post_auth_register (UserRegister.mk "bob" "other-pw" true) world_one)
  = Raise (HTTPException 400 "Username already exists") /\
  db (snd (post_auth_register (UserRegister.mk "bob" "other-pw" true) world_one))
  = db world_one.
Proof.
  assert (H1 : post_auth_register (UserRegister.mk "bob" "secret123" false) world_empty
               = (Return (MessageOut.mk "User registered successfully"), world_one))
    by (vm_compute; reflexivity).
  split; [exact H1|].
  pose proof (register_twice_rejected (UserRegister.mk "bob" "secret123" false)
                (UserRegister.mk "bob" "other-pw" true) _ _ _ H1 eq_refl) as H.
  destruct (post_auth_register (UserRegister.mk "bob" "other-pw" true) world_one)
    as [r w2].
  destruct H as (Hr & Hdb & _). split; assumption.
Defined.

(** X2. Registration and login round-trip: after a registration that
    succeeded, a login with the same username and password, and a
    generated pair whose strings are not stored yet, returns that pair;
    a login with a password of another hash raises 401. *)
Theorem register_then_login :
  forall (p : UserRegister.t) (w w1 : World) (m : MessageOut.t)
         (pair : string * string) (now1 now2 : Z),
    post_auth_register p w = (Return m, w1) ->
    token_taken (fst pair) (snd pair) (tokens (db w)) = false ->
    fst (post_auth_login
           (UserLogin.mk (UserRegister.username p) (UserRegister.password p))
           pair now1 now2 w1)
    = Return (TokenPairOut.make (fst pair) (snd pair)) /\
    forall wrong,
      hash_password wrong <> hash_password (UserRegister.password p) ->
      post_auth_login (UserLogin.mk (UserRegister.username p) wrong) pair now1 now2 w1
      = (Raise (HTTPException HTTP_401_UNAUTHORIZED "Invalid username or password"),
         w1).
Proof.
  intros p w w1 m pair now1 now2 H1 Hfree. rewrite post_auth_register_run in H1.
  destruct (user_by_username (db w) (UserRegister.username p)) eqn:E1; [discriminate|].
  injection H1 as _ <-.
  assert (Hfind : forall st',
             users st' = (users (db w) ++ [registered p (users (db w))])%list ->
             user_by_username st' (UserRegister.username p)
             = Some (registered p (users (db w)))).
  { intros st' Hst. unfold user_by_username in *. rewrite Hst.
    apply find_snoc_fresh; [exact E1|]. simpl. apply String.eqb_refl. }
  split.
  - unfold post_auth_login. rewrite get_db_run, login_user_run. simpl.
    rewrite (Hfind (set_users _ (db w)) eq_refl). simpl.
    unfold verify_password. rewrite String.eqb_refl.
    rewrite token_taken_deactivate_all. simpl. rewrite Hfree. reflexivity.
  - intros wrong Hw. unfold post_auth_login.
    rewrite get_db_run, login_user_run. simpl.
    rewrite (Hfind (set_users _ (db w)) eq_refl). simpl.
    unfold verify_password. apply String.eqb_neq in Hw. rewrite Hw. reflexivity.
Qed.

Lemma register_then_login_witness :
  post_auth_register (UserRegister.mk "bob" "secret123" false) world_empty
  = (Return (MessageOut.mk "User registered successfully"), world_one) /\
  token_taken "A1" "R1" (tokens (db world_empty)) = false /\
  fst (post_auth_login (UserLogin.mk "bob" "secret123") ("A1", "R1") 1000 1001 world_one)
  = Return (TokenPairOut.make "A1" "R1").
Proof.
  assert (H1 : post_auth_register (UserRegister.mk "bob" "secret123" false) world_empty
               = (Return (MessageOut.mk "User registered successfully"), world_one))
    by (vm_compute; reflexivity).
  split; [exact H1|]. split; [reflexivity|].
  exact (proj1 (register_then_login (UserRegister.mk "bob" "secret123" false)
                  _ _ _ ("A1", "R1") 1000 1001 H1 eq_refl)).
Defined.

(** ** Issued tokens and the access check *)

Lemma find_app_skip {A} (p : A -> bool) (l l' : list A) :
  (forall x, In x l -> p x = false) -> List.find p (l ++ l') = List.find p l'.
Proof.
  induction l as [|a l IH]; simpl; intros H; [reflexivity|].
  rewrite (H a (or_introl eq_refl)). apply IH. auto.
Qed.

Lemma owner_by_id (st : Store) (tk : Token.t) (user : User.t) :
  List.NoDup (List.map User.id (users st)) ->
  In user (users st) ->
  Token.user_id tk = Some (User.id user) ->
  owner st tk = Some user.
Proof.
  intros Hnd Hin Hid. unfold owner. rewrite Hid.
  destruct (List.find _ (users st)) as [u|] eqn:E.
  - apply List.find_some in E as [Hu He]. apply Z.eqb_eq in He.
    f_equal. apply (NoDup_map_eq User.id (users st)); assumption.
  - pose proof (List.find_none _ _ E user Hin) as Hn. simpl in Hn.
    rewrite Z.eqb_refl in Hn. discriminate.
Qed.

(** X3. The access token a successful login returns validates, for a
    request that presents it, exactly during its lifetime of 15 minutes
    after the first clock reading of the login, and only for an active
    user: [login_user] does not look at [is_active], so an inactive user
    with the right password gets a pair, which never validates. (User
    keys are unique.) *)
Theorem login_then_validate :
  forall (payload : UserLogin.t) (pair : string * string) (now1 now2 : Z)
         (w w' : World) (out : TokenPairOut.t)
         (request : Request) (q : option string) (t : Z),
    List.NoDup (List.map User.id (users (db w))) ->
    post_auth_login payload pair now1 now2 w = (Return out, w') ->
    presented_token request q = Return (Some (TokenPairOut.access_token out)) ->
    exists user,
      user_by_username (db w) (UserLogin.username payload) = Some user /\
      fst (get_db (current_user request q t) w')
      = if now1 + 15 * 60 * 1000000 <? t
        then Raise (HTTPException HTTP_401_UNAUTHORIZED "Token expired or invalid")
        else if User.is_active user
             then Return (Some user)
             else Raise (HTTPException HTTP_401_UNAUTHORIZED "User is inactive").
Proof.
  intros payload pair now1 now2 w w' out request q t Hnd H Hp.
  apply post_auth_login_success in H as (user & Hu & _ & Hfree & -> & Hdb & _).
  exists user. split; [exact Hu|].
  rewrite validate_access_run. unfold access_check. rewrite Hp. simpl.
  set (old := deactivate_all (User.id user) (tokens (db w))) in *.
  set (new := issued (User.id user) pair now1 now2 old) in *.
  assert (Ha : active_by_access (db w') (fst pair) = Some new).
  { unfold active_by_access. rewrite Hdb. simpl.
    rewrite find_app_skip.
    - simpl. rewrite String.eqb_refl. reflexivity.
    - intros x Hx. destruct (token_taken_false _ _ _ Hfree x Hx) as [Hne _].
      apply String.eqb_neq in Hne. rewrite Hne. reflexivity. }
  rewrite Ha.
  change (Token.access_expires_at new) with (now1 + 15 * 60 * 1000000).
  destruct (now1 + 15 * 60 * 1000000 <? t); [reflexivity|].
  assert (Ho : owner (db w') new = Some user).
  { apply owner_by_id.
    - rewrite Hdb. exact Hnd.
    - rewrite Hdb. simpl. unfold user_by_username in Hu.
      apply List.find_some in Hu as [Hin _]. exact Hin.
    - reflexivity. }
  rewrite Ho. destruct (User.is_active user); simpl; rewrite ?Ho; reflexivity.
Qed.

Lemma login_then_validate_witness :
  List.NoDup (List.map User.id (users (db world_bob))) /\
  post_auth_login (UserLogin.mk "bob" "secret123") ("A1", "R1") 1000 1001 world_bob
  = (Return (TokenPairOut.make "A1" "R1"), world_bob_1) /\
  fst (get_db (current_user (mkRequest None) (Some " A1 ") 900001000) world_bob_1)
  = Return (Some bob) /\
  fst (get_db (current_user (mkRequest None) (Some " A1 ") 900001001) world_bob_1)
  = Raise (HTTPException 401 "Token expired or invalid").
Proof.
  assert (Hnd : List.NoDup (List.map User.id (users (db world_bob))))
    by (repeat constructor; intros []).
  assert (H : post_auth_login (UserLogin.mk "bob" "secret123") ("A1", "R1") 1000 1001
                world_bob = (Return (TokenPairOut.make "A1" "R1"), world_bob_1))
    by (vm_compute; reflexivity).
  split; [exact Hnd|]. split; [exact H|]. split.
  - destruct (login_then_validate _ _ _ _ _ _ _ (mkRequest None) (Some " A1 ")
                900001000 Hnd H eq_refl) as (user & Hu & Hv).
    change (Some bob = Some user) in Hu. injection Hu as <-. exact Hv.
  - destruct (login_then_validate _ _ _ _ _ _ _ (mkRequest None) (Some " A1 ")
                900001001 Hnd H eq_refl) as (user & Hu & Hv).
    exact Hv.
Defined.

(** ** Logout touches one session *)

Lemma find_map_same {A} (p : A -> bool) (f : A -> A) (l : list A) :
  (forall x, In x l -> p (f x) = p x) ->
  (forall x, In x l -> p x = true -> f x = x) ->
  List.find p (List.map f l) = List.find p l.
Proof.
  induction l as [|a l IH]; simpl; intros Hp Hf; [reflexivity|].
  rewrite (Hp a (or_introl eq_refl)).
  destruct (p a) eqn:E.
  - rewrite (Hf a (or_introl eq_refl) E). reflexivity.
  - apply IH; auto.
Qed.

(** X4. A logout that succeeded revokes the session it was presented
    with and no other: with unique row keys, a request that presents any
    other token string validates after the logout exactly as it did
    before, at every clock reading; the users are untouched and no row
    is removed. *)
Theorem logout_leaves_other_sessions :
  forall (request : Request) (q : option string) (now_utc : Z) (w w1 : World)
         (msg : MessageOut.t) (s : string),
    List.NoDup (List.map Token.id (tokens (db w))) ->
    presented_token request q = Return (Some s) ->
    post_auth_logout request q now_utc w = (Return msg, w1) ->
    users (db w1) = users (db w) /\
    List.length (tokens (db w1)) = List.length (tokens (db w)) /\
    forall (request' : Request) (q' : option string) (s' : string) (t : Z),
      presented_token request' q' = Return (Some s') ->
      s' <> s ->
      fst (get_db (current_user request' q' t) w1)
      = fst (get_db (current_user request' q' t) w).
Proof.
  intros request q now_utc w w1 msg s Hnd Hp. rewrite post_auth_logout_run.
  destruct (access_check (db w) request q now_utc) as [tk|e] eqn:Eg; [|discriminate].
  simpl. intros [= <- <-].
  assert (Hg := Eg). unfold access_check in Hg. rewrite Hp in Hg.
  destruct (active_by_access (db w) s) as [tk0|] eqn:Ea; [|discriminate].
  assert (tk0 = tk) by (revert Hg; repeat case_scrutinee; congruence). subst tk0.
  apply active_by_access_Some in Ea as (Hin & Hs & Ha).
  split; [reflexivity|]. split; [apply List.length_map|].
  intros request' q' s' t Hp' Hne.
  rewrite !validate_access_run. unfold access_check. rewrite Hp'.
  assert (Hsame : active_by_access
                    (set_tokens (revoke_row tk (tokens (db w))) (db w)) s'
                  = active_by_access (db w) s').
  { unfold active_by_access, revoke_row. simpl. apply find_map_same.
    - intros x Hx. destruct (Token.id x =? Token.id tk) eqn:E; [|reflexivity].
      apply Z.eqb_eq in E.
      assert (x = tk) by (apply (NoDup_map_eq Token.id (tokens (db w))); assumption).
      subst x. simpl. rewrite Hs. apply String.eqb_neq in Hne.
      rewrite String.eqb_sym, Hne. reflexivity.
    - intros x Hx Hpx. destruct (Token.id x =? Token.id tk) eqn:E; [|reflexivity].
      apply Z.eqb_eq in E.
      assert (x = tk) by (apply (NoDup_map_eq Token.id (tokens (db w))); assumption).
      subst x. apply andb_true_iff in Hpx as [Hx' _]. apply String.eqb_eq in Hx'.
      congruence. }
  simpl. rewrite Hsame. reflexivity.
Qed.

Lemma logout_leaves_other_sessions_witness :
  List.NoDup (List.map Token.id (tokens (db world_both))) /\
  presented_token (mkRequest (Some "Bearer A9")) None = Return (Some "A9") /\
  fst (post_auth_logout (mkRequest (Some "Bearer A9")) None 2000 world_both)
  = Return (MessageOut.mk "Logged out successfully") /\
  fst (get_db (current_user (mkRequest (Some "Bearer A1")) None 2000)
         (snd (post_auth_logout (mkRequest (Some "Bearer A9")) None 2000 world_both)))
  = Return (Some bob).
Proof.
  assert (Hnd : List.NoDup (List.map Token.id (tokens (db world_both)))).
  { vm_compute. repeat constructor; simpl; intuition discriminate. }
  split; [exact Hnd|]. split; [reflexivity|]. split; [vm_compute; reflexivity|].
  pose proof (logout_leaves_other_sessions (mkRequest (Some "Bearer A9")) None 2000
                world_both) as H.
  destruct (post_auth_logout (mkRequest (Some "Bearer A9")) None 2000 world_both)
    as [r w1] eqn:E.
  assert (Hr : r = Return (MessageOut.mk "Logged out successfully")).
  { change r with (fst (r, w1)). rewrite <- E. vm_compute. reflexivity. }
  subst r. destruct (H w1 _ "A9" Hnd eq_refl eq_refl) as (_ & _ & Hframe).
  simpl. rewrite (Hframe (mkRequest (Some "Bearer A1")) None "A1" 2000 eq_refl)
    by discriminate.
  vm_compute. reflexivity.
Defined.

(** ** Refresh: refusals and the rotated access token *)

Lemma active_by_refresh_None (st : Store) (s : string) :
  active_by_refresh st s = None ->
  forall tk, In tk (tokens st) -> Token.refresh_token tk = s -> Token.is_active tk = false.
Proof.
  unfold active_by_refresh. intros H tk Hin Hs.
  pose proof (List.find_none _ _ H tk Hin) as Hp. simpl in Hp.
  apply andb_false_iff in Hp as [Hp|Hp]; [|exact Hp].
  apply String.eqb_neq in Hp. contradiction.
Qed.

Lemma active_by_access_absent (st : Store) (s : string) :
  (forall tk, In tk (tokens st) -> Token.access_token tk <> s) ->
  active_by_access st s = None.
Proof.
  intros H. destruct (active_by_access st s) as [tk|] eqn:E; [|reflexivity].
  apply active_by_access_Some in E as (Hin & Hs & _).
  exfalso. exact (H tk Hin Hs).
Qed.

(** X5. With refresh tokens unique among the rows, a refresh raises 401
    exactly when no active pair carries the presented string (it is
    unknown, or its pair was revoked), or the pair's refresh expiry is
    earlier than the clock reading, or its owner is inactive; and a
    refresh that raises, for whatever reason, leaves the committed store
    as it was. *)
Theorem refresh_refused_iff :
  forall (payload : RefreshIn.t) (pair : string * string) (now0 now1 now2 : Z)
         (w : World),
    List.NoDup (List.map Token.refresh_token (tokens (db w))) ->
    let s := RefreshIn.refresh_token payload in
    let (r, w') := post_auth_refresh payload pair now0 now1 now2 w in
    (r = Raise (HTTPException HTTP_401_UNAUTHORIZED "Invalid or expired refresh token")
     <-> (forall tk, In tk (tokens (db w)) ->
                     Token.refresh_token tk = s -> Token.is_active tk = false)
         \/ (exists tk, In tk (tokens (db w)) /\ Token.refresh_token tk = s /\
                        Token.is_active tk = true /\
                        (Token.refresh_expires_at tk < now0 \/
                         exists u, owner (db w) tk = Some u /\ User.is_active u = false))) /\
    (forall e, r = Raise e -> db w' = db w).
Proof.
  intros payload pair now0 now1 now2 w Hnd s.
  unfold post_auth_refresh. rewrite get_db_run, refresh_tokens_run. simpl.
  fold s.
  destruct (active_by_refresh (db w) s) as [tk|] eqn:E.
  - pose proof (active_by_refresh_Some _ _ _ E) as (Hin & Hs & Ha).
    assert (Huniq : forall tk', In tk' (tokens (db w)) -> Token.refresh_token tk' = s ->
                                Token.is_active tk' = true -> tk' = tk).
    { intros tk' Hin' Hs' Ha'.
      pose proof (active_by_refresh_unique _ _ Hnd Hin' Ha') as Hu.
      rewrite Hs' in Hu. congruence. }
    destruct (Z.ltb_spec (Token.refresh_expires_at tk) now0) as [Hlt|Hge]; simpl.
    + split; [split; [|reflexivity]|reflexivity].
      intros _. right. exists tk. auto.
    + destruct (owner (db w) tk) as [u|] eqn:Eo; simpl.
      * destruct (User.is_active u) eqn:Eu; simpl.
        -- destruct (pair_clash _ _); simpl.
           ++ split; [split; [discriminate|]|reflexivity].
              intros [Hnone|(tk' & Hin' & Hs' & Ha' & Hbad)].
              ** rewrite (Hnone _ Hin Hs) in Ha. discriminate.
              ** rewrite (Huniq _ Hin' Hs' Ha') in Hbad.
                 destruct Hbad as [?|(u' & Hu' & Hina)]; [lia|congruence].
           ++ split; [split; [discriminate|]|discriminate].
              intros [Hnone|(tk' & Hin' & Hs' & Ha' & Hbad)].
              ** rewrite (Hnone _ Hin Hs) in Ha. discriminate.
              ** rewrite (Huniq _ Hin' Hs' Ha') in Hbad.
                 destruct Hbad as [?|(u' & Hu' & Hina)]; [lia|congruence].
        -- split; [split; [|reflexivity]|reflexivity].
           intros _. right. exists tk. eauto 10.
      * split; [split; [discriminate|]|reflexivity].
        intros [Hnone|(tk' & Hin' & Hs' & Ha' & Hbad)].
        -- rewrite (Hnone _ Hin Hs) in Ha. discriminate.
        -- rewrite (Huniq _ Hin' Hs' Ha') in Hbad.
           destruct Hbad as [?|(u' & Hu' & _)]; [lia|congruence].
  - simpl. split; [split; [|reflexivity]|reflexivity].
    intros _. left. apply active_by_refresh_None. exact E.
Qed.

Lemma refresh_refused_iff_witness :
  List.NoDup (List.map Token.refresh_token (tokens (db world_bob_out))) /\
  In (Token.set_is_active false token_A1) (tokens (db world_bob_out)) /\
  post_auth_refresh (RefreshIn.mk "R1") ("A2", "R2") 3000 3001 3002 world_bob_out
  = (Raise (HTTPException 401 "Invalid or expired refresh token"), world_bob_out).
Proof.
  assert (Hdb : tokens (db world_bob_out) = [Token.set_is_active false token_A1])
    by (vm_compute; reflexivity).
  assert (Hnd : List.NoDup (List.map Token.refresh_token (tokens (db world_bob_out)))).
  { rewrite Hdb. repeat constructor. intros []. }
  split; [exact Hnd|]. split; [rewrite Hdb; left; reflexivity|].
  pose proof (refresh_refused_iff (RefreshIn.mk "R1") ("A2", "R2") 3000 3001 3002
                world_bob_out Hnd) as H.
  cbv zeta in H.
  destruct (post_auth_refresh (RefreshIn.mk "R1") ("A2", "R2") 3000 3001 3002
              world_bob_out) as [r w'] eqn:E.
  destruct H as [[_ Hr] Hsame].
  assert (r = Raise (HTTPException 401 "Invalid or expired refresh token")).
  { apply Hr. left. rewrite Hdb. intros tk [<-|[]] _. reflexivity. }
  subst r. f_equal.
  change w' with (snd (Raise (HTTPException 401 "Invalid or expired refresh token")
                        : outcome TokenPairOut.t, w')).
  rewrite <- E. vm_compute. reflexivity.
Defined.

(** X6. After a refresh that succeeded (an active, unexpired pair of an
    active user, a freshly drawn pair, unique keys and token strings),
    the access token it returned validates to the owner during the 15
    minutes that follow the second clock reading of the refresh, and
    the access token of the pair before the refresh no longer validates
    at all. *)
Theorem refresh_then_validate :
  forall (w : World) (tk : Token.t) (u : User.t) (pair : string * string)
         (now0 now1 now2 : Z),
    List.NoDup (List.map Token.id (tokens (db w))) ->
    List.NoDup (List.map Token.access_token (tokens (db w))) ->
    List.NoDup (List.map Token.refresh_token (tokens (db w))) ->
    In tk (tokens (db w)) ->
    Token.is_active tk = true ->
    now0 <= Token.refresh_expires_at tk ->
    owner (db w) tk = Some u ->
    User.is_active u = true ->
    (forall x, In x (tokens (db w)) ->
               Token.access_token x <> fst pair /\ Token.refresh_token x <> snd pair) ->
    let w' := snd (post_auth_refresh (RefreshIn.mk (Token.refresh_token tk))
                                     pair now0 now1 now2 w) in
    forall (request : Request) (q : option string) (t : Z),
      (presented_token request q = Return (Some (fst pair)) ->
       fst (get_db (current_user request q t) w')
       = if now1 + 15 * 60 * 1000000 <? t
         then Raise (HTTPException HTTP_401_UNAUTHORIZED "Token expired or invalid")
         else Return (Some u)) /\
      (presented_token request q = Return (Some (Token.access_token tk)) ->
       fst (get_db (current_user request q t) w')
       = Raise (HTTPException HTTP_401_UNAUTHORIZED "Token expired or invalid")).
Proof.
  intros w tk u pair now0 now1 now2 Hid Hacc Href Hin Hact Hexp Hown Hu Hfresh.
  unfold post_auth_refresh. rewrite get_db_run, refresh_tokens_run. simpl.
  rewrite (active_by_refresh_unique _ _ Href Hin Hact).
  destruct (Z.ltb_spec (Token.refresh_expires_at tk) now0) as [?|_]; [lia|].
  rewrite Hown, Hu. simpl.
  assert (Hclash : pair_clash (rotated tk pair now1 now2) (tokens (db w)) = false).
  { unfold pair_clash. destruct (List.existsb _ _) eqn:E; [|reflexivity].
    apply List.existsb_exists in E as (x & Hx & Hp).
    apply andb_true_iff in Hp as [_ Hp]. destruct (Hfresh x Hx) as [Ha Hr].
    apply orb_true_iff in Hp as [Hp|Hp]; apply String.eqb_eq in Hp; simpl in Hp;
      contradiction. }
  rewrite Hclash. simpl.
  set (tk' := rotated tk pair now1 now2).
  set (st' := set_tokens (replace_row tk' (tokens (db w))) (db w)).
  intros request q t. rewrite validate_access_run. unfold access_check. split.
  - intros ->. cbn [db close set_txn].
    assert (Ha : active_by_access st' (fst pair) = Some tk').
    { apply active_by_access_unique; try reflexivity; [| |exact Hact].
      - simpl. apply replace_row_NoDup; auto.
        intros x Hx _. simpl. apply (Hfresh x Hx).
      - simpl. unfold replace_row. apply List.in_map_iff. exists tk.
        rewrite Z.eqb_refl. auto. }
    rewrite Ha. change (Token.access_expires_at tk') with (now1 + 15 * 60 * 1000000).
    destruct (now1 + 15 * 60 * 1000000 <? t); [reflexivity|].
    assert (Ho : owner st' tk' = Some u) by exact Hown.
    rewrite Ho, Hu. simpl. rewrite Ho. reflexivity.
  - intros ->. cbn [db close set_txn]. rewrite active_by_access_absent; [reflexivity|].
    simpl. intros x Hx. apply replace_row_other in Hx as [->|[Hx Hne]].
    + simpl. destruct (Hfresh tk Hin) as [Ha _]. congruence.
    + intros E. apply Hne. simpl. f_equal.
      apply (NoDup_map_eq Token.access_token (tokens (db w))); assumption.
Qed.

Lemma refresh_then_validate_witness :
  fst (get_db (current_user (mkRequest (Some "Bearer A2")) None 6000)
         (snd (post_auth_refresh (RefreshIn.mk "R1") ("A2", "R2") 5000 5001 5002
                 world_bob_1)))
  = Return (Some bob) /\
  fst (get_db (current_user (mkRequest (Some "Bearer A1")) None 6000)
         (snd (post_auth_refresh (RefreshIn.mk "R1") ("A2", "R2") 5000 5001 5002
                 world_bob_1)))
  = Raise (HTTPException 401 "Token expired or invalid").
Proof.
  pose proof (refresh_then_validate world_bob_1 token_A1 bob ("A2", "R2")
                5000 5001 5002) as H.
  rewrite world_bob_1_db in H.
  assert (H1 : List.NoDup (List.map Token.id [token_A1]))
    by (repeat constructor; intros []).
  assert (H2 : List.NoDup (List.map Token.access_token [token_A1]))
    by (repeat constructor; intros []).
  assert (H3 : List.NoDup (List.map Token.refresh_token [token_A1]))
    by (repeat constructor; intros []).
  assert (H4 : In token_A1 [token_A1]) by (left; reflexivity).
  assert (H5 : 5000 <= Token.refresh_expires_at token_A1) by (vm_compute; discriminate).
  assert (H6 : forall x, In x [token_A1] ->
                         Token.access_token x <> fst ("A2", "R2")
                         /\ Token.refresh_token x <> snd ("A2", "R2")).
  { intros x [<-|[]]. split; discriminate. }
  specialize (H H1 H2 H3 H4 eq_refl H5 eq_refl eq_refl H6). cbv zeta in H.
  split.
  - exact (proj1 (H (mkRequest (Some "Bearer A2")) None 6000) eq_refl).
  - exact (proj2 (H (mkRequest (Some "Bearer A1")) None 6000) eq_refl).
Defined.

(** ** The encoding of generated tokens *)

(** [base64.urlsafe_b64encode] on the vectors of RFC 4648 and on bytes
    that reach the last two characters of the alphabet, padding
    removed. *)
Example urlsafe_b64encode_vectors :
  List.map (fun s => urlsafe_b64encode_nopad (encode_utf8 s))
           [""; "f"; "fo"; "foo"; "foob"; "fooba"; "foobar"]
  = [""; "Zg"; "Zm8"; "Zm9v"; "Zm9vYg"; "Zm9vYmE"; "Zm9vYmFy"] /\
  urlsafe_b64encode_nopad [255; 254; 253; 252; 251; 250; 0; 1; 62; 63]
  = "__79_Pv6AAE-Pw".
Proof. vm_compute. split; reflexivity. Qed.

(** ** The presented token string *)

Lemma lstrip_head (s : string) : head_not_space (Str.lstrip s) = true.
Proof.
  induction s as [|c s IH]; [reflexivity|]. simpl.
  destruct (Str.isspace c) eqn:E; [exact IH|]. simpl. rewrite E. reflexivity.
Qed.

Lemma lstrip_id (s : string) : head_not_space s = true -> Str.lstrip s = s.
Proof.
  destruct s as [|c s]; [reflexivity|]. simpl. intros H.
  apply negb_true_iff in H. rewrite H. reflexivity.
Qed.

Lemma rstrip_head (s : string) :
  head_not_space s = true -> head_not_space (Str.rstrip s) = true.
Proof.
  destruct s as [|c s]; [reflexivity|]. simpl. intros H.
  apply negb_true_iff in H. rewrite H.
  destruct (Str.rstrip s); simpl; rewrite H; reflexivity.
Qed.

Lemma rstrip_idem (s : string) : Str.rstrip (Str.rstrip s) = Str.rstrip s.
Proof.
  induction s as [|c s IH]; [reflexivity|]. simpl.
  destruct (Str.rstrip s) as [|d r] eqn:E.
  - destruct (Str.isspace c) eqn:Ec; [reflexivity|]. simpl. rewrite Ec. reflexivity.
  - change (Str.rstrip (String c (String d r)) = String c (String d r)).
    simpl Str.rstrip at 1. simpl in IH. rewrite IH. 
    destruct (match Str.rstrip r with
              | EmptyString => if Str.isspace d then EmptyString else String d EmptyString
              | String a s0 => String d (String a s0)
              end) eqn:E'.
    + discriminate IH.
    + reflexivity.
Qed.

Lemma strip_idem (s : string) : Str.strip (Str.strip s) = Str.strip s.
Proof.
  unfold Str.strip.
  rewrite (lstrip_id (Str.rstrip (Str.lstrip s)))
    by (apply rstrip_head, lstrip_head).
  apply rstrip_idem.
Qed.

Lemma strip_empty (s : string) : Str.truthy s = false -> Str.strip s = EmptyString.
Proof. destruct s; [reflexivity|discriminate]. Qed.

Lemma split_bearer (rest : string) :
  List.nth_error (Str.split_space_once ("Bearer " ++ rest)) 1 = Some rest.
Proof. reflexivity. Qed.

Lemma truthy_strip (x : string) :
  Str.truthy x = false -> Str.truthy (Str.strip x) = false.
Proof. intros H. rewrite (strip_empty x H). reflexivity. Qed.

Lemma truthy_neq (s : string) : Str.truthy s = true <-> s <> EmptyString.
Proof. destruct s; simpl; split; congruence. Qed.

(** The query parameter as [get_current_token] falls back on it. *)
Lemma presented_token_query (request : Request) (q : option string) :
  (Authorization request = None \/
   (exists h, Authorization request = Some h /\
              (Str.startswith h "Bearer " = false \/
               exists rest, h = ("Bearer " ++ rest)%string /\
                            Str.strip rest = EmptyString))) ->
  presented_token request q
  = Return (match q with
            | Some x => if Str.truthy (Str.strip x) then Some (Str.strip x) else None
            | None => None
            end).
Proof.
  assert (Hq : forall t, Str.truthy_opt t = false ->
               (if negb (Str.truthy_opt
                           (if negb (Str.truthy_opt t) && Str.truthy_opt q
                            then Str.strip <$> q else t))
                then Return None
                else Return (if negb (Str.truthy_opt t) && Str.truthy_opt q
                             then Str.strip <$> q else t))
               = Return (match q with
                         | Some x => if Str.truthy (Str.strip x)
                                     then Some (Str.strip x) else None
                         | None => None
                         end)).
  { intros t Ht. rewrite Ht. destruct q as [x|]; simpl.
    - destruct (Str.truthy x) eqn:Ex; simpl.
      + destruct (Str.truthy (Str.strip x)); reflexivity.
      + rewrite Ht. simpl. rewrite (truthy_strip x Ex). reflexivity.
    - rewrite Ht. reflexivity. }
  unfold presented_token. intros [->|(h & -> & [Hs|(rest & -> & Hr)])].
  - exact (Hq None eq_refl).
  - rewrite Hs, andb_false_r. exact (Hq None eq_refl).
  - replace (Str.startswith ("Bearer " ++ rest) "Bearer ") with true.
    2:{ symmetry. apply prefix_append. eauto. }
    simpl Str.truthy. simpl andb. cbv iota. rewrite split_bearer, Hr.
    exact (Hq (Some EmptyString) eq_refl).
Qed.

(** X7. The token string that [get_current_token] looks up never is
    empty and never carries surrounding whitespace, and extracting it
    never raises. An [Authorization] header that starts with "Bearer "
    (in this spelling) and goes on with more than whitespace wins over
    the query parameter; otherwise the stripped query parameter is
    used, and a missing or blank one means that no token is presented. *)
Theorem presented_token_shape :
  forall (request : Request) (q : option string),
    (exists o, presented_token request q = Return o) /\
    (forall s, presented_token request q = Return (Some s) ->
               s <> EmptyString /\ Str.strip s = s) /\
    (forall rest, Authorization request = Some ("Bearer " ++ rest)%string ->
                  Str.strip rest <> EmptyString ->
                  presented_token request q = Return (Some (Str.strip rest))) /\
    ((forall rest, Authorization request = Some ("Bearer " ++ rest)%string ->
                   Str.strip rest = EmptyString) ->
     presented_token request q
     = Return (match q with
               | Some x => if Str.truthy (Str.strip x) then Some (Str.strip x) else None
               | None => None
               end)).
Proof.
  intros request q.
  assert (Hcases :
            (exists rest, Authorization request = Some ("Bearer " ++ rest)%string /\
                          Str.strip rest <> EmptyString) \/
            (Authorization request = None \/
             (exists h, Authorization request = Some h /\
                        (Str.startswith h "Bearer " = false \/
                         exists rest, h = ("Bearer " ++ rest)%string /\
                                      Str.strip rest = EmptyString)))).
  { destruct (Authorization request) as [h|]; [|auto].
    destruct (Str.startswith h "Bearer ") eqn:E; [|right; right; eauto].
    apply prefix_append in E as [rest ->].
    destruct (Str.strip rest) eqn:Es.
    - right. right. exists ("Bearer " ++ rest)%string. split; [reflexivity|].
      right. eauto.
    - left. exists rest. split; [reflexivity|]. rewrite Es. discriminate. }
  assert (Hbearer : forall rest,
             Authorization request = Some ("Bearer " ++ rest)%string ->
             Str.strip rest <> EmptyString ->
             presented_token request q = Return (Some (Str.strip rest))).
  { intros rest Hh Hr. unfold presented_token. rewrite Hh.
    replace (Str.startswith ("Bearer " ++ rest) "Bearer ") with true.
    2:{ symmetry. apply prefix_append. eauto. }
    simpl Str.truthy. simpl andb. cbv iota. rewrite split_bearer.
    apply truthy_neq in Hr. simpl. rewrite Hr. simpl. rewrite Hr. reflexivity. }
  split; [apply presented_token_total|]. split; [|split; [exact Hbearer|]].
  - intros s Hs. destruct Hcases as [(rest & Hh & Hr)|Hq].
    + rewrite (Hbearer rest Hh Hr) in Hs. injection Hs as <-.
      split; [exact Hr|apply strip_idem].
    + rewrite (presented_token_query request q Hq) in Hs.
      destruct q as [x|]; [|discriminate].
      destruct (Str.truthy (Str.strip x)) eqn:Ex; [|discriminate].
      injection Hs as <-. split; [apply truthy_neq; exact Ex|apply strip_idem].
  - intros Hblank. destruct Hcases as [(rest & Hh & Hr)|Hq].
    + exfalso. exact (Hr (Hblank rest Hh)).
    + exact (presented_token_query request q Hq).
Qed.

Lemma presented_token_shape_witness :
  presented_token (mkRequest (Some "Bearer  A1 ")) (Some "Q1") = Return (Some "A1") /\
  presented_token (mkRequest (Some "bearer A1")) (Some " Q1 ") = Return (Some "Q1") /\
  presented_token (mkRequest (Some "Bearer   ")) (Some "   ") = Return None.
Proof.
  split; [|split].
  - destruct (presented_token_shape (mkRequest (Some "Bearer  A1 ")) (Some "Q1"))
      as (_ & _ & H & _).
    apply (H " A1 "); [reflexivity|discriminate].
  - destruct (presented_token_shape (mkRequest (Some "bearer A1")) (Some " Q1 "))
      as (_ & _ & _ & H).
    apply H. intros rest. discriminate.
  - destruct (presented_token_shape (mkRequest (Some "Bearer   ")) (Some "   "))
      as (_ & _ & _ & H).
    apply H. intros rest Hh. change (Some ("Bearer " ++ "  ")%string = Some ("Bearer " ++ rest)%string) in Hh.
    injection Hh as Hh. change ("  " = rest) in Hh. rewrite <- Hh. reflexivity.
Defined.

(** ** Generated tokens *)










(** ** The shape of a stored password hash *)

Lemma blocks_length (n : nat) (h bs : list Z) :
  List.length h = 8%nat -> List.length (Sha256.blocks n h bs) = 8%nat.
Proof.
  revert h bs. induction n as [|n IH]; intros h bs Hh; [exact Hh|].
  cbn [Sha256.blocks]. apply IH. reflexivity.
Qed.

Lemma be_bytes_length (n : nat) (x : Z) : List.length (Sha256.be_bytes n x) = n.
Proof. induction n as [|n IH]; simpl; [reflexivity|]. rewrite IH. reflexivity. Qed.

Lemma be_bytes_range (n : nat) (x : Z) :
  List.Forall (fun b => 0 <= b < 256) (Sha256.be_bytes n x).
Proof.
  induction n as [|n IH]; cbn [Sha256.be_bytes]; constructor; [|exact IH].
  apply Z.mod_pos_bound. lia.
Qed.

Lemma digest_length (msg : list Z) : List.length (Sha256.digest msg) = 32%nat.
Proof.
  unfold Sha256.digest.
  pose proof (blocks_length (Nat.div (List.length (Sha256.pad msg)) 64) Sha256.H0
                (Sha256.pad msg) eq_refl) as H.
  destruct (Sha256.blocks _ _ _) as [|a [|b [|c [|d [|e [|f [|g [|h [|]]]]]]]]];
    try discriminate H.
  cbn [List.flat_map]. rewrite !List.length_app, !be_bytes_length. reflexivity.
Qed.

Lemma digest_range (msg : list Z) :
  List.Forall (fun b => 0 <= b < 256) (Sha256.digest msg).
Proof.
  unfold Sha256.digest. apply List.Forall_flat_map.
  apply List.Forall_forall. intros x _. apply be_bytes_range.
Qed.

Lemma hex_digit_lower (d : Z) : 0 <= d < 16 -> is_lower_hex (Sha256.hex_digit d) = true.
Proof.
  intros H.
  assert (E : d = 0 \/ d = 1 \/ d = 2 \/ d = 3 \/ d = 4 \/ d = 5 \/ d = 6 \/ d = 7 \/
              d = 8 \/ d = 9 \/ d = 10 \/ d = 11 \/ d = 12 \/ d = 13 \/ d = 14 \/ d = 15)
    by lia.
  repeat (destruct E as [->|E]; [reflexivity|]). subst d. reflexivity.
Qed.

Lemma hex_shape (bs : list Z) :
  List.Forall (fun b => 0 <= b < 256) bs ->
  String.length (Sha256.hex bs) = (2 * List.length bs)%nat /\
  all_chars is_lower_hex (Sha256.hex bs) = true.
Proof.
  induction 1 as [|b bs Hb _ [IHl IHc]]; [split; reflexivity|].
  cbn [Sha256.hex String.length all_chars List.length]. split; [lia|].
  rewrite IHc, !hex_digit_lower; [reflexivity| |].
  - apply Z.mod_pos_bound. lia.
  - split; [apply Z.div_pos; lia|apply Z.div_lt_upper_bound; lia].
Qed.

(** X9. Whatever the password, its stored hash is a string of exactly
    64 lower-case hexadecimal digits: it fits the 256 characters of the
    [password_hash] column, and [verify_password] refuses every stored
    value of another shape. *)
Theorem hash_password_shape :
  forall (raw : string),
    String.length (hash_password raw) = 64%nat /\
    all_chars is_lower_hex (hash_password raw) = true /\
    (forall hashed,
        String.length hashed <> 64%nat \/ all_chars is_lower_hex hashed = false ->
        verify_password raw hashed = false).
Proof.
  intros raw. unfold hash_password, Sha256.hexdigest.
  set (msg := encode_utf8 (PASSWORD_SALT ++ raw)).
  destruct (hex_shape (Sha256.digest msg) (digest_range msg)) as [Hl Hc].
  rewrite digest_length in Hl.
  split; [exact Hl|]. split; [exact Hc|].
  intros hashed H. unfold verify_password, hash_password, Sha256.hexdigest.
  fold msg. apply String.eqb_neq. intros E. rewrite <- E in H.
  destruct H as [H|H]; [apply H; exact Hl|congruence].
Qed.

(** ** The repository *)

Lemma find_filter_neq (i j : Z) (l : list Student.t) :
  List.find (fun s => Student.id s =? j)
            (List.filter (fun s => negb (Student.id s =? i)) l)
  = if j =? i then None else List.find (fun s => Student.id s =? j) l.
Proof.
  induction l as [|a l IH]; simpl; [destruct (j =? i); reflexivity|].
  destruct (Z.eqb_spec (Student.id a) i) as [Ei|Ei]; simpl.
  - rewrite IH. destruct (Z.eqb_spec j i) as [Ej|Ej]; [reflexivity|].
    destruct (Z.eqb_spec (Student.id a) j); [lia|reflexivity].
  - destruct (Z.eqb_spec (Student.id a) j) as [Ej|Ej].
    + destruct (Z.eqb_spec j i); [lia|reflexivity].
    + exact IH.
Qed.

Lemma find_id_absent (i : Z) (l : list Student.t) :
  ~ In i (List.map Student.id l) ->
  List.find (fun s => Student.id s =? i) l = None.
Proof.
  induction l as [|a l IH]; simpl; [reflexivity|]. intros H.
  destruct (Z.eqb_spec (Student.id a) i); [tauto|]. apply IH. tauto.
Qed.

Lemma find_snoc_other {A} (p : A -> bool) (l : list A) (x : A) :
  p x = false -> List.find p (l ++ [x]) = List.find p l.
Proof.
  intros Hx. induction l as [|a l IH]; simpl; [rewrite Hx; reflexivity|].
  destruct (p a); [reflexivity|exact IH].
Qed.

Lemma find_id_eq (i : Z) (l : list Student.t) (s : Student.t) :
  List.find (fun s => Student.id s =? i) l = Some s -> Student.id s = i.
Proof. intros H. apply List.find_some in H as [_ H]. lia. Qed.

Lemma find_map_replace (i j : Z) (s' : Student.t) (l : list Student.t) :
  Student.id s' = i ->
  List.find (fun s => Student.id s =? j)
            (List.map (fun s => if Student.id s =? i then s' else s) l)
  = if j =? i
    then match List.find (fun s => Student.id s =? i) l with
         | Some _ => Some s'
         | None => None
         end
    else List.find (fun s => Student.id s =? j) l.
Proof.
  intros Hs'. induction l as [|a l IH]; simpl; [destruct (j =? i); reflexivity|].
  destruct (Z.eqb_spec (Student.id a) i) as [Ei|Ei].
  - rewrite Hs'. destruct (Z.eqb_spec i j) as [Ej|Ej].
    + subst j. rewrite Z.eqb_refl. reflexivity.
    + rewrite IH. destruct (Z.eqb_spec j i); [lia|].
      destruct (Z.eqb_spec (Student.id a) j); [lia|reflexivity].
  - destruct (Z.eqb_spec (Student.id a) j) as [Ej|Ej].
    + destruct (Z.eqb_spec j i); [lia|reflexivity].
    + exact IH.
Qed.

Lemma map_replace_ids (i : Z) (s' : Student.t) (l : list Student.t) :
  Student.id s' = i ->
  List.map Student.id (List.map (fun s => if Student.id s =? i then s' else s) l)
  = List.map Student.id l.
Proof.
  intros Hs'. induction l as [|a l IH]; simpl; [reflexivity|]. rewrite IH.
  destruct (Z.eqb_spec (Student.id a) i); congruence.
Qed.

Lemma next_id_room (ss : list Student.t) :
  has_room ss -> sqlite_int (next_id (List.map Student.id ss)) = true.
Proof.
  intros H. unfold sqlite_int.
  assert (Hb : - 2 ^ 63 <= next_id (List.map Student.id ss) < 2 ^ 63).
  { destruct ss as [|a ss]; [cbn; lia|]. cbn [List.map next_id].
    apply List.Forall_cons_iff in H as [Ha H].
    assert (Hm : - 2 ^ 63 <= List.fold_right Z.max (Student.id a) (List.map Student.id ss)
                 < 2 ^ 63 - 1).
    { induction H as [|b ss Hb _ IH]; cbn [List.map List.fold_right]; [exact Ha|]. lia. }
    lia. }
  apply andb_true_iff. split; [apply Z.leb_le|apply Z.ltb_lt]; lia.
Qed.

(** X10. [create] of a payload whose grade is NaN raises
    [IntegrityError] and changes nothing. Otherwise, in a table whose
    keys leave room, it commits a new row that takes the strings of the
    payload, the grade as SQLite keeps it (a zero without its sign) and
    a key no row of the table has; the row is the last of the listing,
    [get] finds it under its key, and every other key reads as
    before. *)
Theorem repository_create_then_get :
  forall (data : StudentCreate.t) (w : World),
    has_room (students (txn w)) ->
    match sqlite_real (StudentCreate.grade data) with
    | None => StudentsRepository.create data w = (Raise IntegrityError, w)
    | Some grade =>
        exists (s : Student.t) (w' : World),
          StudentsRepository.create data w = (Return s, w') /\
          columns s
          = (StudentCreate.last_name data, StudentCreate.first_name data,
             StudentCreate.faculty data, StudentCreate.course data, grade) /\
          ~ In (Student.id s) (List.map Student.id (students (txn w))) /\
          students (db w') = (students (txn w) ++ [s])%list /\
          txn w' = db w' /\
          StudentsRepository.list w' = (Return (students (txn w) ++ [s])%list, w') /\
          StudentsRepository.get (Student.id s) w' = (Return (Some s), w') /\
          (forall i, i <> Student.id s ->
                     fst (StudentsRepository.get i w') = fst (StudentsRepository.get i w))
    end.
Proof.
  intros data w Hroom. rewrite repository_create_run.
  destruct (sqlite_real (StudentCreate.grade data)) as [grade|]; [|reflexivity].
  cbv zeta. eexists. eexists. split; [reflexivity|].
  cbn [db txn set_db set_txn students set_students Student.id].
  split; [reflexivity|]. split; [apply next_id_fresh|].
  split; [reflexivity|]. split; [reflexivity|]. split; [reflexivity|].
  split.
  - rewrite repository_get_run, (next_id_room _ Hroom). unfold student_by_id.
    cbn [db txn set_db set_txn students set_students].
    rewrite find_snoc_fresh; [reflexivity| |apply Z.eqb_refl].
    apply find_id_absent, next_id_fresh.
  - intros i Hi. rewrite !repository_get_run. unfold student_by_id.
    cbn [db txn set_db set_txn students set_students fst].
    rewrite find_snoc_other; [reflexivity|].
    apply Z.eqb_neq. cbn [Student.id] in *. congruence.
Qed.

(** X11. [delete] of a key that is no 64-bit integer raises
    [OverflowError] and changes nothing. Of a key the table has it
    commits the table without the row and returns [True]; of one the
    table lacks it returns [False] and changes nothing. Either way the
    key is gone afterwards, every other key reads as before, and a
    second [delete] returns [False]. *)
Theorem repository_delete_then_get :
  forall (i : Z) (w : World),
    let (r, w') := StudentsRepository.delete i w in
    (sqlite_int i = false -> r = Raise OverflowError /\ w' = w) /\
    (sqlite_int i = true ->
     r = Return (match student_by_id (txn w) i with Some _ => true | None => false end) /\
     (student_by_id (txn w) i = None -> w' = w) /\
     (student_by_id (txn w) i <> None ->
      students (db w')
      = List.filter (fun s => negb (Student.id s =? i)) (students (txn w)) /\
      users (db w') = users (txn w) /\ tokens (db w') = tokens (txn w) /\
      txn w' = db w') /\
     StudentsRepository.get i w' = (Return None, w') /\
     (forall j, j <> i ->
                fst (StudentsRepository.get j w') = fst (StudentsRepository.get j w)) /\
     StudentsRepository.delete i w' = (Return false, w')).
Proof.
  intros i w. rewrite repository_delete_run.
  destruct (sqlite_int i) eqn:Ei; [|split; [split; reflexivity|discriminate]].
  destruct (student_by_id (txn w) i) as [s|] eqn:E.
  - cbv beta iota zeta. split; [discriminate|]. intros _.
    rewrite repository_delete_run, !repository_get_run, Ei.
    unfold student_by_id in *.
    cbn [db txn set_db set_txn students set_students users tokens fst].
    rewrite !find_filter_neq, Z.eqb_refl.
    split; [reflexivity|]. split; [discriminate|].
    split; [intros _; repeat split|]. split; [reflexivity|].
    split; [|reflexivity].
    intros j Hj. rewrite !repository_get_run. unfold student_by_id.
    cbn [fst txn set_db set_txn students set_students].
    rewrite find_filter_neq.
    destruct (Z.eqb_spec j i); [contradiction|reflexivity].
  - cbv beta iota zeta. split; [discriminate|]. intros _.
    rewrite repository_delete_run, repository_get_run, Ei, E.
    split; [reflexivity|]. split; [reflexivity|]. split; [congruence|].
    split; [reflexivity|]. split; reflexivity.
Qed.

(** X12. [update] of a key that is no 64-bit integer raises
    [OverflowError]; of a key the table lacks it returns [None]; an
    update that sets a column to [null], or the grade to NaN, raises
    [IntegrityError]; none of these changes anything. Otherwise the row
    keeps its key and the columns the payload leaves unset, takes the
    strings it sets and the grade as SQLite keeps it; the change is
    committed, the keys of the table stay as they are, [get] returns the
    new row and every other key reads as before. *)
Theorem repository_update_then_get :
  forall (i : Z) (data : StudentUpdate.t) (w : World),
    (sqlite_int i = false ->
     StudentsRepository.update i data w = (Raise OverflowError, w)) /\
    (sqlite_int i = true -> student_by_id (txn w) i = None ->
     StudentsRepository.update i data w = (Return None, w)) /\
    (forall s, sqlite_int i = true -> student_by_id (txn w) i = Some s ->
       has_null data = true ->
       StudentsRepository.update i data w = (Raise IntegrityError, w)) /\
    (forall s, sqlite_int i = true -> student_by_id (txn w) i = Some s ->
       has_null data = false ->
       match stored_grade (Student.grade s) (StudentUpdate.grade data) with
       | None => StudentsRepository.update i data w = (Raise IntegrityError, w)
       | Some grade =>
           let s' := Student.mk i
                       (new_value (Student.last_name s) (StudentUpdate.last_name data))
                       (new_value (Student.first_name s) (StudentUpdate.first_name data))
                       (new_value (Student.faculty s) (StudentUpdate.faculty data))
                       (new_value (Student.course s) (StudentUpdate.course data))
                       grade in
           exists w',
             StudentsRepository.update i data w = (Return (Some s'), w') /\
             List.map Student.id (students (db w'))
             = List.map Student.id (students (txn w)) /\
             users (db w') = users (txn w) /\ tokens (db w') = tokens (txn w) /\
             txn w' = db w' /\
             StudentsRepository.get i w' = (Return (Some s'), w') /\
             (forall j, j <> i ->
                fst (StudentsRepository.get j w') = fst (StudentsRepository.get j w))
       end).
Proof.
  intros i data w. rewrite repository_update_run.
  split; [intros ->; reflexivity|].
  split; [intros -> ->; reflexivity|]. split.
  - intros s -> -> Hn. unfold has_null in Hn.
    destruct data as [[[ln|]|] [[fn|]|] [[fa|]|] [[co|]|] [[gr|]|]];
      try discriminate Hn;
      cbn [StudentsRepository.setattr StudentsRepository.setattr_real
           StudentUpdate.last_name StudentUpdate.first_name StudentUpdate.faculty
           StudentUpdate.course StudentUpdate.grade mbind option_bind];
      try reflexivity;
      destruct (sqlite_real gr); reflexivity.
  - intros s Ei Hs Hn. rewrite Ei, Hs.
    assert (Hid : Student.id s = i) by (apply (find_id_eq _ _ _ Hs)).
    unfold student_by_id in Hs. unfold has_null in Hn.
    assert (Hg : StudentsRepository.setattr_real (Student.grade s) (StudentUpdate.grade data)
                 = stored_grade (Student.grade s) (StudentUpdate.grade data)).
    { destruct data as [? ? ? ? [[gr|]|]]; try reflexivity.
      cbn in Hn. rewrite !orb_true_r in Hn. discriminate. }
    rewrite Hg.
    destruct (stored_grade (Student.grade s) (StudentUpdate.grade data)) as [grade|].
    2:{ destruct data as [[[ln|]|] [[fn|]|] [[fa|]|] [[co|]|] gr0];
          try discriminate Hn; reflexivity. }
    destruct data as [[[ln|]|] [[fn|]|] [[fa|]|] [[co|]|] gr0];
      try discriminate Hn;
      cbn [StudentsRepository.setattr new_value StudentUpdate.last_name
           StudentUpdate.first_name StudentUpdate.faculty StudentUpdate.course
           StudentUpdate.grade];
      rewrite Hid; cbv zeta;
      (eexists; split; [reflexivity|]);
      rewrite !repository_get_run, Ei; unfold student_by_id;
      cbn [db txn set_db set_txn students set_students users tokens fst];
      (split; [apply map_replace_ids; reflexivity|]);
      (split; [reflexivity|]); (split; [reflexivity|]); (split; [reflexivity|]);
      (split;
       [rewrite find_map_replace, Z.eqb_refl, Hs by reflexivity; reflexivity
       |intros j Hj; rewrite !repository_get_run; unfold student_by_id;
        cbn [db txn set_db set_txn students set_students fst];
        rewrite find_map_replace by reflexivity;
        destruct (Z.eqb_spec j i); [contradiction|reflexivity]]).
Qed.

(** ** Import and bulk delete *)

Lemma write_user_ok (request : Request) (q : option string) (now_utc : Z)
    (w : World) (u : User.t) :
  fst (get_db (write_user request q now_utc) w) = Return u ->
  write_user request q now_utc (close (set_background [] w))
  = (Return u, close (set_background [] w)).
Proof.
  rewrite get_db_run, !write_user_run. cbn [fst].
  change (txn (close (set_background [] w))) with (txn (close w)).
  intros ->. reflexivity.
Qed.

Lemma filter_all {A} (p : A -> bool) (l : list A) :
  (forall x, p x = true) -> List.filter p l = l.
Proof.
  intros H. induction l as [|a l IH]; simpl; [reflexivity|].
  rewrite H, IH. reflexivity.
Qed.

Section ImportAndBulkDelete.

Variable float_of_str : string -> option float.
Variable read_csv : string -> option (list CsvRow).

Lemma import_task_columns (csv_path : string) (rnow : Z) (w : World) :
  let (r, w') := import_students_from_csv_task float_of_str read_csv csv_path rnow w in
  users (db w') = users (db w) /\ tokens (db w') = tokens (db w) /\
  txn w' = db w' /\ background w' = background w /\
  match read_csv csv_path with
  | Some rows =>
      match mapM stored_columns (omap (row_columns float_of_str) rows) with
      | Some cols =>
          r = Return tt /\
          (exists new,
              students (db w') = (students (db w) ++ new)%list /\
              List.map columns new = cols) /\
          (List.NoDup (List.map Student.id (students (db w))) ->
           List.NoDup (List.map Student.id (students (db w')))) /\
          redis w' = purge "students:*" rnow (redis w)
      | None => r = Raise IntegrityError /\ db w' = db w /\ redis w' = redis w
      end
  | None =>
      r = Raise FileNotFoundError /\ db w' = db w /\ redis w' = redis w
  end.
Proof.
  unfold import_students_from_csv_task, finally_close, SessionLocal, bind at 1, modify.
  destruct (read_csv csv_path) as [rows|].
  - unfold bind at 1.
    destruct (for_each_import_row_run float_of_str rows (set_txn (db w) w))
      as (new & r & -> & Hr).
    destruct (mapM stored_columns _) as [cols|].
    + destruct Hr as (-> & Hcols & Hnd).
      unfold bind, commit, modify. rewrite invalidate_students_cache_run.
      cbn [db txn redis set_db set_txn set_redis close users tokens students
           set_students background].
      repeat split; eauto.
    + subst r.
      cbn [db txn redis set_db set_txn set_redis close users tokens students
           set_students background].
      repeat split.
  - cbn [raise close db txn set_txn redis background]. repeat split.
Qed.

(** The keys the loop hands out stay below a bound that grows by one
    with each row of the file. *)
Lemma next_id_below (ss : list Student.t) (b : Z) :
  0 < b ->
  List.Forall (fun s => - 2 ^ 63 <= Student.id s < b) ss ->
  - 2 ^ 63 <= next_id (List.map Student.id ss) < b + 1.
Proof.
  intros Hb H. destruct ss as [|a ss]; [cbn; lia|]. cbn [List.map next_id].
  apply List.Forall_cons_iff in H as [Ha H].
  assert (Hm : - 2 ^ 63 <= List.fold_right Z.max (Student.id a) (List.map Student.id ss)
               < b).
  { induction H as [|c ss Hc _ IH]; cbn [List.map List.fold_right]; [exact Ha|]. lia. }
  lia.
Qed.

Lemma for_each_import_row_keys (rows : list CsvRow) (w : World) (b : Z) :
  0 < b ->
  List.Forall (fun s => - 2 ^ 63 <= Student.id s < b) (students (txn w)) ->
  List.Forall (fun s => - 2 ^ 63 <= Student.id s < b + Z.of_nat (List.length rows))
              (students (txn (snd (for_each rows (import_row float_of_str) w)))).
Proof.
  revert w b. induction rows as [|row rows IH]; intros w b Hb H.
  - cbn [for_each ret snd List.length]. rewrite Z.add_0_r. exact H.
  - assert (Hweak : forall ss,
               List.Forall (fun s => - 2 ^ 63 <= Student.id s < b) ss ->
               List.Forall (fun s => - 2 ^ 63 <= Student.id s
                                     < b + Z.of_nat (List.length (row :: rows))) ss).
    { intros ss Hss. eapply List.Forall_impl; [|exact Hss].
      cbn beta. intros s Hs. cbn [List.length]. lia. }
    assert (Hstep : forall ss,
               List.Forall (fun s => - 2 ^ 63 <= Student.id s
                                     < (b + 1) + Z.of_nat (List.length rows)) ss ->
               List.Forall (fun s => - 2 ^ 63 <= Student.id s
                                     < b + Z.of_nat (List.length (row :: rows))) ss).
    { intros ss Hss. eapply List.Forall_impl; [|exact Hss].
      cbn beta. intros s Hs. cbn [List.length]. lia. }
    pose proof (import_row_run float_of_str row w) as Hrow.
    cbn [for_each]. unfold bind.
    destruct (row_columns float_of_str row) as [c|].
    + destruct (stored_columns c) as [c'|].
      * destruct Hrow as (s & -> & Hid & _).
        apply Hstep, IH; [lia|].
        cbn [txn set_txn students set_students].
        apply List.Forall_app. split.
        -- eapply List.Forall_impl; [|exact H]. cbn beta. intros x Hx. lia.
        -- constructor; [|constructor]. rewrite Hid. apply next_id_below; assumption.
      * rewrite Hrow. cbn [snd]. apply Hweak. exact H.
    + rewrite Hrow. apply Hstep, IH; [lia|].
      eapply List.Forall_impl; [|exact H]. cbn beta. intros x Hx. lia.
Qed.

(** In a table with room for the rows of the file, the task leaves
    64-bit keys only. *)
Lemma import_task_keys (csv_path : string) (rnow : Z) (w : World)
    (rows : list CsvRow) :
  read_csv csv_path = Some rows ->
  has_room_for (List.length rows) (students (db w)) ->
  List.Forall (fun s => sqlite_int (Student.id s) = true)
    (students (db (snd (import_students_from_csv_task float_of_str read_csv
                          csv_path rnow w)))).
Proof.
  intros Hrows [Hn Hroom].
  assert (Hint : forall ss,
             List.Forall (fun s => - 2 ^ 63 <= Student.id s < 2 ^ 63) ss ->
             List.Forall (fun s => sqlite_int (Student.id s) = true) ss).
  { intros ss Hss. eapply List.Forall_impl; [|exact Hss]. cbn beta. intros s Hs.
    unfold sqlite_int. apply andb_true_iff.
    split; [apply Z.leb_le|apply Z.ltb_lt]; lia. }
  pose proof (for_each_import_row_keys rows (set_txn (db w) w)
                (2 ^ 63 - Z.of_nat (List.length rows)) ltac:(lia) Hroom) as Hkeys.
  replace (2 ^ 63 - Z.of_nat (List.length rows) + Z.of_nat (List.length rows))
    with (2 ^ 63) in Hkeys by lia.
  unfold import_students_from_csv_task, finally_close, SessionLocal, bind at 1, modify.
  rewrite Hrows. unfold bind at 1.
  destruct (for_each_import_row_run float_of_str rows (set_txn (db w) w))
    as (new & r & E & Hr).
  rewrite E in Hkeys |- *. cbn [snd] in Hkeys.
  destruct (mapM stored_columns _) as [cols|].
  - destruct Hr as (-> & _ & _).
    unfold bind, commit, modify. rewrite invalidate_students_cache_run.
    cbn [db txn redis set_db set_txn set_redis close users tokens students
         set_students background snd] in *.
    apply Hint. exact Hkeys.
  - subst r.
    cbn [db txn redis set_db set_txn set_redis close users tokens students
         set_students background snd] in *.
    apply Hint. eapply List.Forall_impl; [|exact Hroom]. cbn beta. intros s Hs. lia.
Qed.

Lemma bulk_delete_task_run (ids : list Z) (rnow : Z) (w : World) :
  let (r, w') := bulk_delete_students_task ids rnow w in
  users (db w') = users (db w) /\ tokens (db w') = tokens (db w) /\
  background w' = background w /\
  if List.forallb sqlite_int ids
  then r = Return tt /\
       students (db w') = without_ids ids (students (db w)) /\
       redis w' = match ids with
                  | [] => redis w
                  | _ => purge "students:*" rnow (redis w)
                  end
  else r = Raise OverflowError /\ db w' = db w /\ redis w' = redis w.
Proof.
  destruct ids as [|i ids].
  - cbn [bulk_delete_students_task ret List.forallb]. unfold without_ids.
    rewrite filter_all by reflexivity. repeat split.
  - unfold bulk_delete_students_task, finally_close, SessionLocal, commit, bind, modify,
      raise.
    destruct (List.forallb sqlite_int (i :: ids)).
    + rewrite invalidate_students_cache_run.
      cbn [db txn redis set_db set_txn set_redis close users tokens students
           set_students background].
      repeat split.
    + cbn [db txn redis set_db set_txn set_redis close users tokens students
           set_students background].
      repeat split.
Qed.

(** A handler that schedules one task: the task runs when the handler
    has returned and its session is closed; what the task raises is not
    the response. *)
Lemma serve_one_task {A} (handler : M A) (rnow_bg : Z) (w : World) (a : A)
    (task : Task) :
  let w0 := close (set_background [] w) in
  handler w0 = (Return a, set_background [task] w0) ->
  serve float_of_str read_csv handler rnow_bg w
  = (Return a, set_background [] (snd (run_task float_of_str read_csv rnow_bg task w0))).
Proof.
  intros w0 H. unfold serve. rewrite get_db_run. fold w0. rewrite H.
  cbn [fst snd].
  assert (Ebg : background (close (set_background [task] w0)) = [task]) by reflexivity.
  assert (Ew : set_background [] (close (set_background [task] w0)) = w0) by reflexivity.
  rewrite Ebg, Ew. cbn [for_each]. unfold bind.
  destruct (run_task float_of_str read_csv rnow_bg task w0) as [[[]|e] w2]; reflexivity.
Qed.

Lemma serve_no_task {A} (handler : M A) (rnow_bg : Z) (w : World) (a : A) :
  let w0 := close (set_background [] w) in
  handler w0 = (Return a, w0) ->
  serve float_of_str read_csv handler rnow_bg w = (Return a, w0).
Proof.
  intros w0 H. unfold serve. rewrite get_db_run. fold w0. rewrite H. reflexivity.
Qed.

(** X13. Take a table whose keys leave room for the rows of the file.
    An import request of a user who may write answers that the import
    is scheduled, whatever the path. The task then works on a session
    of its own and only appends. When the file opens: the CSV rows that
    lack a family name, a given name, a course that is not blank or a
    grade that [float] accepts are skipped; if the grade of one of the
    others is NaN, the commit fails, no row is imported and the cache
    is left alone; otherwise the committed table is the former one
    followed by one row for each of them, in the order of the file,
    with the strings stripped and the grade as SQLite keeps it, every
    key is a 64-bit integer, keys that were distinct stay distinct, and
    the students cache is purged. When the file does not open, store
    and cache stay as they were. The answer is the same in every
    case. *)
Theorem import_request_appends_valid_rows :
  forall (payload : CSVImportRequest.t) (request : Request) (q : option string)
         (now_utc rnow_bg : Z) (w : World) (u : User.t),
    fst (get_db (write_user request q now_utc) w) = Return u ->
    (forall rows, read_csv (CSVImportRequest.path payload) = Some rows ->
                  has_room_for (List.length rows) (students (db w))) ->
    let path := CSVImportRequest.path payload in
    let (r, w') := serve float_of_str read_csv
                     (import_students_from_csv payload (write_user request q now_utc))
                     rnow_bg w in
    r = Return (MessageOut.mk ("CSV import scheduled for path: " ++ path)) /\
    background w' = [] /\
    users (db w') = users (db w) /\ tokens (db w') = tokens (db w) /\
    match read_csv path with
    | Some rows =>
        match mapM stored_columns (omap (row_columns float_of_str) rows) with
        | Some cols =>
            (exists new,
                students (db w') = (students (db w) ++ new)%list /\
                List.map columns new = cols) /\
            List.Forall (fun s => sqlite_int (Student.id s) = true) (students (db w')) /\
            (List.NoDup (List.map Student.id (students (db w))) ->
             List.NoDup (List.map Student.id (students (db w')))) /\
            redis w' = purge "students:*" rnow_bg (redis w)
        | None => db w' = db w /\ redis w' = redis w
        end
    | None => db w' = db w /\ redis w' = redis w
    end.
Proof.
  intros payload request q now_utc rnow_bg w u Hu Hroom path.
  apply write_user_ok in Hu.
  rewrite (serve_one_task _ rnow_bg w
             (MessageOut.mk ("CSV import scheduled for path: " ++ path))
             (import_students_from_csv_task_of path)).
  2:{ unfold import_students_from_csv, add_task, bind, modify, ret. rewrite Hu.
      reflexivity. }
  cbn [run_task].
  pose proof (import_task_columns path rnow_bg (close (set_background [] w))) as H.
  pose proof (import_task_keys path rnow_bg (close (set_background [] w))) as Hkeys.
  destruct (import_students_from_csv_task _ _ _ _ _) as [r2 w2].
  cbn [snd] in *. destruct H as (Hus & Hts & _ & _ & H).
  split; [reflexivity|]. split; [reflexivity|].
  cbn [db set_background close set_txn] in *.
  split; [exact Hus|]. split; [exact Hts|].
  fold path in Hroom.
  destruct (read_csv path) as [rows|].
  - specialize (Hkeys rows eq_refl (Hroom rows eq_refl)).
    destruct (mapM stored_columns _) as [cols|].
    + destruct H as (_ & Hnew & Hnd & Hr). auto.
    + destruct H as (_ & Hdb & Hr). auto.
  - destruct H as (_ & Hdb & Hr). auto.
Qed.

(** X14. A bulk-delete request of a user who may write, for a list of
    at most 999 ids (what every SQLite build binds in one statement),
    answers that the deletion is scheduled, or that there is nothing to
    delete when the list is empty. When every listed id is a 64-bit
    integer, the task commits the table without the rows whose key is
    listed: the rows that stay are those whose key is not listed, in
    their order, and keys that the table lacks are ignored; the
    students cache is purged unless the list is empty, in which case
    nothing is scheduled. When a listed id is no 64-bit integer, the
    DELETE raises [OverflowError]: no row is deleted and the cache is
    left alone. Users and tokens are untouched in every case. *)
Theorem bulk_delete_request_removes_listed :
  forall (payload : BulkDeleteRequest.t) (request : Request) (q : option string)
         (now_utc rnow_bg : Z) (w : World) (u : User.t),
    fst (get_db (write_user request q now_utc) w) = Return u ->
    (List.length (BulkDeleteRequest.ids payload) <= 999)%nat ->
    let ids := BulkDeleteRequest.ids payload in
    let (r, w') := serve float_of_str read_csv
                     (bulk_delete_students payload (write_user request q now_utc))
                     rnow_bg w in
    r = Return (MessageOut.mk
                  (match ids with
                   | [] => "No IDs provided, nothing to delete"
                   | _ => "Bulk delete scheduled for ids: " ++ str_of_ints ids
                   end)) /\
    background w' = [] /\
    users (db w') = users (db w) /\ tokens (db w') = tokens (db w) /\
    if List.forallb sqlite_int ids
    then students (db w') = without_ids ids (students (db w)) /\
         (forall s, In s (students (db w')) <->
                    In s (students (db w)) /\ ~ In (Student.id s) ids) /\
         redis w' = match ids with
                    | [] => redis w
                    | _ => purge "students:*" rnow_bg (redis w)
                    end
    else db w' = db w /\ redis w' = redis w.
Proof.
  intros payload request q now_utc rnow_bg w u Hu _ ids.
  apply write_user_ok in Hu.
  assert (Hin : forall ss s, In s (without_ids ids ss) <->
                             In s ss /\ ~ In (Student.id s) ids).
  { intros ss s. unfold without_ids. rewrite List.filter_In, negb_true_iff.
    rewrite <- not_true_iff_false, List.existsb_exists.
    split; intros [H1 H2]; (split; [exact H1|]).
    - intros Hi. apply H2. exists (Student.id s). split; [exact Hi|apply Z.eqb_refl].
    - intros (x & Hx & E). apply Z.eqb_eq in E. subst x. contradiction. }
  destruct ids as [|i ids'] eqn:Eids.
  - rewrite (serve_no_task _ rnow_bg w
               (MessageOut.mk "No IDs provided, nothing to delete")).
    2:{ unfold bulk_delete_students, bind, ret. rewrite Hu. fold ids.
        rewrite Eids. reflexivity. }
    cbn [db set_background close set_txn redis background List.forallb].
    assert (E : without_ids [] (students (db w)) = students (db w))
      by (apply filter_all; reflexivity).
    split; [reflexivity|]. split; [reflexivity|]. split; [reflexivity|].
    split; [reflexivity|]. split; [symmetry; exact E|].
    split; [|reflexivity].
    intros s. rewrite <- (Hin (students (db w)) s), E. reflexivity.
  - rewrite (serve_one_task _ rnow_bg w
               (MessageOut.mk ("Bulk delete scheduled for ids: " ++ str_of_ints (i :: ids')))
               (bulk_delete_students_task_of (i :: ids'))).
    2:{ unfold bulk_delete_students, add_task, bind, modify, ret. rewrite Hu.
        fold ids. rewrite Eids. reflexivity. }
    cbn [run_task].
    pose proof (bulk_delete_task_run (i :: ids') rnow_bg (close (set_background [] w)))
      as H.
    destruct (bulk_delete_students_task _ _ _) as [r2 w2].
    cbn [snd]. destruct H as (Hus & Hts & _ & H).
    cbn [db set_background close set_txn redis background] in *.
    split; [reflexivity|]. split; [reflexivity|].
    split; [exact Hus|]. split; [exact Hts|].
    destruct (List.forallb sqlite_int (i :: ids')).
    + destruct H as (_ & Hss & Hr). rewrite Hss.
      split; [reflexivity|]. split; [apply Hin|exact Hr].
    + destruct H as (_ & Hdb & Hr). auto.
Qed.

End ImportAndBulkDelete.

(** ** The keys of the cache *)







(** ** The cache is transparent *)

Lemma get_empty (k : string) (t : Z) : Redis.get k t ∅ = None.
Proof. apply get_None. intros e He. rewrite lookup_empty in He. discriminate. Qed.

Section CacheCoherence.

Variable json_dumps : list Student.t -> string.
Variable json_loads : string -> option (list Student.t).
Variable json_dumps_student : Student.t -> string.
Variable json_loads_student : string -> option Student.t.
Variable float_of_str : string -> option float.
Variable read_csv : string -> option (list CsvRow).

Local Abbreviation coherent := (cache_coherent json_loads json_loads_student).

Lemma coherent_mono (t t2 : Z) (w : World) :
  coherent t w -> t <= t2 -> coherent t2 w.
Proof.
  intros [Hl Hi] Hle. split.
  - intros t' v Ht. apply Hl. lia.
  - intros i t' v Ht. apply Hi. lia.
Qed.

Lemma coherent_same (t : Z) (w w' : World) :
  db w' = db w -> redis w' = redis w -> coherent t w -> coherent t w'.
Proof. unfold cache_coherent. intros -> ->. trivial. Qed.

Lemma coherent_purged (rnow : Z) (w' : World) (r : Redis.t) :
  redis w' = purge "students:*" rnow r -> coherent rnow w'.
Proof.
  intros Hr. split.
  - intros t' v Ht. rewrite Hr, purge_get by exact Ht.
    replace (Redis.glob "students:*" "students:list") with true by reflexivity.
    discriminate.
  - intros i t' v Ht. rewrite Hr, purge_get by exact Ht.
    replace (Redis.glob "students:*" ("students:" ++ str_of_int i)) with true.
    + discriminate.
    + symmetry. apply glob_students. eauto.
Qed.

Lemma coherent_empty (t : Z) (w : World) : redis w = ∅ -> coherent t w.
Proof.
  intros Hr. split; [intros t' v _|intros i t' v _]; rewrite Hr, get_empty; discriminate.
Qed.

(** What a write handler leaves keeps the cache coherent. *)
Lemma coherent_then_purge {A} (t rnow : Z) (w : World) (x : outcome A * World) :
  redis (snd x) = redis w ->
  (forall e, fst x = Raise e -> db (snd x) = db w) ->
  coherent t w -> t <= rnow ->
  coherent rnow (close (snd (then_purge rnow x))).
Proof.
  intros Hr Hdb Hc Hle. destruct x as [[a|e] w1]; cbn [then_purge snd fst] in *.
  - apply (coherent_purged rnow _ (redis w1)). reflexivity.
  - apply (coherent_mono t); [|exact Hle].
    apply (coherent_same t w); [rewrite <- (Hdb e eq_refl); reflexivity|exact Hr|exact Hc].
Qed.

Lemma then_purge_agree {A} (hc h : M A) (t rnow : Z) (w : World) :
  hc (close w) = then_purge rnow (h (close w)) ->
  redis (snd (h (close w))) = redis w ->
  (forall e, fst (h (close w)) = Raise e -> db (snd (h (close w))) = db w) ->
  coherent t w -> t <= rnow ->
  fst (get_db hc w) = fst (get_db h w) /\
  db (snd (get_db hc w)) = db (snd (get_db h w)) /\
  coherent rnow (snd (get_db hc w)).
Proof.
  intros Hc Hr Hdb Hcoh Hle. rewrite !get_db_run, Hc. cbn [fst snd].
  split; [|split].
  - destruct (h (close w)) as [[a|e] w1]; reflexivity.
  - destruct (h (close w)) as [[a|e] w1]; reflexivity.
  - apply (coherent_then_purge t rnow w); assumption.
Qed.

Lemma create_student_then_purge (payload : StudentCreate.t) (user : M User.t)
    (rnow : Z) (w : World) :
  create_student payload user rnow w
  = then_purge rnow (Hw11t9.create_student payload user w).
Proof.
  unfold create_student, Hw11t9.create_student, bind.
  destruct (user w) as [[u|e] w1]; [|reflexivity].
  destruct (StudentsRepository.create payload w1) as [[s|e] w2]; [|reflexivity].
  rewrite invalidate_students_cache_run. reflexivity.
Qed.

Lemma update_student_then_purge (student_id : Z) (payload : StudentUpdate.t)
    (user : M User.t) (rnow : Z) (w : World) :
  update_student student_id payload user rnow w
  = then_purge rnow (Hw11t9.update_student student_id payload user w).
Proof.
  unfold update_student, Hw11t9.update_student, bind.
  destruct (user w) as [[u|e] w1]; [|reflexivity].
  destruct (StudentsRepository.update student_id payload w1) as [[[s|]|e] w2];
    try reflexivity.
  rewrite invalidate_students_cache_run. reflexivity.
Qed.

Lemma delete_student_then_purge (student_id : Z) (user : M User.t) (rnow : Z)
    (w : World) :
  delete_student student_id user rnow w
  = then_purge rnow (Hw11t9.delete_student student_id user w).
Proof.
  unfold delete_student, Hw11t9.delete_student, bind.
  destruct (user w) as [[u|e] w1]; [|reflexivity].
  destruct (StudentsRepository.delete student_id w1) as [[[|]|e] w2];
    try reflexivity.
  cbn [negb]. rewrite invalidate_students_cache_run. reflexivity.
Qed.

(** The plain write handlers leave the cache alone, and the committed
    store too when they raise. *)
Lemma plain_create_effect (payload : StudentCreate.t) (request : Request)
    (q : option string) (now_utc : Z) (w : World) :
  let x := Hw11t9.create_student payload (write_user request q now_utc) w in
  redis (snd x) = redis w /\ (forall e, fst x = Raise e -> db (snd x) = db w).
Proof.
  unfold Hw11t9.create_student, bind. rewrite write_user_run.
  destruct (match access_check _ _ _ _ with Return _ => _ | Raise _ => _ end) as [u|e];
    [|split; reflexivity].
  pose proof (repository_create_effect payload w) as H.
  destruct (StudentsRepository.create payload w) as [r w1].
  destruct H as (Hr & _ & [(e & -> & ->)|(s & -> & _)]); cbn [fst snd ret].
  - split; reflexivity.
  - split; [exact Hr|]. intros e. discriminate.
Qed.

Lemma plain_update_effect (student_id : Z) (payload : StudentUpdate.t)
    (request : Request) (q : option string) (now_utc : Z) (w : World) :
  let x := Hw11t9.update_student student_id payload (write_user request q now_utc) w in
  redis (snd x) = redis w /\ (forall e, fst x = Raise e -> db (snd x) = db w).
Proof.
  unfold Hw11t9.update_student, bind. rewrite write_user_run.
  destruct (match access_check _ _ _ _ with Return _ => _ | Raise _ => _ end) as [u|e];
    [|split; reflexivity].
  pose proof (repository_update_effect student_id payload w) as H.
  destruct (StudentsRepository.update student_id payload w) as [r w1].
  destruct H as (Hr & _ & [(e & -> & ->)|[(-> & ->)|(s & -> & _)]]);
    cbn [fst snd ret raise].
  - split; reflexivity.
  - split; reflexivity.
  - split; [exact Hr|]. intros e. discriminate.
Qed.

Lemma plain_delete_effect (student_id : Z) (request : Request)
    (q : option string) (now_utc : Z) (w : World) :
  let x := Hw11t9.delete_student student_id (write_user request q now_utc) w in
  redis (snd x) = redis w /\ (forall e, fst x = Raise e -> db (snd x) = db w).
Proof.
  unfold Hw11t9.delete_student, bind. rewrite write_user_run.
  destruct (match access_check _ _ _ _ with Return _ => _ | Raise _ => _ end) as [u|e];
    [|split; reflexivity].
  pose proof (repository_delete_effect student_id w) as H.
  destruct (StudentsRepository.delete student_id w) as [r w1].
  destruct H as (Hr & _ & [(e & -> & ->)|[(-> & ->)|(-> & _)]]);
    cbn [fst snd ret raise negb].
  - split; reflexivity.
  - split; reflexivity.
  - split; [exact Hr|]. intros e. discriminate.
Qed.

(** X15. On a coherent cache the create, update and delete requests of
    the cached router answer as those of the router without a cache and
    commit the same store, and they leave the cache coherent from the
    server time of their invalidation on. So does every write request
    as the application serves it, background task included, from the
    later of the two server times on. A world with an empty cache is
    coherent. *)
Theorem cached_writes_agree_with_plain_router :
  forall (t rnow : Z) (w : World) (request : Request) (q : option string) (now_utc : Z),
    coherent t w -> t <= rnow ->
    let user := write_user request q now_utc in
    (forall payload,
        fst (get_db (create_student payload user rnow) w)
        = fst (get_db (Hw11t9.create_student payload user) w) /\
        db (snd (get_db (create_student payload user rnow) w))
        = db (snd (get_db (Hw11t9.create_student payload user) w)) /\
        coherent rnow (snd (get_db (create_student payload user rnow) w))) /\
    (forall student_id payload,
        fst (get_db (update_student student_id payload user rnow) w)
        = fst (get_db (Hw11t9.update_student student_id payload user) w) /\
        db (snd (get_db (update_student student_id payload user rnow) w))
        = db (snd (get_db (Hw11t9.update_student student_id payload user) w)) /\
        coherent rnow (snd (get_db (update_student student_id payload user rnow) w))) /\
    (forall student_id,
        fst (get_db (delete_student student_id user rnow) w)
        = fst (get_db (Hw11t9.delete_student student_id user) w) /\
        db (snd (get_db (delete_student student_id user rnow) w))
        = db (snd (get_db (Hw11t9.delete_student student_id user) w)) /\
        coherent rnow (snd (get_db (delete_student student_id user rnow) w))) /\
    (forall op rnow_bg,
        t <= rnow_bg ->
        coherent (Z.max rnow rnow_bg)
          (snd (write_request float_of_str read_csv op request q now_utc
                  rnow rnow_bg w))) /\
    (forall w0, redis w0 = ∅ -> coherent t w0).
Proof.
  intros t rnow w request q now_utc Hcoh Hle user. split; [|split; [|split; [|split]]].
  - intros payload.
    destruct (plain_create_effect payload request q now_utc (close w)) as [Hr Hdb].
    apply (then_purge_agree _ _ t rnow w);
      [apply create_student_then_purge|exact Hr|exact Hdb|exact Hcoh|exact Hle].
  - intros student_id payload.
    destruct (plain_update_effect student_id payload request q now_utc (close w))
      as [Hr Hdb].
    apply (then_purge_agree _ _ t rnow w);
      [apply update_student_then_purge|exact Hr|exact Hdb|exact Hcoh|exact Hle].
  - intros student_id.
    destruct (plain_delete_effect student_id request q now_utc (close w)) as [Hr Hdb].
    apply (then_purge_agree _ _ t rnow w);
      [apply delete_student_then_purge|exact Hr|exact Hdb|exact Hcoh|exact Hle].
  - intros op rnow_bg Hbg.
    pose proof (write_request_outcome float_of_str read_csv op request q now_utc
                  rnow rnow_bg w) as O.
    destruct (write_request _ _ _ _ _ _ _ _ _) as [r w']. cbn [snd].
    destruct O as [_ [(e & _ & Hdb & Hr)|[(_ & _ & Hr)|(_ & _ & [[Hdb Hr]|Hr])]]].
    + apply (coherent_mono t); [|lia]. apply (coherent_same t w); assumption.
    + apply (coherent_mono rnow); [|lia]. apply (coherent_purged rnow _ _ Hr).
    + apply (coherent_mono t); [|lia]. apply (coherent_same t w); assumption.
    + apply (coherent_mono rnow_bg); [|lia]. apply (coherent_purged rnow_bg _ _ Hr).
  - intros w0. apply coherent_empty.
Qed.










End CacheCoherence.

(** ** The properties on the scenario *)

Lemma import_request_appends_valid_rows_witness :
  let import path :=
    serve float_demo csv_demo
      (import_students_from_csv (CSVImportRequest.mk path)
         (write_user (mkRequest (Some "Bearer A1")) None 2000))
      5000 world_bob_1 in
  List.map columns (students (db (snd (import "students.csv"))))
  = [("Petrov", "Pyotr", "FIVT", "2", 4.5%float)] /\
  db (snd (import "nan.csv")) = db world_bob_1.
Proof.
  assert (Hu : fst (get_db (write_user (mkRequest (Some "Bearer A1")) None 2000)
                      world_bob_1) = Return bob) by (vm_compute; reflexivity).
  assert (Hroom : forall path rows,
             csv_demo (CSVImportRequest.path (CSVImportRequest.mk path)) = Some rows ->
             (List.length rows <= 3)%nat ->
             has_room_for (List.length rows) (students (db world_bob_1))).
  { intros path rows _ Hlen. split; [lia|constructor]. }
  cbv zeta. split.
  - pose proof (import_request_appends_valid_rows float_demo csv_demo
                  (CSVImportRequest.mk "students.csv") (mkRequest (Some "Bearer A1"))
                  None 2000 5000 world_bob_1 bob Hu
                  (fun rows E =>
                     Hroom "students.csv" rows E
                       ltac:(injection E as <-; cbn; lia))) as H.
    cbv zeta in H. destruct (serve _ _ _ _ _) as [r w'].
    destruct H as (_ & _ & _ & _ & H).
    change (CSVImportRequest.path (CSVImportRequest.mk "students.csv"))
      with "students.csv" in H.
    assert (E : csv_demo "students.csv"
                = Some [ mkCsvRow (Some " Petrov") (Some "Pyotr ") (Some "FIVT")
                                  (Some "2") (Some "4.5");
                         mkCsvRow (Some "Sidorov") (Some "Ivan") (Some "FIVT")
                                  (Some "  ") (Some "4.5");
                         mkCsvRow (Some "Ivanov") (Some "Oleg") None (Some "3")
                                  (Some "five") ]) by reflexivity.
    rewrite E in H.
    assert (Ec : mapM stored_columns
                   (omap (row_columns float_demo)
                      [ mkCsvRow (Some " Petrov") (Some "Pyotr ") (Some "FIVT")
                                 (Some "2") (Some "4.5");
                        mkCsvRow (Some "Sidorov") (Some "Ivan") (Some "FIVT")
                                 (Some "  ") (Some "4.5");
                        mkCsvRow (Some "Ivanov") (Some "Oleg") None (Some "3")
                                 (Some "five") ])
                 = Some [("Petrov", "Pyotr", "FIVT", "2", 4.5%float)])
      by (vm_compute; reflexivity).
    rewrite Ec in H. destruct H as ((new & Hss & Hcols) & _).
    cbn [snd]. rewrite Hss. change (students (db world_bob_1)) with (@nil Student.t).
    exact Hcols.
  - pose proof (import_request_appends_valid_rows float_demo csv_demo
                  (CSVImportRequest.mk "nan.csv") (mkRequest (Some "Bearer A1"))
                  None 2000 5000 world_bob_1 bob Hu
                  (fun rows E =>
                     Hroom "nan.csv" rows E
                       ltac:(injection E as <-; cbn; lia))) as H.
    cbv zeta in H. destruct (serve _ _ _ _ _) as [r w'].
    destruct H as (_ & _ & _ & _ & H).
    change (CSVImportRequest.path (CSVImportRequest.mk "nan.csv")) with "nan.csv" in H.
    assert (E : csv_demo "nan.csv"
                = Some [ mkCsvRow (Some "Petrov") (Some "Pyotr") (Some "FIVT")
                                  (Some "2") (Some "4.5");
                         mkCsvRow (Some "Ivanov") (Some "Oleg") (Some "FIVT")
                                  (Some "3") (Some "nan") ]) by reflexivity.
    rewrite E in H.
    assert (Ec : mapM stored_columns
                   (omap (row_columns float_demo)
                      [ mkCsvRow (Some "Petrov") (Some "Pyotr") (Some "FIVT")
                                 (Some "2") (Some "4.5");
                        mkCsvRow (Some "Ivanov") (Some "Oleg") (Some "FIVT")
                                 (Some "3") (Some "nan") ])
                 = None) by (vm_compute; reflexivity).
    rewrite Ec in H. destruct H as [Hdb _]. exact Hdb.
Defined.

Lemma bulk_delete_request_removes_listed_witness :
  let bulk ids :=
    serve float_demo csv_demo
      (bulk_delete_students (BulkDeleteRequest.mk ids)
         (write_user (mkRequest (Some "Bearer A1")) None 2000))
      6000 world_petrov in
  students (db world_petrov) = [petrov_row] /\
  students (db (snd (bulk [7; 1]))) = [] /\
  db (snd (bulk [1; 2 ^ 63])) = db world_petrov.
Proof.
  assert (Hw : students (db world_petrov) = [petrov_row]) by (vm_compute; reflexivity).
  assert (Hu : fst (get_db (write_user (mkRequest (Some "Bearer A1")) None 2000)
                      world_petrov) = Return bob) by (vm_compute; reflexivity).
  cbv zeta. split; [exact Hw|]. split.
  - pose proof (bulk_delete_request_removes_listed float_demo csv_demo
                  (BulkDeleteRequest.mk [7; 1]) (mkRequest (Some "Bearer A1"))
                  None 2000 6000 world_petrov bob Hu ltac:(cbn; lia)) as H.
    cbv zeta in H. destruct (serve _ _ _ _ _) as [r w'].
    destruct H as (_ & _ & _ & _ & H).
    change (List.forallb sqlite_int (BulkDeleteRequest.ids (BulkDeleteRequest.mk [7; 1])))
      with true in H.
    destruct H as (H & _). cbn [snd]. rewrite H, Hw. reflexivity.
  - pose proof (bulk_delete_request_removes_listed float_demo csv_demo
                  (BulkDeleteRequest.mk [1; 2 ^ 63]) (mkRequest (Some "Bearer A1"))
                  None 2000 6000 world_petrov bob Hu ltac:(cbn; lia)) as H.
    cbv zeta in H. destruct (serve _ _ _ _ _) as [r w'].
    destruct H as (_ & _ & _ & _ & H).
    change (List.forallb sqlite_int
              (BulkDeleteRequest.ids (BulkDeleteRequest.mk [1; 2 ^ 63])))
      with false in H.
    destruct H as (H & _). exact H.
Defined.

Lemma cached_writes_agree_with_plain_router_witness :
  let user := write_user (mkRequest (Some "Bearer A1")) None 2000 in
  fst (get_db (create_student petrov user 5000) world_bob_1) = Return petrov_row /\
  fst (get_db (Hw11t9.create_student petrov user) world_bob_1) = Return petrov_row /\
  cache_coherent (fun _ => None) (fun _ => None) 5000 world_petrov.
Proof.
  assert (Hc : cache_coherent (fun _ => None) (fun _ => None) 0 world_bob_1).
  { apply coherent_empty. reflexivity. }
  destruct (cached_writes_agree_with_plain_router (fun _ => None) (fun _ => None)
              float_demo csv_demo 0 5000 world_bob_1 (mkRequest (Some "Bearer A1"))
              None 2000 Hc ltac:(lia)) as (H & _).
  destruct (H petrov) as (Hr & _ & Hcoh).
  assert (Hp : fst (get_db (Hw11t9.create_student petrov
                              (write_user (mkRequest (Some "Bearer A1")) None 2000))
                      world_bob_1) = Return petrov_row) by (vm_compute; reflexivity).
  cbv zeta. split; [rewrite Hr; exact Hp|]. split; [exact Hp|exact Hcoh].
Defined.



Lemma repository_create_then_get_witness :
  let minus_zero := StudentCreate.mk "Ivanov" "Oleg" "FIVT" "3" (-0)%float in
  let not_a_number := StudentCreate.mk "Ivanov" "Oleg" "FIVT" "3" PrimFloat.nan in
  has_room (students (txn world_petrov)) /\
  fst (StudentsRepository.create minus_zero world_petrov)
  = Return (Student.mk 2 "Ivanov" "Oleg" "FIVT" "3" 0%float) /\
  StudentsRepository.create not_a_number world_petrov
  = (Raise IntegrityError, world_petrov).
Proof.
  assert (Hroom : has_room (students (txn world_petrov))).
  { change (students (txn world_petrov)) with [petrov_row].
    constructor; [cbn; lia|constructor]. }
  cbv zeta. split; [exact Hroom|]. split.
  - pose proof (repository_create_then_get
                  (StudentCreate.mk "Ivanov" "Oleg" "FIVT" "3" (-0)%float)
                  world_petrov Hroom) as H.
    change (sqlite_real (StudentCreate.grade
                           (StudentCreate.mk "Ivanov" "Oleg" "FIVT" "3" (-0)%float)))
      with (Some 0%float) in H.
    destruct H as (s & w' & Hrun & Hcols & _). rewrite Hrun. cbn [fst].
    assert (Hid : Student.id s = 2).
    { assert (E : fst (StudentsRepository.create
                         (StudentCreate.mk "Ivanov" "Oleg" "FIVT" "3" (-0)%float)
                         world_petrov)
                  = Return (Student.mk 2 "Ivanov" "Oleg" "FIVT" "3" 0%float))
        by (vm_compute; reflexivity).
      rewrite Hrun in E. cbn [fst] in E. injection E as ->. reflexivity. }
    destruct s as [i ln fn fa co gr]. cbn in Hid, Hcols.
    injection Hcols as -> -> -> -> ->. subst i. reflexivity.
  - exact (repository_create_then_get
             (StudentCreate.mk "Ivanov" "Oleg" "FIVT" "3" PrimFloat.nan)
             world_petrov Hroom).
Defined.

Lemma repository_update_then_get_witness :
  let data := StudentUpdate.mk None None None None (Some (Some 5%float)) in
  let data_null := StudentUpdate.mk (Some None) None None None None in
  let data_nan := StudentUpdate.mk None None None None (Some (Some PrimFloat.nan)) in
  StudentsRepository.update 1 data_null world_petrov = (Raise IntegrityError, world_petrov) /\
  StudentsRepository.update 1 data_nan world_petrov = (Raise IntegrityError, world_petrov) /\
  StudentsRepository.update (2 ^ 63) data world_petrov = (Raise OverflowError, world_petrov) /\
  fst (StudentsRepository.update 1 data world_petrov)
  = Return (Some (Student.mk 1 "Petrov" "Pyotr" "FIVT" "2" 5%float)).
Proof.
  assert (Hs : student_by_id (txn world_petrov) 1 = Some petrov_row)
    by (vm_compute; reflexivity).
  cbv zeta. split; [|split; [|split]].
  - destruct (repository_update_then_get 1
                (StudentUpdate.mk (Some None) None None None None) world_petrov)
      as (_ & _ & H & _).
    exact (H petrov_row eq_refl Hs eq_refl).
  - destruct (repository_update_then_get 1
                (StudentUpdate.mk None None None None (Some (Some PrimFloat.nan)))
                world_petrov)
      as (_ & _ & _ & H).
    exact (H petrov_row eq_refl Hs eq_refl).
  - destruct (repository_update_then_get (2 ^ 63)
                (StudentUpdate.mk None None None None (Some (Some 5%float))) world_petrov)
      as (H & _).
    exact (H eq_refl).
  - destruct (repository_update_then_get 1
                (StudentUpdate.mk None None None None (Some (Some 5%float))) world_petrov)
      as (_ & _ & _ & H).
    specialize (H petrov_row eq_refl Hs eq_refl).
    change (stored_grade (Student.grade petrov_row)
              (StudentUpdate.grade
                 (StudentUpdate.mk None None None None (Some (Some 5%float)))))
      with (Some 5%float) in H.
    destruct H as (w' & -> & _). reflexivity.
Defined.

Lemma store_ok_invariant_witness : store_ok (db world_one) /\ store_ok (db world_two).
Proof.
  destruct store_ok_invariant as [H0 H].
  assert (H1 : store_ok (db world_one)).
  { destruct (H world_empty H0) as (Hreg & _).
    exact (Hreg (UserRegister.mk "bob" "secret123" false)). }
  split; [exact H1|].
  destruct (H world_one H1) as (Hreg & _).
  exact (Hreg (UserRegister.mk "carol" "secret123" true)).
Defined.

Lemma collision_fails_and_rolls_back_witness :
  post_auth_login (UserLogin.mk "bob" "secret123") ("A1", "R9") 2000 2001 world_bob_1
  = (Raise IntegrityError, close world_bob_1).
Proof.
  destruct collision_fails_and_rolls_back as [H _].
  apply (H (UserLogin.mk "bob" "secret123") ("A1", "R9") 2000 2001 world_bob_1 bob);
    vm_compute; reflexivity.
Defined.
